(** * claude-neovim: session and diff-coordination engine

    A shallow embedding of the TypeScript remote plugin
    (rplugin/node/claude-nvim/src): the MCP tool handlers of
    [mcp-tools.ts], the authenticated listener of [ws-server.ts] and the
    server manager of [claude-mcp.ts].

    Conventions of the embedding.
    - JavaScript numbers that hold buffer numbers, process ids, ports and
      counters are integers of [Z]; [NaN] is [None] where it can arise.
    - JavaScript strings are [string]; a character stands for one code unit.
    - An [async] function is executed to completion as one transition on
      an explicit state, an [await] being plain sequencing: this is a call
      that no other handler overlaps.  The handlers [acceptChanges] and
      [dropChanges] are modelled a second time, in [Async], with their
      [await] points, for calls that overlap.
    - A thrown exception is the [Throw] result of the state-and-error
      monad [M]; state changes made before the throw are kept, as in
      JavaScript. *)

From Stdlib Require Import ZArith String Ascii List Bool Lia.
From stdpp Require Import base option list gmap strings pretty fin_maps.

Open Scope string_scope.
Open Scope Z_scope.

(** ** A state-and-error monad for handler bodies *)

Inductive Res (A : Type) : Type :=
| Ok (a : A)
| Throw (message : string).
Arguments Ok {A} a.
Arguments Throw {A} message.

Definition M (S A : Type) : Type := S -> Res A * S.

Definition ret {S A} (a : A) : M S A := fun s => (Ok a, s).

Definition bind {S A B} (m : M S A) (k : A -> M S B) : M S B :=
  fun s => match m s with
           | (Ok a, s') => k a s'
           | (Throw e, s') => (Throw e, s')
           end.

Definition throw {S A} (message : string) : M S A := fun s => (Throw message, s).

(** [try { body } catch (error) { handler(message) }] *)
Definition try_catch {S A} (body : M S A) (handler : string -> M S A) : M S A :=
  fun s => match body s with
           | (Ok a, s') => (Ok a, s')
           | (Throw e, s') => handler e s'
           end.

Definition gets {S A} (f : S -> A) : M S A := fun s => (Ok (f s), s).
Definition modify {S} (f : S -> S) : M S unit := fun s => (Ok tt, f s).

Declare Scope monad_scope.
Delimit Scope monad_scope with monad.
Notation "x <- m ;; k" := (bind m (fun x => k))
  (at level 100, m at next level, right associativity) : monad_scope.
Notation "m ;;; k" := (bind m (fun _ => k))
  (at level 100, right associativity) : monad_scope.
Open Scope monad_scope.

(** ** JavaScript string and number helpers *)

Module Js.

(** [s.split(sep)] for a one-character separator. *)
Fixpoint split_go (sep : ascii) (cur : string) (s : string) : list string :=
  match s with
  | EmptyString => [cur]
  | String c rest =>
      if Ascii.eqb c sep then cur :: split_go sep EmptyString rest
      else split_go sep (cur +:+ String c EmptyString) rest
  end.

Definition split (sep : ascii) (s : string) : list string :=
  split_go sep EmptyString s.

(** [parts.join(sep)] *)
Fixpoint join (sep : string) (parts : list string) : string :=
  match parts with
  | [] => ""
  | [p] => p
  | p :: rest => p +:+ sep +:+ join sep rest
  end.

(** White space skipped by [parseInt] (the code units below 256). *)
Definition is_space (c : ascii) : bool :=
  let n := nat_of_ascii c in
  existsb (Nat.eqb n) [9; 10; 11; 12; 13; 32; 160]%nat.

Fixpoint trim_start (s : string) : string :=
  match s with
  | String c rest => if is_space c then trim_start rest else s
  | EmptyString => s
  end.

(** Value of a digit in radix 16 (which covers radix 10). *)
Definition digit_value (c : ascii) : option Z :=
  let n := Z.of_nat (nat_of_ascii c) in
  if (48 <=? n) && (n <=? 57) then Some (n - 48)
  else if (97 <=? n) && (n <=? 102) then Some (n - 87)
  else if (65 <=? n) && (n <=? 70) then Some (n - 55)
  else None.

Definition radix_digit (radix : Z) (c : ascii) : option Z :=
  match digit_value c with
  | Some d => if d <? radix then Some d else None
  | None => None
  end.

(** The longest prefix of radix digits, accumulated left to right;
    [seen] records whether at least one digit was read. *)
Fixpoint parse_digits (radix : Z) (seen : bool) (acc : Z) (s : string) : option Z :=
  match s with
  | String c rest =>
      match radix_digit radix c with
      | Some d => parse_digits radix true (acc * radix + d) rest
      | None => if seen then Some acc else None
      end
  | EmptyString => if seen then Some acc else None
  end.

Definition strip_sign (s : string) : Z * string :=
  match s with
  | String "-" rest => (-1, rest)
  | String "+" rest => (1, rest)
  | _ => (1, s)
  end.

Definition strip_hex_prefix (s : string) : Z * string :=
  match s with
  | String "0" (String "x" rest) => (16, rest)
  | String "0" (String "X" rest) => (16, rest)
  | _ => (10, s)
  end.

(** [parseInt(s)] with no radix argument; [None] is [NaN]. *)
Definition parseInt (s : string) : option Z :=
  let '(sign, s1) := strip_sign (trim_start s) in
  let '(radix, s2) := strip_hex_prefix s1 in
  match parse_digits radix false 0 s2 with
  | Some n => Some (sign * n)
  | None => None
  end.

(** [parseInt(a[i])]: an index past the end yields [undefined], which
    [parseInt] turns into the string "undefined" and then into [NaN]. *)
Definition parseInt_at (a : list string) (i : nat) : option Z :=
  match a !! i with
  | Some s => parseInt s
  | None => None
  end.

(** A JavaScript number holding an integer, or [NaN]. *)
Definition num : Type := option Z.

(** [a === b] on numbers: [NaN] equals nothing, not even itself. *)
Definition strict_eq (a b : num) : bool :=
  match a, b with
  | Some x, Some y => x =? y
  | _, _ => false
  end.

(** Template-literal conversion [`${n}`] of a number.  This, like
    [parseInt] above, is the JavaScript function on the integers a
    JavaScript number holds exactly and prints in full, those of absolute
    value below 2^53; buffer numbers and process ids are far smaller. *)
Definition num_to_string (n : num) : string :=
  match n with
  | Some z => pretty z
  | None => "NaN"
  end.

(** [s.substring(a, b)]: both indices are clamped to [0, length] and
    swapped when out of order. *)
Definition clamp (len i : Z) : Z := Z.max 0 (Z.min i len).

Fixpoint drop (n : nat) (s : string) : string :=
  match n, s with
  | O, _ => s
  | S n', String _ rest => drop n' rest
  | S _, EmptyString => EmptyString
  end.

Fixpoint take (n : nat) (s : string) : string :=
  match n, s with
  | O, _ => EmptyString
  | S n', String c rest => String c (take n' rest)
  | S _, EmptyString => EmptyString
  end.

Definition substring (s : string) (a b : Z) : string :=
  let len := Z.of_nat (String.length s) in
  let a' := clamp len a in
  let b' := clamp len b in
  let lo := Z.min a' b' in
  let hi := Z.max a' b' in
  take (Z.to_nat (hi - lo)) (drop (Z.to_nat lo) s).

(** [s.substring(a)] *)
Definition substring_from (s : string) (a : Z) : string :=
  substring s a (Z.of_nat (String.length s)).

End Js.

(** ** The editor (Neovim), seen through the calls the plugin makes *)

Module Nvim.

(** [LogLevel] of logger.ts, in the order of its numeric values. *)
Inductive LogLevel := ERROR | WARN | INFO | DEBUG.

Definition level_num (l : LogLevel) : Z :=
  match l with ERROR => 0 | WARN => 1 | INFO => 2 | DEBUG => 3 end.

Record Buffer := {
  buf_id : Z;
  buf_name : string;
  buf_lines : list string;
  buf_modified : bool
}.

(** What [nvim.outWrite] received: level, logger prefix, message (the
    time stamp of [formatMessage] is left out). *)
Definition LogLine : Type := LogLevel * string * string.

Record Editor := {
  pid : Z;                   (* getpid() *)
  cwd : string;              (* getcwd() *)
  unsafe_execute_lua : bool; (* g:claude_unsafe_execute_lua, read as a condition *)
  buffers : list Buffer;     (* nvim.buffers, in editor order *)
  current : Z;               (* number of nvim.buffer *)
  mode : string;             (* nvim.mode.mode *)
  visual_pos : Z * Z;        (* getpos('v'): lnum, col *)
  cursor_pos : Z * Z;        (* getcurpos(): lnum, col *)
  ide_port : Z;              (* g:claude_ide_port *)
  out : list LogLine         (* text written with nvim.outWrite *)
}.

Definition set_buffers (bs : list Buffer) (ed : Editor) : Editor :=
  {| pid := pid ed; cwd := cwd ed; unsafe_execute_lua := unsafe_execute_lua ed;
     buffers := bs; current := current ed; mode := mode ed;
     visual_pos := visual_pos ed; cursor_pos := cursor_pos ed;
     ide_port := ide_port ed; out := out ed |}.

Definition set_ide_port (p : Z) (ed : Editor) : Editor :=
  {| pid := pid ed; cwd := cwd ed; unsafe_execute_lua := unsafe_execute_lua ed;
     buffers := buffers ed; current := current ed; mode := mode ed;
     visual_pos := visual_pos ed; cursor_pos := cursor_pos ed;
     ide_port := p; out := out ed |}.

Definition outWrite (l : LogLine) (ed : Editor) : Editor :=
  {| pid := pid ed; cwd := cwd ed; unsafe_execute_lua := unsafe_execute_lua ed;
     buffers := buffers ed; current := current ed; mode := mode ed;
     visual_pos := visual_pos ed; cursor_pos := cursor_pos ed;
     ide_port := ide_port ed; out := (out ed ++ [l])%list |}.

(** [buffers.find(buf => buf.id === bufnr)]; a [NaN] equals no id. *)
Definition find_buffer (bufnr : option Z) (bs : list Buffer) : option Buffer :=
  match bufnr with
  | Some n => List.find (fun b => buf_id b =? n) bs
  | None => None
  end.

(** The buffer behind a handle, if the handle is still valid. *)
Definition valid_buffer (n : Z) (ed : Editor) : option Buffer :=
  find_buffer (Some n) (buffers ed).

Definition set_modified (v : bool) (b : Buffer) : Buffer :=
  {| buf_id := buf_id b; buf_name := buf_name b; buf_lines := buf_lines b;
     buf_modified := v |}.

(** [buffer.setOption('modified', v)] on the buffer numbered [n]. *)
Definition update_modified (n : Z) (v : bool) (bs : list Buffer) : list Buffer :=
  List.map (fun b => if buf_id b =? n then set_modified v b else b) bs.

(** [getline(first, last)] on the current buffer: the lines numbered
    [first..last] (from 1) that exist; empty when [first < 1]. *)
Definition getline_range (first last : Z) (ed : Editor) : list string :=
  match valid_buffer (current ed) ed with
  | Some b =>
      if first <? 1 then []
      else firstn (Z.to_nat (last - first + 1))
                  (skipn (Z.to_nat (first - 1)) (buf_lines b))
  | None => []
  end.

End Nvim.

(** ** Promises

    A pending result is a promise; its [resolve] function is identified
    with the promise's number.  The world keeps every call of a [resolve]
    function in order; as in JavaScript the first call settles the
    promise and later calls change nothing. *)

Module Promise.

(** One element of an MCP tool result's [content] array:
    [{ type: 'text', text }]. *)
Inductive ContentItem := TextItem (text : string).

Definition Payload : Type := list ContentItem.

Definition Calls : Type := list (nat * Payload).

(** The value a promise is settled with, [None] while it is pending. *)
Definition settled (p : nat) (calls : Calls) : option Payload :=
  match List.find (fun c => Nat.eqb (fst c) p) calls with
  | Some c => Some (snd c)
  | None => None
  end.

(** How often the [resolve] function of [p] has been called. *)
Definition call_count (p : nat) (calls : Calls) : nat :=
  List.length (List.filter (fun c => Nat.eqb (fst c) p) calls).

End Promise.

(** ** WebSockets, timers and files *)

Module Net.

(** [ws.readyState] of a server-side socket, which is never CONNECTING. *)
Inductive ReadyState := OPEN | CLOSING | CLOSED.

Definition is_open (r : ReadyState) : bool :=
  match r with OPEN => true | _ => false end.

(** The JSON-RPC messages the plugin writes itself, before
    [JSON.stringify]. *)
Inductive Frame :=
| Ping (id : Z)
| SelectionChanged (text filePath fileUrl : string)
    (start_ end_ : Z * Z) (isEmpty : bool)
| AtMentioned (filePath : string) (lineStart lineEnd : Z).

Record Socket := {
  readyState : ReadyState;
  sent : list Frame          (* frames handed to the peer, oldest first *)
}.

(** The state of one [setInterval] timer of [handleClient]: the socket
    and the [pingId] its callback closes over, and whether it still
    fires. *)
Record Heartbeat := {
  hb_ws : nat;
  pingId : Z;
  active : bool
}.

(** [ws.close()]: starts the closing handshake of an open socket. *)
Definition close_socket (s : Socket) : Socket :=
  match readyState s with
  | OPEN => {| readyState := CLOSING; sent := sent s |}
  | _ => s
  end.

Definition push_frame (f : Frame) (s : Socket) : Socket :=
  {| readyState := readyState s; sent := (sent s ++ [f])%list |}.

Definition cancel (h : Heartbeat) : Heartbeat :=
  {| hb_ws := hb_ws h; pingId := pingId h; active := false |}.

End Net.

(** [interface LockFile] of ws-server.ts.  A file holds
    [JSON.stringify(lockData, null, 2)]; the model keeps the object. *)
Inductive Transport := ws.

Record LockFile := {
  lf_pid : Z;
  lf_workspaceFolders : list string;
  lf_ideName : string;
  lf_transport : Transport;
  lf_authToken : string
}.

(** Outward calls whose order or number matters. *)
Inductive Event :=
| EvMkdir (path : string)
| EvWriteFile (path : string)
| EvUnlink (path : string)
| EvClearInterval (timer : nat)
| EvSocketClose (ws : nat)
| EvReject (code : Z) (reason : string).

(** ** The world outside the plugin's objects *)

(** Constants of the Node process that hosts the plugin. *)
Record Process := {
  env_log_level : Nvim.LogLevel;       (* CLAUDE_IDE_LOG_LEVEL, parsed *)
  homedir : string;                    (* os.homedir() *)
  process_pid : Z;                     (* process.pid *)
  process_cwd : string                 (* process.cwd() *)
}.

Record World := {
  nvim : Nvim.Editor;
  proc : Process;
  resolve_calls : Promise.Calls;       (* calls of resolve functions *)
  next_promise : nat;                  (* number of promises created *)
  files : gmap string LockFile;            (* files by path, as the value written *)
  dirs : gset string;                  (* directories that exist *)
  sockets : gmap nat Net.Socket;       (* WebSocket objects by identity *)
  timers : gmap nat Net.Heartbeat;     (* timers by handle *)
  trace : list Event                   (* outward calls, oldest first *)
}.

Definition with_nvim (f : Nvim.Editor -> Nvim.Editor) (w : World) : World :=
  {| nvim := f (nvim w); proc := proc w; resolve_calls := resolve_calls w;
     next_promise := next_promise w; files := files w; dirs := dirs w;
     sockets := sockets w; timers := timers w; trace := trace w |}.

Definition with_resolve_call (p : nat) (v : Promise.Payload) (w : World) : World :=
  {| nvim := nvim w; proc := proc w;
     resolve_calls := (resolve_calls w ++ [(p, v)])%list;
     next_promise := next_promise w; files := files w; dirs := dirs w;
     sockets := sockets w; timers := timers w; trace := trace w |}.

Definition with_next_promise (n : nat) (w : World) : World :=
  {| nvim := nvim w; proc := proc w; resolve_calls := resolve_calls w;
     next_promise := n; files := files w; dirs := dirs w;
     sockets := sockets w; timers := timers w; trace := trace w |}.

Definition with_files (f : gmap string LockFile -> gmap string LockFile) (w : World) : World :=
  {| nvim := nvim w; proc := proc w; resolve_calls := resolve_calls w;
     next_promise := next_promise w; files := f (files w); dirs := dirs w;
     sockets := sockets w; timers := timers w; trace := trace w |}.

Definition with_dirs (f : gset string -> gset string) (w : World) : World :=
  {| nvim := nvim w; proc := proc w; resolve_calls := resolve_calls w;
     next_promise := next_promise w; files := files w; dirs := f (dirs w);
     sockets := sockets w; timers := timers w; trace := trace w |}.

Definition with_sockets (f : gmap nat Net.Socket -> gmap nat Net.Socket) (w : World) : World :=
  {| nvim := nvim w; proc := proc w; resolve_calls := resolve_calls w;
     next_promise := next_promise w; files := files w; dirs := dirs w;
     sockets := f (sockets w); timers := timers w; trace := trace w |}.

Definition with_timers (f : gmap nat Net.Heartbeat -> gmap nat Net.Heartbeat) (w : World) : World :=
  {| nvim := nvim w; proc := proc w; resolve_calls := resolve_calls w;
     next_promise := next_promise w; files := files w; dirs := dirs w;
     sockets := sockets w; timers := f (timers w); trace := trace w |}.

Definition with_event (e : Event) (w : World) : World :=
  {| nvim := nvim w; proc := proc w; resolve_calls := resolve_calls w;
     next_promise := next_promise w; files := files w; dirs := dirs w;
     sockets := sockets w; timers := timers w; trace := (trace w ++ [e])%list |}.

(** [Logger.write] of logger.ts: the message is skipped when its level is
    above the logger's threshold; a failing [outWrite] is swallowed, so
    the call never throws. *)
Definition write_line (threshold : Nvim.LogLevel) (prefix : string)
    (level : Nvim.LogLevel) (message : string) (ed : Nvim.Editor) : Nvim.Editor :=
  if Nvim.level_num threshold <? Nvim.level_num level then ed
  else Nvim.outWrite (level, prefix, message) ed.
Arguments write_line : simpl never.

Definition logger_write (prefix : string) (level : Nvim.LogLevel) (message : string)
    (w : World) : World :=
  with_nvim (write_line (env_log_level (proc w)) prefix level message) w.

(** [Logger.child] of logger.ts on the logger's prefix. *)
Definition logger_child (prefix childPrefix : string) : string :=
  if String.eqb prefix "" then childPrefix else prefix +:+ ":" +:+ childPrefix.

(** ** mcp-tools.ts: the pending-diff table and its handlers *)

Module McpTools.

(** A value of the [diffPromises] map.  [resolve] and [reject] belong to
    one promise; [reject] is stored and never called. *)
Record DiffEntry := {
  resolve : nat;
  filePath : string;
  bufnr : Z
}.

(** What one call of [registerNvimMcpTools] closes over, with the world. *)
Record State := {
  diffPromises : gmap string DiffEntry;
  world : World
}.

Definition with_world (f : World -> World) (s : State) : State :=
  {| diffPromises := diffPromises s; world := f (world s) |}.

Definition with_diffPromises
    (f : gmap string DiffEntry -> gmap string DiffEntry) (s : State) : State :=
  {| diffPromises := f (diffPromises s); world := world s |}.

(** The key [`${pid}/${bufnr}`] built by openDiff, ClaudeAccept,
    ClaudeDrop, close_tab and the BufWipeout handler. *)
Definition changeId_of (pid : Z) (bufnr : option Z) : string :=
  pretty pid +:+ "/" +:+ Js.num_to_string bufnr.

Definition LF : string := String (ascii_of_nat 10) EmptyString.

Definition FILE_SAVED (content : string) : Promise.Payload :=
  [Promise.TextItem "FILE_SAVED"; Promise.TextItem content].
Definition DIFF_REJECTED : Promise.Payload := [Promise.TextItem "DIFF_REJECTED"].
Definition TAB_CLOSED : Promise.Payload := [Promise.TextItem "TAB_CLOSED"].

Section Register.

(** The [logger] argument of [registerNvimMcpTools] (its prefix). *)
Variable logger : option string.

(** [nvim.call('bufnr', [name])] and [nvim.command(cmd)]: the editor's
    name resolution and command interpreter are not part of the
    plugin and are taken as given. *)
Variable vim_bufnr : Nvim.Editor -> string -> Z.
Variable vim_command : string -> Nvim.Editor -> Res unit * Nvim.Editor.

Definition toolLogger : string :=
  match logger with
  | Some prefix => logger_child prefix "Tools"
  | None => "Tools"
  end.

Definition toolLogger_error (message : string) : M State unit :=
  modify (with_world (logger_write toolLogger Nvim.ERROR message)).
Definition toolLogger_info (message : string) : M State unit :=
  modify (with_world (logger_write toolLogger Nvim.INFO message)).

(** [await nvim.buffers]: handles of all buffers. *)
Definition nvim_buffers : M State (list Nvim.Buffer) :=
  gets (fun s => Nvim.buffers (nvim (world s))).

(** [await buffer.lines]; the request fails on an invalid handle. *)
Definition buffer_lines (buffer : Nvim.Buffer) : M State (list string) :=
  fun s => match Nvim.valid_buffer (Nvim.buf_id buffer) (nvim (world s)) with
           | Some b => (Ok (Nvim.buf_lines b), s)
           | None => (Throw "Invalid buffer id", s)
           end.

(** [await buffer.setOption('modified', v)] *)
Definition buffer_setOption_modified (buffer : Nvim.Buffer) (v : bool) : M State unit :=
  fun s => match Nvim.valid_buffer (Nvim.buf_id buffer) (nvim (world s)) with
           | Some _ =>
               (Ok tt,
                with_world (with_nvim (fun ed =>
                  Nvim.set_buffers
                    (Nvim.update_modified (Nvim.buf_id buffer) v (Nvim.buffers ed)) ed)) s)
           | None => (Throw "Invalid buffer id", s)
           end.

(** Calling the stored [resolve] function. *)
Definition call_resolve (e : DiffEntry) (v : Promise.Payload) : M State unit :=
  modify (with_world (with_resolve_call (resolve e) v)).

Definition acceptChanges (changeId : string) : M State bool :=
  entry <- gets (fun s => diffPromises s !! changeId) ;;
  match entry with
  | None => ret false
  | Some e =>
      try_catch
        (let bufnr := Js.parseInt_at (Js.split "/" changeId) 1 in
         buffers <- nvim_buffers ;;
         match Nvim.find_buffer bufnr buffers with
         | None =>
             toolLogger_error ("Buffer " +:+ Js.num_to_string bufnr +:+ " not found") ;;;
             ret false
         | Some buffer =>
             lines <- buffer_lines buffer ;;
             let content := Js.join LF lines in
             buffer_setOption_modified buffer false ;;;
             modify (with_diffPromises (delete changeId)) ;;;
             call_resolve e (FILE_SAVED content) ;;;
             toolLogger_info ("Accepted changes for " +:+ filePath e) ;;;
             ret true
         end)
        (fun message =>
           toolLogger_error ("Error accepting changes: " +:+ message) ;;;
           ret false)
  end.

Definition dropChanges (changeId : string) : M State bool :=
  entry <- gets (fun s => diffPromises s !! changeId) ;;
  match entry with
  | None => ret false
  | Some e =>
      try_catch
        (let bufnr := Js.parseInt_at (Js.split "/" changeId) 1 in
         buffers <- nvim_buffers ;;
         match Nvim.find_buffer bufnr buffers with
         | Some buffer => buffer_setOption_modified buffer false
         | None => ret tt
         end ;;;
         modify (with_diffPromises (delete changeId)) ;;;
         call_resolve e DIFF_REJECTED ;;;
         toolLogger_info "Rejected changes" ;;;
         ret true)
        (fun message =>
           toolLogger_error ("Error rejecting changes: " +:+ message) ;;;
           ret false)
  end.

(** The executor of the promise created at the end of openDiff:
    [diffPromises.set(changeId, { resolve, reject, filePath, bufnr })].
    The result is the number of the promise the tool call awaits. *)
Definition new_pending_diff (changeId new_file_path : string) (bufnr : Z) : M State nat :=
  fun s =>
    let p := next_promise (world s) in
    (Ok p,
     {| diffPromises :=
          <[changeId := {| resolve := p; filePath := new_file_path; bufnr := bufnr |}]>
            (diffPromises s);
        world := with_next_promise (S p) (world s) |}).

Definition nvim_command (cmd : string) : M State unit :=
  fun s => let '(r, ed) := vim_command cmd (nvim (world s)) in
           (r, with_world (with_nvim (fun _ => ed)) s).

(** Tool 2: close_tab. *)
Definition close_tab (tab_name : string) : M State Promise.Payload :=
  bufnr <- gets (fun s => vim_bufnr (nvim (world s)) tab_name) ;;
  (if negb (bufnr =? -1) then
     pid <- gets (fun s => Nvim.pid (nvim (world s))) ;;
     let changeId := changeId_of pid (Some bufnr) in
     isDiffBuffer <- gets (fun s => bool_decide (is_Some (diffPromises s !! changeId))) ;;
     if (isDiffBuffer : bool) then nvim_command ("bdelete! " +:+ pretty bufnr)
     else nvim_command ("bdelete " +:+ pretty bufnr)
   else ret tt) ;;;
  ret TAB_CLOSED.

End Register.

End McpTools.

(** ** ws-server.ts: the authenticated listener and its lock file *)

Module WsServer.

(** [info.req.headers[name]]: absent, one value, or a list of values. *)
Inductive Header :=
| Absent
| Single (value : string)
| Multiple (values : list string).

(** What [verifyClient] passes to its callback. *)
Inductive Verdict :=
| Accept
| Reject (code : Z) (reason : string).

(** [authHeader === authToken]: strict equality with a string. *)
Definition header_is (authHeader : Header) (authToken : string) : bool :=
  match authHeader with
  | Single value => String.eqb value authToken
  | _ => false
  end.

Definition verifyClient (authToken : string) (authHeader : Header) : Verdict :=
  if header_is authHeader authToken then Accept
  else Reject 401 "Unauthorized".

(** [crypto.randomUUID()]: a version-4 UUID in its canonical text form,
    as a function of the 128 random bits drawn. *)
Definition hex_char (n : N) : ascii :=
  match n with
  | 0 => "0" | 1 => "1" | 2 => "2" | 3 => "3" | 4 => "4" | 5 => "5"
  | 6 => "6" | 7 => "7" | 8 => "8" | 9 => "9" | 10 => "a" | 11 => "b"
  | 12 => "c" | 13 => "d" | 14 => "e" | _ => "f"
  end%N%char.

(** The hexadecimal digit at position [i] from the left (0..31), with
    the version and variant digits forced. *)
Definition uuid_digit (rnd : N) (i : nat) : N :=
  let raw := N.land (N.shiftr rnd (4 * (31 - N.of_nat i))) 15 in
  if Nat.eqb i 12 then 4%N
  else if Nat.eqb i 16 then N.lor 8 (N.land raw 3)
  else raw.

Fixpoint hex_run (rnd : N) (first count : nat) : string :=
  match count with
  | O => EmptyString
  | S count' => String (hex_char (uuid_digit rnd first)) (hex_run rnd (S first) count')
  end.

Definition randomUUID (rnd : N) : string :=
  hex_run rnd 0 8 +:+ "-" +:+ hex_run rnd 8 4 +:+ "-" +:+ hex_run rnd 12 4
    +:+ "-" +:+ hex_run rnd 16 4 +:+ "-" +:+ hex_run rnd 20 12.

(** [interface ClaudeWebSocketServerConfig] *)
Record Config := {
  cfg_port : Z;
  cfg_path : option string;
  cfg_workspaceFolders : option (list string);
  cfg_ideName : option string
}.

(** [value || fallback] on an optional string: the empty string is
    falsy. *)
Definition or_string (value : option string) (fallback : string) : string :=
  match value with
  | Some v => if String.eqb v "" then fallback else v
  | None => fallback
  end.

(** [path.join(a, b)] for an absolute, normalised [a] and a relative
    [b] without dots or doubled slashes. *)
Definition path_join (a b : string) : string :=
  if String.eqb a "/" then a +:+ b else a +:+ "/" +:+ b.

Definition claudeDir (home : string) : string :=
  path_join (path_join home ".claude") "ide".

(** Lock file path: ~/.claude/ide/[port].lock *)
Definition lockFilePath (home : string) (port : Z) : string :=
  path_join (claudeDir home) (pretty port +:+ ".lock").

(** The server object returned, with what its closures hold. *)
Record Wss := {
  wss_port : Z;
  wss_path : string;
  authToken : string;
  wss_lockFilePath : string
}.

Definition existsSync (path : string) (w : World) : bool :=
  bool_decide (is_Some (files w !! path)) || bool_decide (path ∈ dirs w).

Definition mkdirSync (path : string) : M World unit :=
  modify (fun w => with_event (EvMkdir path) (with_dirs (fun d => {[path]} ∪ d) w)).

Definition writeFileSync (path : string) (data : LockFile) : M World unit :=
  modify (fun w => with_event (EvWriteFile path) (with_files <[path := data]> w)).

Definition unlinkSync (path : string) : M World unit :=
  fun w => match files w !! path with
           | Some _ => (Ok tt, with_event (EvUnlink path) (with_files (delete path) w))
           | None => (Throw "ENOENT: no such file or directory", w)
           end.

(** [new WebSocketServer({ host, port, path, verifyClient })] starts to
    listen at once, and [listen] of Node throws a [RangeError] for a port
    outside 0..65535.  The wording of its message is Node's. *)
Definition valid_port (port : Z) : bool := (0 <=? port) && (port <? 65536).

Definition bad_port (port : Z) : string :=
  "options.port should be >= 0 and < 65536. Received type number ("
  +:+ pretty port +:+ ").".

(** [rnd] is the randomness [randomUUID] draws. *)
Definition createClaudeWebSocketServer (rnd : N) (config : Config) : M World Wss :=
  let port := cfg_port config in
  let path := or_string (cfg_path config) "/" in
  process_cwd <- gets (fun w => process_cwd (proc w)) ;;
  let workspaceFolders :=
    match cfg_workspaceFolders config with
    | Some folders => folders
    | None => [process_cwd]
    end in
  let ideName := or_string (cfg_ideName config) "neovim" in
  let authToken := randomUUID rnd in
  home <- gets (fun w => homedir (proc w)) ;;
  let claudeDir := claudeDir home in
  let lockFilePath := lockFilePath home port in
  dir_exists <- gets (existsSync claudeDir) ;;
  (if (dir_exists : bool) then ret tt else mkdirSync claudeDir) ;;;
  pid <- gets (fun w => process_pid (proc w)) ;;
  let lockData :=
    {| lf_pid := pid; lf_workspaceFolders := workspaceFolders;
       lf_ideName := ideName; lf_transport := ws; lf_authToken := authToken |} in
  writeFileSync lockFilePath lockData ;;;
  if valid_port port then
    ret {| wss_port := port; wss_path := path; authToken := authToken;
           wss_lockFilePath := lockFilePath |}
  else throw (bad_port port).

(** The listener registered with [wss.on('close', ...)]. *)
Definition on_close (server : Wss) : M World unit :=
  try_catch
    (file_exists <- gets (existsSync (wss_lockFilePath server)) ;;
     if (file_exists : bool) then unlinkSync (wss_lockFilePath server) else ret tt)
    (fun _ => ret tt).

(** ws-transport.ts, [WebSocketTransport.start]: succeeds on an open
    socket and rejects on a closing or closed one. *)
Definition transport_start (socket : nat) : M World unit :=
  fun w => match sockets w !! socket with
           | Some s =>
               if Net.is_open (Net.readyState s) then (Ok tt, w)
               else (Throw "WebSocket is not in a valid state", w)
           | None => (Throw "WebSocket is not in a valid state", w)
           end.

(** [ws.close()] *)
Definition ws_close (socket : nat) : M World unit :=
  modify (fun w => with_event (EvSocketClose socket)
                     (with_sockets (alter Net.close_socket socket) w)).

End WsServer.

(** ** claude-mcp.ts: the server manager *)

Module Manager.

(** The fields of [ClaudeMcpServerManager].  A [WebSocket] is its number
    in the world; an [McpServer] is the index in [changeHandlers] of the
    tools registered on it.  [clientServers] is a [Map] iterated in
    insertion order, hence a list.  [closeListeners] are the sockets on
    which [handleClient] has registered its 'close' listener. *)
Record T := {
  wss : option WsServer.Wss;
  port : Z;
  clientServers : list (nat * nat);
  changeHandlers : list (gmap string McpTools.DiffEntry);
  selectionTracking : gmap Js.num Z;
  lastSelectionBuffer : option Js.num;
  healthCheckIntervals : gmap nat nat;
  closeListeners : gset nat
}.

Record State := {
  this : T;
  world : World
}.

Definition with_world (f : World -> World) (s : State) : State :=
  {| this := this s; world := f (world s) |}.

Definition with_this (f : T -> T) (s : State) : State :=
  {| this := f (this s); world := world s |}.

Definition set_wss (v : option WsServer.Wss) (m : T) : T :=
  {| wss := v; port := port m; clientServers := clientServers m;
     changeHandlers := changeHandlers m; selectionTracking := selectionTracking m;
     lastSelectionBuffer := lastSelectionBuffer m;
     healthCheckIntervals := healthCheckIntervals m;
     closeListeners := closeListeners m |}.

Definition set_clientServers (v : list (nat * nat)) (m : T) : T :=
  {| wss := wss m; port := port m; clientServers := v;
     changeHandlers := changeHandlers m; selectionTracking := selectionTracking m;
     lastSelectionBuffer := lastSelectionBuffer m;
     healthCheckIntervals := healthCheckIntervals m;
     closeListeners := closeListeners m |}.

Definition set_changeHandlers (v : list (gmap string McpTools.DiffEntry)) (m : T) : T :=
  {| wss := wss m; port := port m; clientServers := clientServers m;
     changeHandlers := v; selectionTracking := selectionTracking m;
     lastSelectionBuffer := lastSelectionBuffer m;
     healthCheckIntervals := healthCheckIntervals m;
     closeListeners := closeListeners m |}.

Definition set_selectionTracking (v : gmap Js.num Z) (m : T) : T :=
  {| wss := wss m; port := port m; clientServers := clientServers m;
     changeHandlers := changeHandlers m; selectionTracking := v;
     lastSelectionBuffer := lastSelectionBuffer m;
     healthCheckIntervals := healthCheckIntervals m;
     closeListeners := closeListeners m |}.

Definition set_lastSelectionBuffer (v : option Js.num) (m : T) : T :=
  {| wss := wss m; port := port m; clientServers := clientServers m;
     changeHandlers := changeHandlers m; selectionTracking := selectionTracking m;
     lastSelectionBuffer := v;
     healthCheckIntervals := healthCheckIntervals m;
     closeListeners := closeListeners m |}.

Definition set_healthCheckIntervals (v : gmap nat nat) (m : T) : T :=
  {| wss := wss m; port := port m; clientServers := clientServers m;
     changeHandlers := changeHandlers m; selectionTracking := selectionTracking m;
     lastSelectionBuffer := lastSelectionBuffer m;
     healthCheckIntervals := v;
     closeListeners := closeListeners m |}.

Definition set_closeListeners (v : gset nat) (m : T) : T :=
  {| wss := wss m; port := port m; clientServers := clientServers m;
     changeHandlers := changeHandlers m; selectionTracking := selectionTracking m;
     lastSelectionBuffer := lastSelectionBuffer m;
     healthCheckIntervals := healthCheckIntervals m;
     closeListeners := v |}.

(** [new ClaudeMcpServerManager(plugin, port)] with the port already
    chosen. *)
Definition create (port : Z) : T :=
  {| wss := None; port := port; clientServers := []; changeHandlers := [];
     selectionTracking := ∅; lastSelectionBuffer := None;
     healthCheckIntervals := ∅; closeListeners := ∅ |}.

(** [Map.set] and [Map.delete] on the insertion-ordered list. *)
Fixpoint map_set (k v : nat) (m : list (nat * nat)) : list (nat * nat) :=
  match m with
  | [] => [(k, v)]
  | (k', v') :: rest =>
      if Nat.eqb k' k then (k, v) :: rest else (k', v') :: map_set k v rest
  end.

Definition map_delete (k : nat) (m : list (nat * nat)) : list (nat * nat) :=
  List.filter (fun kv => negb (Nat.eqb (fst kv) k)) m.

(** [this.logger = new Logger(plugin, 'MCP')] *)
Definition logger : string := "MCP".

Definition log (level : Nvim.LogLevel) (message : string) : M State unit :=
  modify (with_world (logger_write logger level message)).

Definition isRunning (m : T) : bool := bool_decide (is_Some (wss m)).

Definition getPort (m : T) : Z := port m.

Definition getClientCount (m : T) : nat := List.length (clientServers m).

(** Running one handler of [changeHandlers] on its table and the
    world, in array order, until one returns [true]. *)
Fixpoint first_handler (f : M McpTools.State bool)
    (handlers : list (gmap string McpTools.DiffEntry)) (w : World)
    : Res bool * list (gmap string McpTools.DiffEntry) * World :=
  match handlers with
  | [] => (Ok false, [], w)
  | h :: rest =>
      match f {| McpTools.diffPromises := h; McpTools.world := w |} with
      | (Ok true, s') => (Ok true, McpTools.diffPromises s' :: rest, McpTools.world s')
      | (Ok false, s') =>
          let '(r, rest', w') := first_handler f rest (McpTools.world s') in
          (r, McpTools.diffPromises s' :: rest', w')
      | (Throw e, s') => (Throw e, McpTools.diffPromises s' :: rest, McpTools.world s')
      end
  end.

Definition for_handlers (f : M McpTools.State bool) : M State bool :=
  fun s =>
    let '(r, handlers', w') := first_handler f (changeHandlers (this s)) (world s) in
    (r, {| this := set_changeHandlers handlers' (this s); world := w' |}).

Definition acceptChanges (changeId : string) : M State bool :=
  for_handlers (McpTools.acceptChanges (Some logger) changeId).

Definition dropChanges (changeId : string) : M State bool :=
  for_handlers (McpTools.dropChanges (Some logger) changeId).

(** [for (const ws of this.clientServers.keys())
      if (ws.readyState === ws.OPEN) ws.send(notificationStr)] *)
Definition send_if_open (frame : Net.Frame) (socket : Net.Socket) : Net.Socket :=
  if Net.is_open (Net.readyState socket) then Net.push_frame frame socket else socket.

Definition broadcast (frame : Net.Frame) : M State unit :=
  modify (fun s =>
    with_world (with_sockets (fun m =>
      fold_left (fun m' kv => alter (send_if_open frame) (fst kv) m')
                (clientServers (this s)) m)) s).

(** The position type of a notification: [{ line, character }]. *)
Definition is_visual (mode : string) : bool :=
  String.eqb mode "v" || String.eqb mode "V"
  || String.eqb mode (String (ascii_of_nat 22) EmptyString).

(** The text between the two ends of a visual selection, from the lines
    [getline(startLine, endLine)] returned. *)
Definition selected_text (lines : list string) (startCol endCol : Z) : string :=
  match lines with
  | [] => ""
  | [only] => Js.substring only (startCol - 1) endCol
  | first :: _ =>
      Js.substring_from first (startCol - 1) +:+ McpTools.LF
      +:+ Js.join McpTools.LF (removelast (List.tl lines))
      +:+ (if (1 <? Z.of_nat (List.length lines)) then McpTools.LF else "")
      +:+ Js.substring (List.last lines "") 0 endCol
  end.

Definition selection_changed (text filePath : string) (start_ end_ : Z * Z)
    (isEmpty : bool) : Net.Frame :=
  Net.SelectionChanged text filePath ("file://" +:+ filePath) start_ end_ isEmpty.

Definition sendSelectionChanged (bufnr : Js.num) : M State unit :=
  running <- gets (fun s => isRunning (this s)) ;;
  if negb running then ret tt
  else
    try_catch
      (buffers <- gets (fun s => Nvim.buffers (nvim (world s))) ;;
       match Nvim.find_buffer bufnr buffers with
       | None => ret tt
       | Some buffer =>
           let filePath := Nvim.buf_name buffer in
           if String.eqb filePath "" then ret tt
           else
             mode <- gets (fun s => Nvim.mode (nvim (world s))) ;;
             let isVisual := is_visual mode in
             ed <- gets (fun s => nvim (world s)) ;;
             let frame :=
               if isVisual then
                 let startPos := Nvim.visual_pos ed in
                 let endPos := Nvim.cursor_pos ed in
                 let swap :=
                   (fst endPos <? fst startPos)
                   || ((fst startPos =? fst endPos) && (snd endPos <? snd startPos)) in
                 let '(startLine, startCol, endLine, endCol) :=
                   if swap then (fst endPos, snd endPos, fst startPos, snd startPos)
                   else (fst startPos, snd startPos, fst endPos, snd endPos) in
                 let start_ := (startLine - 1, startCol - 1) in
                 let end_ := (endLine - 1, endCol) in
                 let isEmpty := (fst start_ =? fst end_) && (snd start_ =? snd end_) in
                 let lines := Nvim.getline_range startLine endLine ed in
                 selection_changed (selected_text lines startCol endCol)
                   filePath start_ end_ isEmpty
               else
                 let cursorPos := Nvim.cursor_pos ed in
                 let start_ := (fst cursorPos - 1, snd cursorPos - 1) in
                 selection_changed "" filePath start_ start_ true in
             log Nvim.DEBUG "Selection changed" ;;;
             broadcast frame ;;;
             modify (with_this (set_lastSelectionBuffer (Some bufnr)))
       end)
      (fun message => log Nvim.WARN ("Error sending selection: " +:+ message))%string.

Definition sendEmptySelection (bufnr : Js.num) : M State unit :=
  running <- gets (fun s => isRunning (this s)) ;;
  if negb running then ret tt
  else
    try_catch
      (buffers <- gets (fun s => Nvim.buffers (nvim (world s))) ;;
       match Nvim.find_buffer bufnr buffers with
       | None => ret tt
       | Some buffer =>
           let filePath := Nvim.buf_name buffer in
           if String.eqb filePath "" then ret tt
           else
             cursorPos <- gets (fun s => Nvim.cursor_pos (nvim (world s))) ;;
             let start_ := (fst cursorPos - 1, snd cursorPos - 1) in
             log Nvim.DEBUG "Selection changed" ;;;
             broadcast (selection_changed "" filePath start_ start_ true)
       end)
      (fun message => log Nvim.WARN ("Error sending empty selection: " +:+ message))%string.

Definition startSelectionTracking (bufnr : Js.num) : M State unit :=
  tracked <- gets (fun s => bool_decide (is_Some (selectionTracking (this s) !! bufnr))) ;;
  if (tracked : bool) then ret tt
  else
    modify (with_this (fun m => set_selectionTracking (<[bufnr := 1]> (selectionTracking m)) m)) ;;;
    log Nvim.INFO ("Started selection tracking for buffer " +:+ Js.num_to_string bufnr).

Definition stopSelectionTracking (bufnr : Js.num) : M State unit :=
  tracked <- gets (fun s => bool_decide (is_Some (selectionTracking (this s) !! bufnr))) ;;
  if negb tracked then ret tt
  else
    modify (with_this (fun m => set_selectionTracking (delete bufnr (selectionTracking m)) m)) ;;;
    last <- gets (fun s => lastSelectionBuffer (this s)) ;;
    (match last with
     | Some n =>
         if Js.strict_eq n bufnr then
           sendEmptySelection bufnr ;;;
           modify (with_this (set_lastSelectionBuffer None))
         else ret tt
     | None => ret tt
     end) ;;;
    log Nvim.INFO ("Stopped selection tracking for buffer " +:+ Js.num_to_string bufnr).

Definition handleSelectionUpdate (bufnr : Js.num) : M State unit :=
  tracked <- gets (fun s => bool_decide (is_Some (selectionTracking (this s) !! bufnr))) ;;
  if negb tracked then ret tt
  else sendSelectionChanged bufnr.

Definition sendAtMention (filePath : string) (lineStart lineEnd : Z) : M State unit :=
  running <- gets (fun s => isRunning (this s)) ;;
  if negb running then ret tt
  else
    log Nvim.DEBUG "At-mention" ;;;
    broadcast (Net.AtMentioned filePath lineStart lineEnd).

Definition lift {A} (m : M World A) : M State A :=
  fun s => let '(r, w) := m (world s) in (r, {| this := this s; world := w |}).

(** [setInterval(callback, 3000)] in [handleClient], with [pingId = 0]. *)
Definition setInterval (socket : nat) : M State nat :=
  fun s =>
    let t := fresh (dom (timers (world s))) in
    (Ok t,
     with_world (with_timers
       <[t := {| Net.hb_ws := socket; Net.pingId := 0; Net.active := true |}]>) s).

Definition clearInterval (t : nat) : M State unit :=
  modify (with_world (fun w =>
    with_event (EvClearInterval t) (with_timers (alter Net.cancel t) w))).

(** [mcpServer.connect(transport)] awaits [transport.start()]. *)
Definition mcpServer_connect (socket : nat) : M State unit :=
  lift (WsServer.transport_start socket).

(** [mcpServer.close()] awaits [WebSocketTransport.close()]: nothing on
    a closed socket; otherwise [ws.close()] and the wait for the
    socket's 'close' event.  The manager's own 'close' listener is the
    separate transition [on_socket_close]. *)
Definition mark_closed (s : Net.Socket) : Net.Socket :=
  {| Net.readyState := Net.CLOSED; Net.sent := Net.sent s |}.

Definition mcpServer_close (socket : nat) : M State unit :=
  state <- gets (fun s => Net.readyState <$> sockets (world s) !! socket) ;;
  match state with
  | Some Net.CLOSED => ret tt
  | _ =>
      lift (WsServer.ws_close socket) ;;;
      modify (with_world (with_sockets (alter mark_closed socket)))
  end.

Definition handleClient (socket : nat) : M State unit :=
  try_catch
    (unsafeExecuteLua <- gets (fun s => Nvim.unsafe_execute_lua (nvim (world s))) ;;
     (if (unsafeExecuteLua : bool) then
        log Nvim.WARN "Unsafe Lua code execution is ENABLED via g:claude_unsafe_execute_lua"
      else ret tt) ;;;
     mcpServer <- gets (fun s => List.length (changeHandlers (this s))) ;;
     modify (with_this (fun m =>
       set_changeHandlers (changeHandlers m ++ [∅])%list m)) ;;;
     mcpServer_connect socket ;;;
     log Nvim.INFO "Client connected" ;;;
     modify (with_this (fun m =>
       set_clientServers (map_set socket mcpServer (clientServers m)) m)) ;;;
     healthCheckInterval <- setInterval socket ;;
     modify (with_this (fun m =>
       set_healthCheckIntervals
         (<[socket := healthCheckInterval]> (healthCheckIntervals m)) m)) ;;;
     modify (with_this (fun m =>
       set_closeListeners ({[socket]} ∪ closeListeners m) m)))
    (fun message =>
       log Nvim.ERROR ("Error handling client: " +:+ message) ;;;
       lift (WsServer.ws_close socket))%string.

(** How [ws.send(data, callback)] ends: the frame is written, the
    callback receives an error, or the call itself throws. *)
Inductive SendOutcome := Delivered | CallbackError | Thrown.

(** One firing of the health-check timer [t].  A cleared timer does
    not fire. *)
Definition healthCheck (t : nat) (outcome : SendOutcome) : M State unit :=
  timer <- gets (fun s => timers (world s) !! t) ;;
  match timer with
  | Some hb =>
      if negb (Net.active hb) then ret tt
      else
        state <- gets (fun s => Net.readyState <$> sockets (world s) !! Net.hb_ws hb) ;;
        match state with
        | Some Net.OPEN =>
            let id := Net.pingId hb in
            modify (with_world (with_timers
              <[t := {| Net.hb_ws := Net.hb_ws hb; Net.pingId := id + 1;
                        Net.active := Net.active hb |}]>)) ;;;
            match outcome with
            | Delivered =>
                modify (with_world (with_sockets
                  (alter (Net.push_frame (Net.Ping id)) (Net.hb_ws hb))))
            | CallbackError | Thrown =>
                log Nvim.WARN "Health check failed, closing connection" ;;;
                clearInterval t ;;;
                lift (WsServer.ws_close (Net.hb_ws hb))
            end
        | _ => ret tt
        end
  | None => ret tt
  end.

(** The socket's 'close' event and the listener [handleClient]
    registered for it. *)
Definition on_socket_close (socket : nat) : M State unit :=
  modify (with_world (with_sockets (alter mark_closed socket))) ;;;
  listening <- gets (fun s => bool_decide (socket ∈ closeListeners (this s))) ;;
  if negb listening then ret tt
  else
    log Nvim.INFO "Client disconnected" ;;;
    interval <- gets (fun s => healthCheckIntervals (this s) !! socket) ;;
    match interval with
    | Some t =>
        clearInterval t ;;;
        modify (with_this (fun m =>
          set_healthCheckIntervals (delete socket (healthCheckIntervals m)) m))
    | None => ret tt
    end ;;;
    modify (with_this (fun m =>
      set_clientServers (map_delete socket (clientServers m)) m)).

(** An upgrade request reaching the [WebSocketServer]: [verifyClient]
    decides; a rejected handshake is aborted with the status given, an
    accepted one yields a new open socket and the 'connection' event,
    whose listener is [handleClient]. *)
Definition on_upgrade (authHeader : WsServer.Header) : M State unit :=
  server <- gets (fun s => wss (this s)) ;;
  match server with
  | None => ret tt
  | Some server =>
      match WsServer.verifyClient (WsServer.authToken server) authHeader with
      | WsServer.Reject code reason =>
          modify (with_world (with_event (EvReject code reason)))
      | WsServer.Accept =>
          socket <- gets (fun s => fresh (dom (sockets (world s)))) ;;
          modify (with_world (with_sockets
            <[socket := {| Net.readyState := Net.OPEN; Net.sent := [] |}]>)) ;;;
          handleClient socket
      end
  end.

(** [start()].  What [createClaudeWebSocketServer] throws is thrown on:
    [wss] then stays unset and nothing after the call is run. *)
Definition start (rnd : N) : M State unit :=
  server <- gets (fun s => wss (this s)) ;;
  match server with
  | Some _ => throw "Server is already running"
  | None =>
      cwd <- gets (fun s => Nvim.cwd (nvim (world s))) ;;
      port <- gets (fun s => port (this s)) ;;
      server <- lift (WsServer.createClaudeWebSocketServer rnd
        {| WsServer.cfg_port := port; WsServer.cfg_path := Some "/";
           WsServer.cfg_workspaceFolders := Some [cwd];
           WsServer.cfg_ideName := Some "neovim" |}) ;;
      modify (with_this (set_wss (Some server))) ;;;
      modify (with_world (with_nvim (Nvim.set_ide_port port))) ;;;
      log Nvim.INFO ("Server started on port " +:+ pretty port) ;;;
      log Nvim.INFO ("Lock file: ~/.claude/ide/" +:+ pretty port +:+ ".lock")
  end%string.

(** The body of the loop of [stop] for one entry of [clientServers]. *)
Definition close_client (socket : nat) : M State unit :=
  try_catch
    (interval <- gets (fun s => healthCheckIntervals (this s) !! socket) ;;
     match interval with
     | Some t => clearInterval t
     | None => ret tt
     end ;;;
     mcpServer_close socket ;;;
     lift (WsServer.ws_close socket))
    (fun message => log Nvim.WARN ("Error closing client: " +:+ message))%string.

Fixpoint close_clients (clients : list (nat * nat)) : M State unit :=
  match clients with
  | [] => ret tt
  | (socket, _) :: rest => close_client socket ;;; close_clients rest
  end.

Definition stop : M State unit :=
  server <- gets (fun s => wss (this s)) ;;
  match server with
  | None => throw "Server is not running"
  | Some server =>
      clients <- gets (fun s => clientServers (this s)) ;;
      close_clients clients ;;;
      modify (with_this (set_clientServers [])) ;;;
      modify (with_this (set_healthCheckIntervals ∅)) ;;;
      (* this.wss.close(cb): the server emits 'close' *)
      lift (WsServer.on_close server) ;;;
      modify (with_this (set_wss None)) ;;;
      modify (with_world (with_nvim (Nvim.set_ide_port 0))) ;;;
      log Nvim.INFO "Server stopped"
  end.

(** The BufWipeout autocmd after its guard; the result is the value of
    the awaited [dropChanges], which the autocmd does not use. *)
Definition bufWipeout (bufnrStr : string) : M State bool :=
  let bufnr := Js.parseInt bufnrStr in
  pid <- gets (fun s => Nvim.pid (nvim (world s))) ;;
  let changeId := McpTools.changeId_of pid bufnr in
  handled <- dropChanges changeId ;;
  stopSelectionTracking bufnr ;;;
  ret handled.

End Manager.

(** ** The commands and autocmds registered by [registerClaudeMcpCommands] *)

Module Plugin.

(** The module-level [serverManager] and the world. *)
Record State := {
  serverManager : option Manager.T;
  world : World
}.

(** [commandLogger = new Logger(plugin, 'Command')] *)
Definition log (level : Nvim.LogLevel) (message : string) : M State unit :=
  modify (fun s =>
    {| serverManager := serverManager s;
       world := logger_write "Command" level message (world s) |}).

(** The manager when [serverManager && serverManager.isRunning()]. *)
Definition running (s : State) : option Manager.T :=
  match serverManager s with
  | Some m => if Manager.isRunning m then Some m else None
  | None => None
  end.

(** A method call on the manager object. *)
Definition call {A} (mgr : Manager.T) (m : M Manager.State A) : M State A :=
  fun s =>
    let '(r, s') := m {| Manager.this := mgr; Manager.world := world s |} in
    (r, {| serverManager := Some (Manager.this s'); world := Manager.world s' |}).

Definition changeId_of_current : M State string :=
  gets (fun s =>
    McpTools.changeId_of (Nvim.pid (nvim (world s)))
                         (Some (Nvim.current (nvim (world s))))).

Definition ClaudeAccept : M State unit :=
  try_catch
    (mgr <- gets running ;;
     match mgr with
     | None => log Nvim.WARN "Claude MCP Server is not running"
     | Some mgr =>
         changeId <- changeId_of_current ;;
         handled <- call mgr (Manager.acceptChanges changeId) ;;
         if negb handled then log Nvim.WARN "This is not a claude code diff"
         else ret tt
     end)
    (fun message => log Nvim.ERROR ("Error accepting changes: " +:+ message))%string.

Definition ClaudeDrop : M State unit :=
  try_catch
    (mgr <- gets running ;;
     match mgr with
     | None => log Nvim.WARN "Claude MCP Server is not running"
     | Some mgr =>
         changeId <- changeId_of_current ;;
         handled <- call mgr (Manager.dropChanges changeId) ;;
         if negb handled then log Nvim.WARN "This is not a claude code diff"
         else ret tt
     end)
    (fun message => log Nvim.ERROR ("Error dropping changes: " +:+ message))%string.

(** Autocmd BufWipeout, with [expand("<abuf>")] as its argument. *)
Definition BufWipeout (bufnrStr : string) : M State unit :=
  mgr <- gets running ;;
  match mgr with
  | None => ret tt
  | Some mgr =>
      call mgr (Manager.bufWipeout bufnrStr) ;;;
      ret tt
  end.

Definition ClaudeMcpServerStop : M State unit :=
  try_catch
    (mgr <- gets running ;;
     match mgr with
     | None => log Nvim.WARN "Claude MCP Server is not running"
     | Some mgr =>
         call mgr Manager.stop ;;;
         modify (fun s => {| serverManager := None; world := world s |})
     end)
    (fun message => log Nvim.ERROR ("Failed to stop Claude MCP Server: " +:+ message))%string.

End Plugin.

(** ** mcp-tools.ts: calls of the handlers that overlap *)

Module Async.

(** An [async] function in progress.  It has finished with a result, or
    it is suspended at an [await]; resumed, it takes the outcome of what it
    awaited and runs on to its next [await] or to its end. *)
#[warnings="-register-all"] Inductive Task (S A : Type) : Type :=
| Finished (r : Res A)
| Awaiting (resume : S -> Task S A * S).
Arguments Finished {S A} r.
Arguments Awaiting {S A} resume.

(** Code that runs without interruption until it finishes or suspends. *)
Definition Run (S A : Type) : Type := S -> Task S A * S.

(** [return a] *)
Definition finish {S A} (a : A) : Run S A := fun s => (Finished (Ok a), s).

(** [x = m; k(x)] for code [m] without an [await]. *)
Definition now {S A B} (m : M S B) (k : B -> Run S A) : Run S A :=
  fun s => match m s with
           | (Ok b, s') => k b s'
           | (Throw e, s') => (Finished (Throw e), s')
           end.

(** [x = await m; k(x)]: the function is suspended, and [m] and the code
    after it run when it is resumed. *)
Definition await {S A B} (m : M S B) (k : B -> Run S A) : Run S A :=
  fun s => (Awaiting (now m k), s).

(** [if (value) { await m(value) }; k] *)
Definition await_if {S A B} (value : option B) (m : B -> M S unit) (k : Run S A)
    : Run S A :=
  match value with
  | Some b => await (m b) (fun _ => k)
  | None => k
  end.

(** [try { body } catch (error) { handler(message) }] around code with
    [await]s: the handler takes over wherever the body throws. *)
Fixpoint catch_task {S A} (t : Task S A) (handler : string -> Run S A) (s : S)
    : Task S A * S :=
  match t with
  | Finished (Ok a) => (Finished (Ok a), s)
  | Finished (Throw e) => handler e s
  | Awaiting resume =>
      (Awaiting (fun s' => let '(t', s'') := resume s' in catch_task t' handler s''), s)
  end.

Definition try_catch {S A} (body : Run S A) (handler : string -> Run S A) : Run S A :=
  fun s => let '(t, s') := body s in catch_task t handler s'.

Declare Scope async_scope.
Delimit Scope async_scope with async.
Notation "'await!' x <- m ;; k" := (await m (fun x => k))
  (at level 100, x name, m at next level, right associativity) : async_scope.
Notation "'now!' x <- m ;; k" := (now m (fun x => k))
  (at level 100, x name, m at next level, right associativity) : async_scope.

Section Register.

Variable logger : option string.

(** [acceptChanges] of mcp-tools.ts, as [McpTools.acceptChanges], with
    its [await]s. *)
Definition acceptChanges (changeId : string) : Run McpTools.State bool :=
  (now! entry <- gets (fun s => McpTools.diffPromises s !! changeId) ;;
   match entry with
   | None => finish false
   | Some e =>
       try_catch
         (let bufnr := Js.parseInt_at (Js.split "/" changeId) 1 in
          await! buffers <- McpTools.nvim_buffers ;;
          match Nvim.find_buffer bufnr buffers with
          | None =>
              await! _ <- McpTools.toolLogger_error logger
                            ("Buffer " +:+ Js.num_to_string bufnr +:+ " not found") ;;
              finish false
          | Some buffer =>
              await! lines <- McpTools.buffer_lines buffer ;;
              let content := Js.join McpTools.LF lines in
              await! _ <- McpTools.buffer_setOption_modified buffer false ;;
              now! _ <- modify (McpTools.with_diffPromises (delete changeId)) ;;
              now! _ <- McpTools.call_resolve e (McpTools.FILE_SAVED content) ;;
              await! _ <- McpTools.toolLogger_info logger
                            ("Accepted changes for " +:+ McpTools.filePath e) ;;
              finish true
          end)
         (fun message =>
            await! _ <- McpTools.toolLogger_error logger
                          ("Error accepting changes: " +:+ message) ;;
            finish false)
   end)%async.

(** [dropChanges] of mcp-tools.ts, as [McpTools.dropChanges], with its
    [await]s. *)
Definition dropChanges (changeId : string) : Run McpTools.State bool :=
  (now! entry <- gets (fun s => McpTools.diffPromises s !! changeId) ;;
   match entry with
   | None => finish false
   | Some e =>
       try_catch
         (let bufnr := Js.parseInt_at (Js.split "/" changeId) 1 in
          await! buffers <- McpTools.nvim_buffers ;;
          await_if (Nvim.find_buffer bufnr buffers)
            (fun buffer => McpTools.buffer_setOption_modified buffer false)
            (now! _ <- modify (McpTools.with_diffPromises (delete changeId)) ;;
             now! _ <- McpTools.call_resolve e McpTools.DIFF_REJECTED ;;
             await! _ <- McpTools.toolLogger_info logger "Rejected changes" ;;
             finish true))
         (fun message =>
            await! _ <- McpTools.toolLogger_error logger
                          ("Error rejecting changes: " +:+ message) ;;
            finish false)
   end)%async.

End Register.

(** A call that nothing overlaps: every [await] is resumed at once. *)
Fixpoint complete {S A} (t : Task S A) (s : S) : Res A * S :=
  match t with
  | Finished r => (r, s)
  | Awaiting resume => let '(t', s') := resume s in complete t' s'
  end.

Definition alone {S A} (m : Run S A) : M S A :=
  fun s => let '(t, s') := m s in complete t s'.

(** Calls in progress on one state.  [step i] resumes call [i]: the
    outcome of what it awaits has arrived.  [schedule] resumes the calls in
    the given order. *)
Definition resume {S A} (t : Task S A) : Run S A :=
  match t with
  | Finished r => fun s => (Finished r, s)
  | Awaiting k => k
  end.

Definition step {S A} (i : nat) (c : list (Task S A) * S) : list (Task S A) * S :=
  match c.1 !! i with
  | Some t => let '(t', s') := resume t c.2 in (<[i := t']> c.1, s')
  | None => c
  end.

Definition schedule {S A} (order : list nat) (c : list (Task S A) * S)
    : list (Task S A) * S :=
  fold_left (fun c i => step i c) order c.

(** The value a call has returned, if it has. *)
Definition result {S A} (t : Task S A) : option (Res A) :=
  match t with
  | Finished r => Some r
  | Awaiting _ => None
  end.

End Async.

(** ** claude-mcp.ts: the remaining commands and autocmds *)

Module Commands.

(** [parseInt(s, 10)]: as [parseInt(s)], except that a leading "0x" is
    not read as a hexadecimal prefix. *)
Definition parseInt_10 (s : string) : Js.num :=
  let '(sign, s1) := Js.strip_sign (Js.trim_start s) in
  match Js.parse_digits 10 false 0 s1 with
  | Some n => Some (sign * n)
  | None => None
  end.

(** The condition [args[0] ? ... : ...]: the first argument counts when
    it is there and is not the empty string. *)
Definition first_arg (args : list string) : option string :=
  match args with
  | a :: _ => if String.eqb a "" then None else Some a
  | [] => None
  end.

(** [new ClaudeMcpServerManager(plugin, port)], where
    [this.port = port || this.getRandomPort()].  [port] is [None] for
    [undefined]; [NaN] and 0 are falsy as well.  [randomPort] is the
    value [getRandomPort()] draws with [Math.random()]. *)
Definition new_manager (port : option Js.num) (randomPort : Z) : Manager.T :=
  Manager.create
    (match port with
     | Some (Some p) => if p =? 0 then randomPort else p
     | _ => randomPort
     end).

(** The assignment [serverManager = value]. *)
Definition set_serverManager (value : option Manager.T) : M Plugin.State unit :=
  modify (fun s =>
    {| Plugin.serverManager := value; Plugin.world := Plugin.world s |}).

(** Command ClaudeMcpServerStart; [rnd] is the randomness of the token. *)
Definition ClaudeMcpServerStart (randomPort : Z) (rnd : N) (args : list string)
    : M Plugin.State unit :=
  try_catch
    (mgr <- gets Plugin.running ;;
     match mgr with
     | Some _ => Plugin.log Nvim.WARN "Claude MCP Server is already running"
     | None =>
         let port := parseInt_10 <$> first_arg args in
         let manager := new_manager port randomPort in
         set_serverManager (Some manager) ;;;
         Plugin.call manager (Manager.start rnd)
     end)
    (fun message =>
       Plugin.log Nvim.ERROR ("Failed to start Claude MCP Server: " +:+ message))%string.

(** Command ClaudeMcpServerStatus. *)
Definition ClaudeMcpServerStatus : M Plugin.State unit :=
  try_catch
    (mgr <- gets Plugin.running ;;
     match mgr with
     | None => Plugin.log Nvim.INFO "Claude MCP Server: Not running"
     | Some manager =>
         let port := Manager.getPort manager in
         let clients := Manager.getClientCount manager in
         Plugin.log Nvim.INFO "Claude MCP Server: Running" ;;;
         Plugin.log Nvim.INFO ("Port: " +:+ pretty port) ;;;
         Plugin.log Nvim.INFO ("Connected clients: " +:+ pretty clients) ;;;
         Plugin.log Nvim.INFO ("Lock file: ~/.claude/ide/" +:+ pretty port +:+ ".lock")
     end)
    (fun message => Plugin.log Nvim.ERROR ("Error getting status: " +:+ message))%string.

(** Autocmd CursorMoved; the autocmds CursorMovedI and TextYankPost have
    the same body.  [(await plugin.nvim.buffer).id] is the number of the
    current buffer. *)
Definition CursorMoved : M Plugin.State unit :=
  mgr <- gets Plugin.running ;;
  match mgr with
  | None => ret tt
  | Some manager =>
      bufnr <- gets (fun s => Nvim.current (nvim (Plugin.world s))) ;;
      Plugin.call manager (Manager.handleSelectionUpdate (Some bufnr))
  end.

(** Autocmd VimLeavePre. *)
Definition VimLeavePre : M Plugin.State unit :=
  mgr <- gets Plugin.running ;;
  match mgr with
  | None => ret tt
  | Some manager =>
      try_catch
        (Plugin.call manager Manager.stop)
        (fun message =>
           Plugin.log Nvim.ERROR
             ("Error stopping server on VimLeavePre: " +:+ message))%string
  end.

(** [args[0] ? parseInt(args[0], 10) : (await plugin.nvim.buffer).id] *)
Definition buffer_argument (args : list string) : M Plugin.State Js.num :=
  match first_arg args with
  | Some a => ret (parseInt_10 a)
  | None => gets (fun s => Some (Nvim.current (nvim (Plugin.world s))))
  end.

(** Commands ClaudeStartSelectionTracking and ClaudeStopSelectionTracking. *)
Definition ClaudeStartSelectionTracking (args : list string) : M Plugin.State unit :=
  try_catch
    (mgr <- gets Plugin.running ;;
     match mgr with
     | None => Plugin.log Nvim.WARN "Claude MCP Server is not running"
     | Some manager =>
         bufnr <- buffer_argument args ;;
         Plugin.call manager (Manager.startSelectionTracking bufnr)
     end)
    (fun message =>
       Plugin.log Nvim.ERROR ("Failed to start selection tracking: " +:+ message))%string.

Definition ClaudeStopSelectionTracking (args : list string) : M Plugin.State unit :=
  try_catch
    (mgr <- gets Plugin.running ;;
     match mgr with
     | None => Plugin.log Nvim.WARN "Claude MCP Server is not running"
     | Some manager =>
         bufnr <- buffer_argument args ;;
         Plugin.call manager (Manager.stopSelectionTracking bufnr)
     end)
    (fun message =>
       Plugin.log Nvim.ERROR ("Failed to stop selection tracking: " +:+ message))%string.

Section Mention.

(** [nvim.call('getpos', [mark])]: the position [bufnum, lnum, col, off]
    of a mark, which the editor keeps and the plugin only reads. *)
Variable vim_getpos : Nvim.Editor -> string -> Z * Z * Z * Z.

(** The element [pos[1]]. *)
Definition lnum (pos : Z * Z * Z * Z) : Z :=
  let '(_, line, _, _) := pos in line.

(** [await buffer.name] for [buffer = await plugin.nvim.buffer]; the
    request fails on an invalid handle. *)
Definition current_buffer_name : M Plugin.State string :=
  fun s =>
    let ed := nvim (Plugin.world s) in
    match Nvim.valid_buffer (Nvim.current ed) ed with
    | Some b => (Ok (Nvim.buf_name b), s)
    | None => (Throw "Invalid buffer id", s)
    end.

(** Command ClaudeMention. *)
Definition ClaudeMention : M Plugin.State unit :=
  try_catch
    (mgr <- gets Plugin.running ;;
     match mgr with
     | None => Plugin.log Nvim.WARN "Claude MCP Server is not running"
     | Some manager =>
         filePath <- current_buffer_name ;;
         if String.eqb filePath "" then Plugin.log Nvim.WARN "Buffer has no file path"
         else
           startPos <- gets (fun s => vim_getpos (nvim (Plugin.world s)) "'<") ;;
           endPos <- gets (fun s => vim_getpos (nvim (Plugin.world s)) "'>") ;;
           if (lnum startPos =? 0) || (lnum endPos =? 0) then
             Plugin.log Nvim.WARN "No visual selection"
           else
             let lineStart := lnum startPos - 1 in
             let lineEnd := lnum endPos - 1 in
             Plugin.call manager (Manager.sendAtMention filePath lineStart lineEnd) ;;;
             Plugin.log Nvim.INFO
               ("Mentioned lines " +:+ pretty (lnum startPos) +:+ "-"
                +:+ pretty (lnum endPos) +:+ " in " +:+ filePath)
     end)
    (fun message => Plugin.log Nvim.ERROR ("Failed to send at-mention: " +:+ message))%string.

End Mention.

End Commands.

(** ** mcp-tools.ts: the tools openDiff, closeAllDiffTabs and getDiagnostics *)

Module Tools.

(** The value of a buffer option: a string or a boolean. *)
Inductive OptionValue :=
| OptString (value : string)
| OptBool (value : bool).

(** One element of the table [vim.diagnostic.get()] returns, with the
    fields the tool reads.  An absent field is [None]. *)
Record Diagnostic := {
  diag_bufnr : option Z;
  diag_message : string;
  diag_severity : Z;
  diag_lnum : Z;
  diag_col : Z;
  diag_end_lnum : option Z;
  diag_end_col : option Z;
  diag_source : option string
}.

(** One element of the array the tool returns:
    [{ message, severity, range: { start, end }, source, uri }], a
    position being [{ line, character }]. *)
Record Formatted := {
  message : string;
  severity : Z;
  range_start : Z * Z;
  range_end : Z * Z;
  source : string;
  uri : string
}.

(** [value || fallback] on an optional number: 0 is falsy. *)
Definition or_number (value : option Z) (fallback : Z) : Z :=
  match value with
  | Some v => if v =? 0 then fallback else v
  | None => fallback
  end.

(** [s.startsWith(prefix)] *)
Fixpoint startsWith (prefix s : string) : bool :=
  match prefix, s with
  | EmptyString, _ => true
  | String a prefix', String b s' => Ascii.eqb a b && startsWith prefix' s'
  | String _ _, EmptyString => false
  end.

Section Register.

(** The [logger] argument of [registerNvimMcpTools] (its prefix). *)
Variable logger : option string.

(** The requests to the editor.  What the editor does with them is not
    part of the plugin and is taken as given: [nvim.call('bufnr', ...)],
    [nvim.command], [nvim.call('exists', ...)],
    [nvim.call('nvim_create_buf', [true, false])], [buffer.setOption],
    [buffer.setLines(lines, { start: 0, end: -1, strictIndexing: false })],
    the setter [buf.name = value] (whose request is not awaited, so that
    its failure is not seen), [vim.diagnostic.get] through
    [nvim.call('luaeval', ...)], and [nvim.call('bufname', ...)]. *)
Variable vim_bufnr : Nvim.Editor -> string -> Z.
Variable vim_command : string -> Nvim.Editor -> Res unit * Nvim.Editor.
Variable vim_exists : Nvim.Editor -> string -> Z.
Variable nvim_create_buf : Nvim.Editor -> Res Z * Nvim.Editor.
Variable buffer_setOption :
  Z -> string -> OptionValue -> Nvim.Editor -> Res unit * Nvim.Editor.
Variable buffer_setLines : Z -> list string -> Nvim.Editor -> Res unit * Nvim.Editor.
Variable buffer_set_name : Z -> string -> Nvim.Editor -> Nvim.Editor.
Variable vim_diagnostic_get : option Z -> Nvim.Editor -> Res (list Diagnostic) * Nvim.Editor.
Variable vim_bufname : Nvim.Editor -> Z -> string.

(** [path.extname] and [JSON.stringify] of the Node run time. *)
Variable extname : string -> string.
Variable stringify : list Formatted -> string.

(** [diffPromises.entries()]: the records in the order of their
    insertion, which the table of the model does not keep. *)
Variable entries : gmap string McpTools.DiffEntry -> list (string * McpTools.DiffEntry).

Definition toolLogger_warn (message : string) : M McpTools.State unit :=
  modify (McpTools.with_world
            (logger_write (McpTools.toolLogger logger) Nvim.WARN message)).

(** An awaited request that changes the editor. *)
Definition request {A} (call : Nvim.Editor -> Res A * Nvim.Editor) : M McpTools.State A :=
  fun s => let '(r, ed) := call (nvim (McpTools.world s)) in
           (r, McpTools.with_world (with_nvim (fun _ => ed)) s).

Definition commandExists (command : string) : M McpTools.State bool :=
  gets (fun s => vim_exists (nvim (McpTools.world s)) (":" +:+ command) =? 2).

(** [buffers.filter(buf => buf.id === bufnr).forEach(buf => { buf.name = tab_name; })] *)
Definition rename_buffers (bufnr : Z) (tab_name : string) (buffers : list Nvim.Buffer)
    : M McpTools.State unit :=
  modify (McpTools.with_world (with_nvim (fun ed =>
    fold_left (fun ed' buf => buffer_set_name (Nvim.buf_id buf) tab_name ed')
      (List.filter (fun buf => Nvim.buf_id buf =? bufnr) buffers) ed))).

(** Tool 1: openDiff.  The result is the number of the promise whose
    value the tool call returns as its content. *)
Definition openDiff (old_file_path new_file_path new_file_contents tab_name : string)
    : M McpTools.State nat :=
  bufnr <- request nvim_create_buf ;;
  pid <- gets (fun s => Nvim.pid (nvim (McpTools.world s))) ;;
  let changeId := McpTools.changeId_of pid (Some bufnr) in
  activate <- commandExists "ClaudeActivateBufferDiff" ;;
  (if (activate : bool) then
     McpTools.nvim_command vim_command ("ClaudeActivateBufferDiff " +:+ pretty bufnr)
   else ret tt) ;;;
  buffer <- gets (fun s => Nvim.current (nvim (McpTools.world s))) ;;
  request (buffer_setOption buffer "buftype" (OptString "acwrite")) ;;;
  request (buffer_setOption buffer "swapfile" (OptBool false)) ;;;
  let lines := Js.split (ascii_of_nat 10) new_file_contents in
  request (buffer_setLines buffer lines) ;;;
  buffers <- McpTools.nvim_buffers ;;
  rename_buffers bufnr tab_name buffers ;;;
  let fileExt := Js.substring_from (extname new_file_path) 1 in
  (if String.eqb fileExt "" then ret tt
   else request (buffer_setOption buffer "filetype" (OptString fileExt))) ;;;
  McpTools.nvim_command vim_command
    ("autocmd BufWriteCmd <buffer=" +:+ pretty bufnr +:+ "> ClaudeAccept") ;;;
  show <- commandExists "ClaudeShowFileDiff" ;;
  (if (show : bool) then
     McpTools.nvim_command vim_command
       ("ClaudeShowFileDiff " +:+ pretty bufnr +:+ " " +:+ new_file_path)
   else ret tt) ;;;
  McpTools.new_pending_diff changeId new_file_path bufnr.

(** Tool 4: closeAllDiffTabs.  The body of its loop for the records
    [l], with the count so far. *)
Fixpoint close_each (l : list (string * McpTools.DiffEntry)) (closedCount : Z)
    : M McpTools.State Z :=
  match l with
  | [] => ret closedCount
  | (_, e) :: rest =>
      count <- try_catch
        (McpTools.nvim_command vim_command
           ("bdelete! " +:+ pretty (McpTools.bufnr e)) ;;;
         ret (closedCount + 1))
        (fun message =>
           toolLogger_warn
             ("Error closing diff buffer " +:+ pretty (McpTools.bufnr e) +:+ ": "
              +:+ message) ;;;
           ret closedCount) ;;
      close_each rest count
  end.

Definition closeAllDiffTabs : M McpTools.State Promise.Payload :=
  records <- gets (fun s => entries (McpTools.diffPromises s)) ;;
  closedCount <- close_each records 0 ;;
  ret [Promise.TextItem ("CLOSED_" +:+ pretty closedCount +:+ "_DIFF_TABS")].

(** Tool 3: getDiagnostics.  The conversion of one diagnostic;
    [fileName] is the path asked for, [None] when all buffers were asked
    for. *)
Definition format_diagnostic (fileName : option string) (ed : Nvim.Editor)
    (diag : Diagnostic) : Formatted :=
  let named :=
    match fileName with
    | Some f => negb (String.eqb f "")
    | None => false
    end in
  let file :=
    if named then fileName
    else match diag_bufnr diag with
         | Some b => if b =? 0 then fileName else Some (vim_bufname ed b)
         | None => fileName
         end in
  let fileUri :=
    match file with
    | Some f =>
        if String.eqb f "" then "unknown"
        else if startsWith "/" f then "file://" +:+ f else f
    | None => "unknown"
    end in
  {| message := diag_message diag;
     severity := diag_severity diag;
     range_start := (diag_lnum diag, diag_col diag);
     range_end := (or_number (diag_end_lnum diag) (diag_lnum diag),
                   or_number (diag_end_col diag) (diag_col diag));
     source := WsServer.or_string (diag_source diag) "neovim";
     uri := fileUri |}.

Definition getDiagnostics (uri : option string) : M McpTools.State Promise.Payload :=
  try_catch
    (match uri with
     | Some u =>
         if String.eqb u "" then
           diagnostics <- request (vim_diagnostic_get None) ;;
           ed <- gets (fun s => nvim (McpTools.world s)) ;;
           ret [Promise.TextItem
                  (stringify (List.map (format_diagnostic None ed) diagnostics))]
         else
           let filePath := if startsWith "file://" u then Js.substring_from u 7 else u in
           bufnr <- gets (fun s => vim_bufnr (nvim (McpTools.world s)) filePath) ;;
           if bufnr =? -1 then ret [Promise.TextItem (stringify [])]
           else
             diagnostics <- request (vim_diagnostic_get (Some bufnr)) ;;
             ed <- gets (fun s => nvim (McpTools.world s)) ;;
             ret [Promise.TextItem
                    (stringify (List.map (format_diagnostic (Some filePath) ed)
                                  diagnostics))]
     | None =>
         diagnostics <- request (vim_diagnostic_get None) ;;
         ed <- gets (fun s => nvim (McpTools.world s)) ;;
         ret [Promise.TextItem
                (stringify (List.map (format_diagnostic None ed) diagnostics))]
     end)
    (fun _ => ret [Promise.TextItem (stringify [])]).

End Register.

End Tools.

(** ** logger.ts: the log level taken from the environment *)

Module Logger.

(** [c.toUpperCase()] for one code unit.  The letters a to z are mapped
    to A to Z.  Code units from 128 on are kept: JavaScript maps some of
    them to other code units or to "SS", none of which contains a letter
    of a level name, so that [parseLogLevel] below reads every string of
    code units below 256 as JavaScript does. *)
Definition upper_char (c : ascii) : ascii :=
  let n := nat_of_ascii c in
  if (97 <=? n)%nat && (n <=? 122)%nat then ascii_of_nat (n - 32) else c.

Fixpoint toUpperCase (s : string) : string :=
  match s with
  | EmptyString => EmptyString
  | String c rest => String (upper_char c) (toUpperCase rest)
  end.

(** [parseLogLevel(level)]; [None] is [undefined]. *)
Definition parseLogLevel (level : option string) : Nvim.LogLevel :=
  match level with
  | None => Nvim.INFO
  | Some l =>
      if String.eqb l "" then Nvim.INFO
      else
        let upperLevel := toUpperCase l in
        if String.eqb upperLevel "ERROR" then Nvim.ERROR
        else if String.eqb upperLevel "WARN" || String.eqb upperLevel "WARNING"
             then Nvim.WARN
        else if String.eqb upperLevel "INFO" then Nvim.INFO
        else if String.eqb upperLevel "DEBUG" then Nvim.DEBUG
        else Nvim.INFO
  end.

(** [getLevelName(level)] *)
Definition getLevelName (level : Nvim.LogLevel) : string :=
  match level with
  | Nvim.ERROR => "ERROR"
  | Nvim.WARN => "WARN"
  | Nvim.INFO => "INFO"
  | Nvim.DEBUG => "DEBUG"
  end.

End Logger.
(** * Vocabulary of the properties *)

(** The buffer number the handlers read out of a key:
    [parseInt(changeId.split('/')[1])]. *)
Definition buffer_of_key (changeId : string) : Js.num :=
  Js.parseInt_at (Js.split "/" changeId) 1.

Section Outcomes.

Variable logger : option string.

(** The state an accepted diff leaves behind. *)
Definition accepted (k : string) (e : McpTools.DiffEntry) (b : Nvim.Buffer)
    (s : McpTools.State) : McpTools.State :=
  McpTools.with_world
    (logger_write (McpTools.toolLogger logger) Nvim.INFO
       ("Accepted changes for " +:+ McpTools.filePath e))
    (McpTools.with_world
       (with_resolve_call (McpTools.resolve e)
          (McpTools.FILE_SAVED (Js.join McpTools.LF (Nvim.buf_lines b))))
       (McpTools.with_diffPromises (delete k)
          (McpTools.with_world
             (with_nvim (fun ed =>
                Nvim.set_buffers
                  (Nvim.update_modified (Nvim.buf_id b) false (Nvim.buffers ed)) ed))
             s))).

(** The state a failed look-up of the buffer leaves behind: one more
    line in the log. *)
Definition buffer_not_found (k : string) (s : McpTools.State) : McpTools.State :=
  McpTools.with_world
    (logger_write (McpTools.toolLogger logger) Nvim.ERROR
       ("Buffer " +:+ Js.num_to_string (buffer_of_key k)
        +:+ " not found"))
    s.

(** The state a dropped diff leaves behind. *)
Definition clear_modified (k : string) (s : McpTools.State) : McpTools.State :=
  match Nvim.find_buffer (buffer_of_key k)
          (Nvim.buffers (nvim (McpTools.world s))) with
  | Some b =>
      McpTools.with_world
        (with_nvim (fun ed =>
           Nvim.set_buffers
             (Nvim.update_modified (Nvim.buf_id b) false (Nvim.buffers ed)) ed))
        s
  | None => s
  end.

Definition dropped (k : string) (e : McpTools.DiffEntry) (s : McpTools.State)
    : McpTools.State :=
  McpTools.with_world
    (logger_write (McpTools.toolLogger logger) Nvim.INFO "Rejected changes")
    (McpTools.with_world
       (with_resolve_call (McpTools.resolve e) McpTools.DIFF_REJECTED)
       (McpTools.with_diffPromises (delete k) (clear_modified k s))).

End Outcomes.

(** Whether a table holds a pending record for [k], and in how many
    tables of [changeHandlers] it does. *)
Definition pending (k : string) (t : gmap string McpTools.DiffEntry) : bool :=
  bool_decide (is_Some (t !! k)).

Definition pending_count (k : string)
    (handlers : list (gmap string McpTools.DiffEntry)) : nat :=
  List.length (List.filter (pending k) handlers).

(** What [acceptChanges] and [dropChanges] of one client have in common:
    they never throw; without a record for [k] they return [false] and
    change nothing; returning [true] they have removed the record of [k]
    and called its [resolve] once; returning [false] they have left the
    table and the promises alone. *)
Record resolver (k : string) (f : M McpTools.State bool) : Prop := {
  resolver_absent s :
    McpTools.diffPromises s !! k = None -> f s = (Ok false, s);
  resolver_total s : exists b s', f s = (Ok b, s');
  resolver_true s s' :
    f s = (Ok true, s') ->
    exists e v,
      McpTools.diffPromises s !! k = Some e /\
      McpTools.diffPromises s' = delete k (McpTools.diffPromises s) /\
      resolve_calls (McpTools.world s') =
        (resolve_calls (McpTools.world s) ++ [(McpTools.resolve e, v)])%list;
  resolver_false s s' :
    f s = (Ok false, s') ->
    McpTools.diffPromises s' = McpTools.diffPromises s /\
    resolve_calls (McpTools.world s') = resolve_calls (McpTools.world s);
  resolver_pid b s s' :
    f s = (Ok b, s') ->
    Nvim.pid (nvim (McpTools.world s')) = Nvim.pid (nvim (McpTools.world s))
}.


(** Two manager states agree on everything a resolution attempt reads
    and writes: the tables of pending diffs, the calls of [resolve]
    functions and the editor's process id. *)
Definition same_diffs (s s' : Manager.State) : Prop :=
  Manager.changeHandlers (Manager.this s') = Manager.changeHandlers (Manager.this s) /\
  resolve_calls (Manager.world s') = resolve_calls (Manager.world s) /\
  Nvim.pid (nvim (Manager.world s')) = Nvim.pid (nvim (Manager.world s)).

(** A manager computation that returns normally and keeps [same_diffs]. *)
Definition preserves_diffs {A} (m : M Manager.State A) : Prop :=
  forall s, exists a s', m s = (Ok a, s') /\ same_diffs s s'.

(** The three ways a pending diff gets resolved: the manager's
    [acceptChanges] and [dropChanges] (commands ClaudeAccept and
    ClaudeDrop) and the BufWipeout autocmd of the buffer.  An attempt is
    one such call from its start to its return, with no other handler
    running between its [await]s. *)
Inductive Attempt := ByAccept | ByDrop | ByWipeout.

Definition attempt (k bufnrStr : string) (a : Attempt) : M Manager.State bool :=
  match a with
  | ByAccept => Manager.acceptChanges k
  | ByDrop => Manager.dropChanges k
  | ByWipeout => Manager.bufWipeout bufnrStr
  end.

(** Attempts that do not overlap: each has returned before the next
    begins.  The list holds their results. *)
Fixpoint attempts (k bufnrStr : string) (l : list Attempt) (s : Manager.State)
    : list (Res bool) * Manager.State :=
  match l with
  | [] => ([], s)
  | a :: rest =>
      let '(r, s1) := attempt k bufnrStr a s in
      let '(rs, s2) := attempts k bufnrStr rest s1 in
      (r :: rs, s2)
  end.

Definition succeeded (r : Res bool) : bool :=
  match r with
  | Ok true => true
  | _ => false
  end.

Definition successes (rs : list (Res bool)) : nat :=
  List.length (List.filter succeeded rs).

(** The key under which the BufWipeout autocmd of [bufnrStr] looks. *)
Definition wipeout_key (bufnrStr : string) (s : Manager.State) : string :=
  McpTools.changeId_of (Nvim.pid (nvim (Manager.world s))) (Js.parseInt bufnrStr).

(** ** Concrete states used to exercise the properties *)

Definition sample_buffer (n : Z) (name : string) (lines : list string) (modified : bool)
    : Nvim.Buffer :=
  {| Nvim.buf_id := n; Nvim.buf_name := name; Nvim.buf_lines := lines;
     Nvim.buf_modified := modified |}.

(** An editor with process id 4242 showing the given buffers, in normal
    mode with the cursor on line 1, column 1 of buffer 1. *)
Definition sample_editor (buffers : list Nvim.Buffer) : Nvim.Editor :=
  {| Nvim.pid := 4242; Nvim.cwd := "/work"; Nvim.unsafe_execute_lua := false;
     Nvim.buffers := buffers; Nvim.current := 1; Nvim.mode := "n";
     Nvim.visual_pos := (1, 1); Nvim.cursor_pos := (1, 1);
     Nvim.ide_port := 0; Nvim.out := [] |}.

Definition sample_process : Process :=
  {| env_log_level := Nvim.INFO; homedir := "/home/user"; process_pid := 777;
     process_cwd := "/work" |}.

Definition sample_world (buffers : list Nvim.Buffer) : World :=
  {| nvim := sample_editor buffers; proc := sample_process;
     resolve_calls := []; next_promise := 1; files := ∅; dirs := ∅;
     sockets := ∅; timers := ∅; trace := [] |}.

(** The record openDiff stores for buffer 7 of that editor. *)
Definition sample_entry : McpTools.DiffEntry :=
  {| McpTools.resolve := 0%nat; McpTools.filePath := "/a.txt"; McpTools.bufnr := 7 |}.

Definition sample_table : gmap string McpTools.DiffEntry :=
  {[ "4242/7" := sample_entry ]}.

(** One client with a pending diff on buffer 7, which holds "hello". *)
Definition sample_tools (buffers : list Nvim.Buffer) : McpTools.State :=
  {| McpTools.diffPromises := sample_table; McpTools.world := sample_world buffers |}.

Definition diff_buffer : Nvim.Buffer := sample_buffer 7 "tab1" ["hello"; ""] true.
Definition file_buffer : Nvim.Buffer := sample_buffer 1 "/a.txt" ["old"] false.

Definition sample_manager (buffers : list Nvim.Buffer) : Manager.State :=
  {| Manager.this :=
       Manager.set_changeHandlers [sample_table] (Manager.create 45678);
     Manager.world := sample_world buffers |}.

(** The plugin with a running manager built from [sample_manager]. *)
Definition sample_wss : WsServer.Wss :=
  {| WsServer.wss_port := 45678; WsServer.wss_path := "/";
     WsServer.authToken := WsServer.randomUUID 0;
     WsServer.wss_lockFilePath := WsServer.lockFilePath "/home/user" 45678 |}.

Definition sample_plugin (buffers : list Nvim.Buffer) : Plugin.State :=
  {| Plugin.serverManager :=
       Some (Manager.set_wss (Some sample_wss)
               (Manager.this (sample_manager buffers)));
     Plugin.world := sample_world buffers |}.

(** Two calls that overlap.  One client has a diff pending on buffer 7.
    [acceptChanges] and [dropChanges] of that client are called for its
    key one right after the other, as by :ClaudeAccept and :ClaudeDrop, or
    by :ClaudeAccept and the BufWipeout autocmd, whose handlers are
    registered with [sync: false]; then the outcomes of the requests they
    await arrive in turn, as the editor answers them in the order they
    were sent. *)
Definition overlapping_calls : list (Async.Task McpTools.State bool) * McpTools.State :=
  let s0 := sample_tools [file_buffer; diff_buffer] in
  let '(accept, s1) := Async.acceptChanges (Some "MCP") "4242/7" s0 in
  let '(drop, s2) := Async.dropChanges (Some "MCP") "4242/7" s1 in
  Async.schedule [0; 1; 0; 1; 0; 1; 0]%nat ([accept; drop], s2).

(** A stand-in for the editor's [bufnr({name})]: the number of the first
    buffer with exactly that name, -1 when there is none. *)
Definition exact_bufnr (ed : Nvim.Editor) (name : string) : Z :=
  match List.find (fun b => String.eqb (Nvim.buf_name b) name) (Nvim.buffers ed) with
  | Some b => Nvim.buf_id b
  | None => -1
  end.

(** A stand-in for the editor's command interpreter that accepts every
    command and changes nothing. *)
Definition inert_command (cmd : string) (ed : Nvim.Editor) : Res unit * Nvim.Editor :=
  (Ok tt, ed).

(** Two calls of close_tab in sequence, with both results. *)
Definition close_tab_twice vim_bufnr vim_command (tab_name : string)
    : M McpTools.State (Promise.Payload * Promise.Payload) :=
  first <- McpTools.close_tab vim_bufnr vim_command tab_name ;;
  second <- McpTools.close_tab vim_bufnr vim_command tab_name ;;
  ret (first, second).

(** A running manager with no client yet. *)
Definition listening_manager : Manager.State :=
  {| Manager.this := Manager.set_wss (Some sample_wss) (Manager.create 45678);
     Manager.world := sample_world [file_buffer] |}.

(** Successive firings of the health-check timer [t], each with the way
    its [ws.send] ends. *)
Fixpoint ticks (t : nat) (outcomes : list Manager.SendOutcome) : M Manager.State unit :=
  match outcomes with
  | [] => ret tt
  | outcome :: rest => Manager.healthCheck t outcome ;;; ticks t rest
  end.

(** The number of sends that succeed before the first failure. *)
Fixpoint delivered_prefix (outcomes : list Manager.SendOutcome) : nat :=
  match outcomes with
  | Manager.Delivered :: rest => S (delivered_prefix rest)
  | _ => O
  end.

(** The probes numbered [first], [first + 1], ..., [n] of them. *)
Fixpoint pings (first : Z) (n : nat) : list Net.Frame :=
  match n with
  | O => []
  | S n' => Net.Ping first :: pings (first + 1) n'
  end.

(** [listening_manager] after a client has connected with the right
    token: socket 0 with timer 0. *)
Definition connected_manager : Manager.State :=
  snd (Manager.on_upgrade (WsServer.Single (WsServer.authToken sample_wss))
         listening_manager).

(** The notification [sendEmptySelection] writes for a buffer named
    [filePath] with the cursor at [cursorPos]. *)
Definition empty_selection (filePath : string) (cursorPos : Z * Z) : Net.Frame :=
  Manager.selection_changed "" filePath
    (fst cursorPos - 1, snd cursorPos - 1) (fst cursorPos - 1, snd cursorPos - 1) true.

(** Whether a frame is a selection_changed notification with an empty
    selection. *)
Definition is_empty_selection (f : Net.Frame) : bool :=
  match f with
  | Net.SelectionChanged _ _ _ _ _ isEmpty => isEmpty
  | _ => false
  end.

(** The user moves: the editor shows buffer [current] of two named
    buffers, in mode [mode], with the visual mark and the cursor at the
    given positions. *)
Definition editor_shows (current : Z) (mode : string) (visual cursor : Z * Z)
    : M Manager.State unit :=
  modify (Manager.with_world (with_nvim (fun ed =>
    {| Nvim.pid := Nvim.pid ed; Nvim.cwd := Nvim.cwd ed;
       Nvim.unsafe_execute_lua := Nvim.unsafe_execute_lua ed;
       Nvim.buffers := [sample_buffer 1 "/a.txt" ["alpha"; "beta"] false;
                        sample_buffer 2 "/b.txt" ["gamma"] false];
       Nvim.current := current; Nvim.mode := mode;
       Nvim.visual_pos := visual; Nvim.cursor_pos := cursor;
       Nvim.ide_port := Nvim.ide_port ed; Nvim.out := Nvim.out ed |}))).

(** Tracking buffer 1 and one cursor movement in normal mode. *)
Definition track_and_move : M Manager.State unit :=
  Manager.startSelectionTracking (Some 1) ;;;
  editor_shows 1 "n" (1, 1) (2, 3) ;;;
  Manager.handleSelectionUpdate (Some 1).

(** ... then the end of tracking. *)
Definition track_move_stop : M Manager.State unit :=
  track_and_move ;;;
  Manager.stopSelectionTracking (Some 1).

(** Tracking buffers 1 and 2, a visual selection reported for buffer 1
    and a movement reported for buffer 2. *)
Definition track_two : M Manager.State unit :=
  Manager.startSelectionTracking (Some 1) ;;;
  Manager.startSelectionTracking (Some 2) ;;;
  editor_shows 1 "v" (1, 2) (1, 4) ;;;
  Manager.handleSelectionUpdate (Some 1) ;;;
  editor_shows 2 "n" (1, 1) (1, 1) ;;;
  Manager.handleSelectionUpdate (Some 2).

(** ... then the end of tracking buffer 1. *)
Definition track_two_stop_first : M Manager.State unit :=
  track_two ;;;
  Manager.stopSelectionTracking (Some 1).

(** The frames a computation leaves written on socket [ws]. *)
Definition frames_on (ws : nat) (r : Res unit * Manager.State) : list Net.Frame :=
  match sockets (Manager.world (snd r)) !! ws with
  | Some sock => Net.sent sock
  | None => []
  end.

(** [connected_manager] after buffer 1 has been tracked and one movement
    reported for it. *)
Definition tracked_manager : Manager.State :=
  snd (track_and_move connected_manager).

(** The paths written with [writeFileSync], in the order of the calls. *)
Fixpoint written_files (events : list Event) : list string :=
  match events with
  | [] => []
  | EvWriteFile path :: rest => path :: written_files rest
  | _ :: rest => written_files rest
  end.

(** A manager for port 45678 that has not been started. *)
Definition stopped_manager : Manager.State :=
  {| Manager.this := Manager.create 45678;
     Manager.world := sample_world [file_buffer] |}.

(** The calls [stop] makes for one client: the cancellation of the
    client's timer, when it has one, and after it one or more calls of
    [ws.close()] on the client's socket. *)
Definition cancel_events (m : Manager.T) (socket : nat) : list Event :=
  match Manager.healthCheckIntervals m !! socket with
  | Some t => [EvClearInterval t]
  | None => []
  end.

Definition closes_after_cancel (m : Manager.T) (client : nat * nat)
    (block : list Event) : Prop :=
  exists n,
    block = (cancel_events m (fst client)
               ++ repeat (EvSocketClose (fst client)) (S n))%list.

(** Reading outward calls from the first on: the timer [t] is cancelled
    before [ws.close()] is called on [socket], if that is called at all. *)
Fixpoint cancelled_before_close (t socket : nat) (events : list Event) : bool :=
  match events with
  | [] => true
  | EvClearInterval t' :: rest =>
      if Nat.eqb t' t then true else cancelled_before_close t socket rest
  | EvSocketClose closed :: rest =>
      if Nat.eqb closed socket then false else cancelled_before_close t socket rest
  | _ :: rest => cancelled_before_close t socket rest
  end.

(** What [stop] does to the timers and the sockets of the clients. *)
Definition cancel_client (m : Manager.T) (timers : gmap nat Net.Heartbeat)
    (client : nat * nat) : gmap nat Net.Heartbeat :=
  match Manager.healthCheckIntervals m !! fst client with
  | Some t => alter Net.cancel t timers
  | None => timers
  end.

Definition shut_client (sockets : gmap nat Net.Socket) (client : nat * nat)
    : gmap nat Net.Socket :=
  alter Manager.mark_closed (fst client) sockets.

(** What the 'close' listener of the server adds to the trace. *)
Definition unlink_events (server : WsServer.Wss) (w : World) : list Event :=
  match files w !! WsServer.wss_lockFilePath server with
  | Some _ => [EvUnlink (WsServer.wss_lockFilePath server)]
  | None => []
  end.

(** [connected_manager] with a diff pending on buffer 7 in the table of
    its one client. *)
Definition busy_manager : Manager.State :=
  Manager.with_this (Manager.set_changeHandlers [sample_table]) connected_manager.

(** A world that differs in its sockets and timers and has made further
    outward calls. *)
Definition net_update (w : World) (sockets' : gmap nat Net.Socket)
    (timers' : gmap nat Net.Heartbeat) (events : list Event) : World :=
  {| nvim := nvim w; proc := proc w; resolve_calls := resolve_calls w;
     next_promise := next_promise w; files := files w; dirs := dirs w;
     sockets := sockets'; timers := timers'; trace := (trace w ++ events)%list |}.


(** ** Vocabulary of the further properties *)

(** Strings of decimal digits, and strings without a given character. *)
Definition is_digit (c : ascii) : bool :=
  let n := Z.of_nat (nat_of_ascii c) in (48 <=? n) && (n <=? 57).

Fixpoint all_digits (s : string) : bool :=
  match s with
  | EmptyString => true
  | String c rest => is_digit c && all_digits rest
  end.

Fixpoint no_char (c : ascii) (s : string) : bool :=
  match s with
  | EmptyString => true
  | String a rest => negb (Ascii.eqb a c) && no_char c rest
  end.

(** The integers a JavaScript number holds exactly: [`${n}`] prints them
    in full and [parseInt] reads them back exactly.  [NaN] is printed and
    read back as [NaN]. *)
Definition safe_integer (n : Z) : Prop := - 2 ^ 53 < n < 2 ^ 53.

Definition safe_number (n : Js.num) : Prop :=
  match n with
  | Some z => safe_integer z
  | None => True
  end.

(** A running manager and a socket that is already closing. *)
Definition closing_manager : Manager.State :=
  Manager.with_world
    (with_sockets <[3%nat := {| Net.readyState := Net.CLOSING; Net.sent := [] |}]>)
    listening_manager.

(** [ed] with buffer [n] as the current buffer. *)
Definition show_buffer (n : Z) (ed : Nvim.Editor) : Nvim.Editor :=
  {| Nvim.pid := Nvim.pid ed; Nvim.cwd := Nvim.cwd ed;
     Nvim.unsafe_execute_lua := Nvim.unsafe_execute_lua ed;
     Nvim.buffers := Nvim.buffers ed; Nvim.current := n; Nvim.mode := Nvim.mode ed;
     Nvim.visual_pos := Nvim.visual_pos ed; Nvim.cursor_pos := Nvim.cursor_pos ed;
     Nvim.ide_port := Nvim.ide_port ed; Nvim.out := Nvim.out ed |}.

(** The plugin with a running server, a diff pending on buffer 7, and
    buffer 7 shown. *)
Definition editing_diff : Plugin.State :=
  {| Plugin.serverManager := Plugin.serverManager (sample_plugin [file_buffer; diff_buffer]);
     Plugin.world := with_nvim (show_buffer 7) (sample_world [file_buffer; diff_buffer]) |}.

(** A selection_changed frame for the file [name] whose isEmpty flag is
    [isEmpty] and whose start does not lie after its end. *)
Definition selection_of (name : string) (isEmpty : bool) (f : Net.Frame) : Prop :=
  exists text start_ end_,
    f = Net.SelectionChanged text name ("file://" +:+ name) start_ end_ isEmpty /\
    (fst start_ < fst end_ \/ (fst start_ = fst end_ /\ snd start_ <= snd end_)).

(** The port the command takes from its arguments. *)
Definition chosen_port (args : list string) (randomPort : Z) : Z :=
  Manager.port (Commands.new_manager (Commands.parseInt_10 <$> Commands.first_arg args)
                  randomPort).

(** The plugin whose manager is [connected_manager]. *)
Definition connected_plugin : Plugin.State :=
  {| Plugin.serverManager := Some (Manager.this connected_manager);
     Plugin.world := Manager.world connected_manager |}.

(** A stand-in for [getpos]: the marks '< and '> on lines 3 and 5. *)
Definition sample_getpos (ed : Nvim.Editor) (mark : string) : Z * Z * Z * Z :=
  if String.eqb mark "'<" then (0, 3, 1, 0) else (0, 5, 1, 0).

(** What a step of a tool handler leaves alone when it only talks to the
    editor: the table of pending diffs, the number of promises created
    and the calls of [resolve] functions. *)
Definition same_table (s s' : McpTools.State) : Prop :=
  McpTools.diffPromises s' = McpTools.diffPromises s /\
  next_promise (McpTools.world s') = next_promise (McpTools.world s) /\
  resolve_calls (McpTools.world s') = resolve_calls (McpTools.world s).

Definition keeps_table {A} (m : M McpTools.State A) : Prop :=
  forall s, same_table s (snd (m s)).

(** A handler that either throws, having kept the table, or returns the
    number of a new promise, having stored [entry] of that promise under
    [key]. *)
Definition registers (key : string) (entry : nat -> McpTools.DiffEntry)
    (m : M McpTools.State nat) : Prop :=
  forall s,
    resolve_calls (McpTools.world (snd (m s))) = resolve_calls (McpTools.world s) /\
    match fst (m s) with
    | Ok p =>
        p = next_promise (McpTools.world s) /\
        next_promise (McpTools.world (snd (m s))) = S p /\
        McpTools.diffPromises (snd (m s)) = <[key := entry p]> (McpTools.diffPromises s)
    | Throw _ =>
        McpTools.diffPromises (snd (m s)) = McpTools.diffPromises s /\
        next_promise (McpTools.world (snd (m s))) = next_promise (McpTools.world s)
    end.

(** Stand-ins for the requests of openDiff: an editor that numbers the
    new buffer 7, knows every command, shows buffer 7 on
    "ClaudeActivateBufferDiff 7" and accepts every other command and every
    option without effect. *)
Definition sample_create_buf (ed : Nvim.Editor) : Res Z * Nvim.Editor :=
  (Ok 7, Nvim.set_buffers (Nvim.buffers ed ++ [sample_buffer 7 "" [""] false])%list ed).

Definition sample_exists (ed : Nvim.Editor) (name : string) : Z := 2.

Definition sample_command (cmd : string) (ed : Nvim.Editor) : Res unit * Nvim.Editor :=
  if String.eqb cmd "ClaudeActivateBufferDiff 7" then (Ok tt, show_buffer 7 ed)
  else (Ok tt, ed).

Definition sample_setOption (n : Z) (name : string) (value : Tools.OptionValue)
    (ed : Nvim.Editor) : Res unit * Nvim.Editor :=
  (Ok tt, ed).

Definition sample_setLines (n : Z) (lines : list string) (ed : Nvim.Editor)
    : Res unit * Nvim.Editor :=
  (Ok tt,
   Nvim.set_buffers
     (List.map (fun b => if Nvim.buf_id b =? n
                         then sample_buffer n (Nvim.buf_name b) lines true else b)
        (Nvim.buffers ed)) ed).

Definition sample_set_name (n : Z) (name : string) (ed : Nvim.Editor) : Nvim.Editor :=
  Nvim.set_buffers
    (List.map (fun b => if Nvim.buf_id b =? n
                        then sample_buffer n name (Nvim.buf_lines b) (Nvim.buf_modified b)
                        else b)
       (Nvim.buffers ed)) ed.

Definition sample_extname (path : string) : string := ".txt".

(** One client without pending diffs. *)
Definition idle_tools : McpTools.State :=
  {| McpTools.diffPromises := ∅; McpTools.world := sample_world [file_buffer] |}.

Definition sample_openDiff : Res nat * McpTools.State :=
  Tools.openDiff sample_command sample_exists sample_create_buf sample_setOption
    sample_setLines sample_set_name sample_extname
    "/a.txt" "/a.txt" ("new" +:+ McpTools.LF +:+ "text") "tab1" idle_tools.

(** The records of a table in the order of their keys. *)
Definition key_order (m : gmap string McpTools.DiffEntry)
    : list (string * McpTools.DiffEntry) :=
  map_to_list m.

(** Stand-ins for the diagnostics requests: one warning on the first
    line, without an end position and without a source; buffer names by
    look-up; and a serialisation that keeps the URIs. *)
Definition sample_diagnostic : Tools.Diagnostic :=
  {| Tools.diag_bufnr := Some 1; Tools.diag_message := "unused variable";
     Tools.diag_severity := 2; Tools.diag_lnum := 0; Tools.diag_col := 4;
     Tools.diag_end_lnum := None; Tools.diag_end_col := None;
     Tools.diag_source := None |}.

Definition sample_diagnostic_get (bufnr : option Z) (ed : Nvim.Editor)
    : Res (list Tools.Diagnostic) * Nvim.Editor :=
  (Ok [sample_diagnostic], ed).

Definition sample_bufname (ed : Nvim.Editor) (bufnr : Z) : string :=
  match Nvim.valid_buffer bufnr ed with
  | Some b => Nvim.buf_name b
  | None => ""
  end.

Definition sample_stringify (formatted : list Tools.Formatted) : string :=
  Js.join "," (List.map Tools.uri formatted).

(** A logger with threshold [threshold] writes, respectively skips,
    every message of level [level]. *)
Definition logs (threshold level : Nvim.LogLevel) : Prop :=
  forall prefix message ed,
    write_line threshold prefix level message ed
    = Nvim.outWrite (level, prefix, message) ed.

Definition skips (threshold level : Nvim.LogLevel) : Prop :=
  forall prefix message ed, write_line threshold prefix level message ed = ed.

(** A tool call of the client whose tools are entry [i] of
    [changeHandlers]: the tool's handler runs on the table of that
    client. *)
Definition tool_call {A} (i : nat) (handler : M McpTools.State A) : M Manager.State A :=
  fun s =>
    match Manager.changeHandlers (Manager.this s) !! i with
    | Some table =>
        let '(r, s') :=
          handler {| McpTools.diffPromises := table;
                     McpTools.world := Manager.world s |} in
        (r, {| Manager.this :=
                 Manager.set_changeHandlers
                   (<[i := McpTools.diffPromises s']>
                      (Manager.changeHandlers (Manager.this s)))
                   (Manager.this s);
               Manager.world := McpTools.world s' |})
    | None => (Throw "no such client", s)
    end.

(** The first client of [connected_plugin] calls openDiff; the editor
    behaves as the stand-ins say. *)
Definition diff_opened : Res nat * Plugin.State :=
  Plugin.call (Manager.this connected_manager)
    (tool_call 0
       (Tools.openDiff sample_command sample_exists sample_create_buf sample_setOption
          sample_setLines sample_set_name sample_extname
          "/a.txt" "/a.txt" ("new" +:+ McpTools.LF +:+ "text") "tab1"))
    connected_plugin.
(** * Properties *)

(** ** JavaScript helpers on examples *)

Example split_changeId : Js.split "/" "4242/7" = ["4242"; "7"].
Proof. reflexivity. Qed.

Example parseInt_bufnr : Js.parseInt_at (Js.split "/" "4242/7") 1 = Some 7.
Proof. reflexivity. Qed.

Example parseInt_no_slash : Js.parseInt_at (Js.split "/" "4242") 1 = None.
Proof. reflexivity. Qed.

Example parseInt_trailing : Js.parseInt " 12px" = Some 12.
Proof. reflexivity. Qed.

Example parseInt_hex : Js.parseInt "-0x1f" = Some (-31).
Proof. reflexivity. Qed.

Example parseInt_nan : Js.parseInt "abc" = None.
Proof. reflexivity. Qed.

Example substring_swap : Js.substring "hello" 4 1 = "ell".
Proof. reflexivity. Qed.

Ltac unfold_monad :=
  unfold bind, ret, gets, modify, try_catch, throw in *.

(** ** The editor's buffer list *)

Lemma find_buffer_id n bs b :
  Nvim.find_buffer (Some n) bs = Some b -> Nvim.buf_id b = n.
Proof.
  unfold Nvim.find_buffer. intros H.
  apply List.find_some in H as [_ H]. lia.
Qed.

Lemma find_buffer_valid bufnr ed b :
  Nvim.find_buffer bufnr (Nvim.buffers ed) = Some b ->
  Nvim.valid_buffer (Nvim.buf_id b) ed = Some b.
Proof.
  destruct bufnr as [n|]; [|discriminate].
  intros H. unfold Nvim.valid_buffer.
  by rewrite (find_buffer_id _ _ _ H).
Qed.

Lemma find_update_modified n m v bs :
  Nvim.find_buffer (Some n) (Nvim.update_modified m v bs) =
  (fun b => if Nvim.buf_id b =? m then Nvim.set_modified v b else b)
    <$> Nvim.find_buffer (Some n) bs.
Proof.
  unfold Nvim.find_buffer, Nvim.update_modified.
  induction bs as [|b bs IH]; [done|].
  simpl. destruct (Nvim.buf_id b =? m) eqn:Hm; simpl;
    destruct (Nvim.buf_id b =? n) eqn:Hn; simpl; rewrite ?Hm; auto.
Qed.

(** ** acceptChanges and dropChanges of one client *)

Section Handlers.

Variable logger : option string.

Lemma acceptChanges_absent k s :
  McpTools.diffPromises s !! k = None ->
  McpTools.acceptChanges logger k s = (Ok false, s).
Proof.
  intros H. unfold McpTools.acceptChanges. unfold_monad. by rewrite H.
Qed.

Lemma dropChanges_absent k s :
  McpTools.diffPromises s !! k = None ->
  McpTools.dropChanges logger k s = (Ok false, s).
Proof.
  intros H. unfold McpTools.dropChanges. unfold_monad. by rewrite H.
Qed.

Lemma acceptChanges_found k e b s :
  McpTools.diffPromises s !! k = Some e ->
  Nvim.find_buffer (buffer_of_key k)
    (Nvim.buffers (nvim (McpTools.world s))) = Some b ->
  McpTools.acceptChanges logger k s = (Ok true, accepted logger k e b s).
Proof.
  intros He Hb. unfold buffer_of_key in Hb. unfold McpTools.acceptChanges. unfold_monad. rewrite He.
  unfold McpTools.nvim_buffers, McpTools.buffer_lines,
    McpTools.buffer_setOption_modified, McpTools.call_resolve,
    McpTools.toolLogger_info. unfold_monad.
  rewrite Hb. cbn beta. rewrite !(find_buffer_valid _ _ _ Hb). reflexivity.
Qed.

Lemma acceptChanges_missing k e s :
  McpTools.diffPromises s !! k = Some e ->
  Nvim.find_buffer (buffer_of_key k)
    (Nvim.buffers (nvim (McpTools.world s))) = None ->
  McpTools.acceptChanges logger k s = (Ok false, buffer_not_found logger k s).
Proof.
  intros He Hb. unfold buffer_of_key in Hb. unfold McpTools.acceptChanges. unfold_monad. rewrite He.
  unfold McpTools.nvim_buffers, McpTools.toolLogger_error. unfold_monad.
  by rewrite Hb.
Qed.

Lemma dropChanges_present k e s :
  McpTools.diffPromises s !! k = Some e ->
  McpTools.dropChanges logger k s = (Ok true, dropped logger k e s).
Proof.
  intros He. unfold McpTools.dropChanges. unfold_monad. rewrite He.
  unfold McpTools.nvim_buffers, McpTools.buffer_setOption_modified,
    McpTools.call_resolve, McpTools.toolLogger_info, dropped, clear_modified.
  unfold_monad.
  destruct (Nvim.find_buffer _ _) as [b|] eqn:Hb; [|done].
  by rewrite (find_buffer_valid _ _ _ Hb).
Qed.

End Handlers.

(** ** Resolution attempts across the clients of a manager *)

Lemma pending_delete k t : pending k (delete k t) = false.
Proof.
  unfold pending. apply bool_decide_eq_false. rewrite lookup_delete_eq.
  by intros [? ?].
Qed.

Lemma pending_lookup_None k t : pending k t = false <-> t !! k = None.
Proof.
  unfold pending. rewrite bool_decide_eq_false, <- eq_None_not_Some. done.
Qed.

Lemma pending_lookup_Some k t e : t !! k = Some e -> pending k t = true.
Proof. intros H. unfold pending. apply bool_decide_eq_true. eauto. Qed.

Lemma write_line_pid threshold prefix level message ed :
  Nvim.pid (write_line threshold prefix level message ed) = Nvim.pid ed.
Proof. unfold write_line. by destruct (_ <? _). Qed.

Lemma write_line_buffers threshold prefix level message ed :
  Nvim.buffers (write_line threshold prefix level message ed) = Nvim.buffers ed.
Proof. unfold write_line. by destruct (_ <? _). Qed.

Lemma write_line_cursor_pos threshold prefix level message ed :
  Nvim.cursor_pos (write_line threshold prefix level message ed) = Nvim.cursor_pos ed.
Proof. unfold write_line. by destruct (_ <? _). Qed.

Lemma acceptChanges_resolver logger k : resolver k (McpTools.acceptChanges logger k).
Proof.
  split.
  - apply acceptChanges_absent.
  - intros s. destruct (McpTools.diffPromises s !! k) as [e|] eqn:He.
    + destruct (Nvim.find_buffer (buffer_of_key k)
                  (Nvim.buffers (nvim (McpTools.world s)))) as [b|] eqn:Hb.
      * rewrite (acceptChanges_found _ _ _ _ _ He Hb). eauto.
      * rewrite (acceptChanges_missing _ _ _ _ He Hb). eauto.
    + rewrite (acceptChanges_absent _ _ _ He). eauto.
  - intros s s' H. destruct (McpTools.diffPromises s !! k) as [e|] eqn:He.
    + destruct (Nvim.find_buffer (buffer_of_key k)
                  (Nvim.buffers (nvim (McpTools.world s)))) as [b|] eqn:Hb.
      * rewrite (acceptChanges_found _ _ _ _ _ He Hb) in H.
        injection H as <-. exists e. eexists. split; [done|]. split; [done|].
        unfold accepted. simpl. done.
      * rewrite (acceptChanges_missing _ _ _ _ He Hb) in H. discriminate.
    + rewrite (acceptChanges_absent _ _ _ He) in H. discriminate.
  - intros s s' H. destruct (McpTools.diffPromises s !! k) as [e|] eqn:He.
    + destruct (Nvim.find_buffer (buffer_of_key k)
                  (Nvim.buffers (nvim (McpTools.world s)))) as [b|] eqn:Hb.
      * rewrite (acceptChanges_found _ _ _ _ _ He Hb) in H. discriminate.
      * rewrite (acceptChanges_missing _ _ _ _ He Hb) in H.
        injection H as <-. unfold buffer_not_found. simpl.
        done.
    + rewrite (acceptChanges_absent _ _ _ He) in H. by injection H as <-.
  - intros b s s' H. destruct (McpTools.diffPromises s !! k) as [e|] eqn:He.
    + destruct (Nvim.find_buffer (buffer_of_key k)
                  (Nvim.buffers (nvim (McpTools.world s)))) as [b'|] eqn:Hb.
      * rewrite (acceptChanges_found _ _ _ _ _ He Hb) in H.
        injection H as _ <-. unfold accepted. simpl.
        by rewrite write_line_pid.
      * rewrite (acceptChanges_missing _ _ _ _ He Hb) in H.
        injection H as _ <-. unfold buffer_not_found. simpl.
        by rewrite write_line_pid.
    + rewrite (acceptChanges_absent _ _ _ He) in H. by injection H as _ <-.
Qed.

Lemma clear_modified_facts k s :
  McpTools.diffPromises (clear_modified k s) = McpTools.diffPromises s /\
  resolve_calls (McpTools.world (clear_modified k s)) = resolve_calls (McpTools.world s) /\
  Nvim.pid (nvim (McpTools.world (clear_modified k s))) = Nvim.pid (nvim (McpTools.world s)).
Proof. unfold clear_modified. by destruct (Nvim.find_buffer _ _). Qed.

Lemma dropChanges_resolver logger k : resolver k (McpTools.dropChanges logger k).
Proof.
  split.
  - apply dropChanges_absent.
  - intros s. destruct (McpTools.diffPromises s !! k) as [e|] eqn:He.
    + rewrite (dropChanges_present _ _ _ _ He). eauto.
    + rewrite (dropChanges_absent _ _ _ He). eauto.
  - intros s s' H. destruct (McpTools.diffPromises s !! k) as [e|] eqn:He.
    + rewrite (dropChanges_present _ _ _ _ He) in H. injection H as <-.
      exists e. eexists. split; [done|].
      destruct (clear_modified_facts k s) as (Hd & Hc & _).
      unfold dropped. simpl. simpl.
      by rewrite Hd, Hc.
    + rewrite (dropChanges_absent _ _ _ He) in H. discriminate.
  - intros s s' H. destruct (McpTools.diffPromises s !! k) as [e|] eqn:He.
    + rewrite (dropChanges_present _ _ _ _ He) in H. discriminate.
    + rewrite (dropChanges_absent _ _ _ He) in H. by injection H as <-.
  - intros b s s' H. destruct (McpTools.diffPromises s !! k) as [e|] eqn:He.
    + rewrite (dropChanges_present _ _ _ _ He) in H. injection H as _ <-.
      destruct (clear_modified_facts k s) as (_ & _ & Hp).
      unfold dropped. simpl. rewrite write_line_pid. simpl. done.
    + rewrite (dropChanges_absent _ _ _ He) in H. by injection H as _ <-.
Qed.

Lemma pending_count_cons k h hs :
  pending_count k (h :: hs) =
  ((if pending k h then 1 else 0) + pending_count k hs)%nat.
Proof. unfold pending_count. simpl. by destruct (pending k h). Qed.

Lemma first_handler_spec k f (Hf : resolver k f) hs w :
  exists b hs' w',
    Manager.first_handler f hs w = (Ok b, hs', w') /\
    Nvim.pid (nvim w') = Nvim.pid (nvim w) /\
    (b = true ->
       S (pending_count k hs') = pending_count k hs /\
       exists t e v, t ∈ hs /\ t !! k = Some e /\
         resolve_calls w' = (resolve_calls w ++ [(McpTools.resolve e, v)])%list) /\
    (b = false -> hs' = hs /\ resolve_calls w' = resolve_calls w) /\
    (pending_count k hs = 0%nat -> b = false /\ w' = w).
Proof.
  revert w. induction hs as [|h hs IH]; intros w.
  - exists false, [], w. simpl. repeat split; auto; discriminate.
  - simpl.
    destruct (resolver_total k f Hf
                {| McpTools.diffPromises := h; McpTools.world := w |})
      as (b & s' & Hs').
    rewrite Hs'. destruct b.
    + destruct (resolver_true k f Hf _ _ Hs') as (e & v & He & Hd & Hc).
      simpl in He, Hd, Hc.
      exists true, (McpTools.diffPromises s' :: hs), (McpTools.world s').
      split; [done|]. split; [apply (resolver_pid k f Hf _ _ _ Hs')|].
      split; [|split].
      * intros _. split.
        -- rewrite !pending_count_cons, Hd, pending_delete,
             (pending_lookup_Some _ _ _ He). done.
        -- exists h, e, v. split; [apply list_elem_of_here|done].
      * discriminate.
      * rewrite pending_count_cons, (pending_lookup_Some _ _ _ He). discriminate.
    + destruct (resolver_false k f Hf _ _ Hs') as (Hd & Hc). simpl in Hd, Hc.
      destruct (IH (McpTools.world s')) as (b & hs' & w' & Hrec & Hpid & Ht & Hf' & H0).
      rewrite Hrec. exists b, (McpTools.diffPromises s' :: hs'), w'.
      split; [done|].
      split; [rewrite Hpid; apply (resolver_pid k f Hf _ _ _ Hs')|].
      split; [|split].
      * intros Hb. destruct (Ht Hb) as (Hn & t & e & v & Hin & He & Hc').
        split.
        -- rewrite !pending_count_cons, Hd. lia.
        -- exists t, e, v. split; [by apply list_elem_of_further|].
           split; [done|]. by rewrite Hc', Hc.
      * intros Hb. destruct (Hf' Hb) as (-> & Hc'). split; [by rewrite Hd|].
        by rewrite Hc', Hc.
      * rewrite pending_count_cons. intros Hz.
        assert (pending k h = false) as Hp by (destruct (pending k h); [lia|done]).
        assert (pending_count k hs = 0%nat) as Hz' by (destruct (pending k h); lia).
        apply pending_lookup_None in Hp.
        rewrite (resolver_absent k f Hf
                   {| McpTools.diffPromises := h; McpTools.world := w |} Hp) in Hs'.
        injection Hs' as <-. simpl in *.
        destruct (H0 Hz') as (-> & ->). done.
Qed.

Lemma for_handlers_spec k f (Hf : resolver k f) s :
  exists b s',
    Manager.for_handlers f s = (Ok b, s') /\
    Nvim.pid (nvim (Manager.world s')) = Nvim.pid (nvim (Manager.world s)) /\
    Manager.selectionTracking (Manager.this s') = Manager.selectionTracking (Manager.this s) /\
    (b = true ->
       S (pending_count k (Manager.changeHandlers (Manager.this s'))) =
         pending_count k (Manager.changeHandlers (Manager.this s)) /\
       exists t e v, t ∈ Manager.changeHandlers (Manager.this s) /\ t !! k = Some e /\
         resolve_calls (Manager.world s') =
           (resolve_calls (Manager.world s) ++ [(McpTools.resolve e, v)])%list) /\
    (b = false -> same_diffs s s') /\
    (pending_count k (Manager.changeHandlers (Manager.this s)) = 0%nat ->
       b = false /\ s' = s).
Proof.
  unfold Manager.for_handlers.
  destruct (first_handler_spec k f Hf (Manager.changeHandlers (Manager.this s))
              (Manager.world s)) as (b & hs' & w' & Hrun & Hpid & Ht & Hf' & H0).
  rewrite Hrun. eexists b, _. split; [done|]. simpl.
  split; [done|]. split; [done|]. split; [done|]. split.
  - intros Hb. destruct (Hf' Hb) as (-> & Hc). by repeat split.
  - intros Hz. destruct (H0 Hz) as (-> & ->). split; [done|].
    destruct (Hf' eq_refl) as (-> & _). by destruct s as [[] ?].
Qed.

(** ** Computations that leave the pending diffs alone *)

Lemma same_diffs_refl s : same_diffs s s.
Proof. by repeat split. Qed.

Lemma same_diffs_trans s1 s2 s3 :
  same_diffs s1 s2 -> same_diffs s2 s3 -> same_diffs s1 s3.
Proof.
  unfold same_diffs. intros (? & ? & ?) (? & ? & ?). repeat split; congruence.
Qed.

Lemma preserves_ret {A} (a : A) : preserves_diffs (ret a).
Proof. intros s. exists a, s. split; [done|apply same_diffs_refl]. Qed.

Lemma preserves_gets {A} (f : Manager.State -> A) : preserves_diffs (gets f).
Proof. intros s. exists (f s), s. split; [done|apply same_diffs_refl]. Qed.

Lemma preserves_modify f :
  (forall s, same_diffs s (f s)) -> preserves_diffs (modify f).
Proof. intros H s. exists tt, (f s). split; [done|apply H]. Qed.

Lemma preserves_bind {A B} (m : M Manager.State A) (k : A -> M Manager.State B) :
  preserves_diffs m -> (forall a, preserves_diffs (k a)) -> preserves_diffs (bind m k).
Proof.
  intros Hm Hk s. destruct (Hm s) as (a & s1 & E1 & S1).
  destruct (Hk a s1) as (b & s2 & E2 & S2).
  exists b, s2. unfold bind. rewrite E1. split; [done|].
  by apply same_diffs_trans with s1.
Qed.

Lemma preserves_try_catch {A} (body : M Manager.State A) handler :
  preserves_diffs body -> preserves_diffs (try_catch body handler).
Proof.
  intros Hm s. destruct (Hm s) as (a & s1 & E1 & S1).
  exists a, s1. unfold try_catch. by rewrite E1.
Qed.

Lemma preserves_log level message : preserves_diffs (Manager.log level message).
Proof.
  apply preserves_modify. intros s. unfold same_diffs. simpl.
  by rewrite write_line_pid.
Qed.

Lemma preserves_broadcast frame : preserves_diffs (Manager.broadcast frame).
Proof. apply preserves_modify. intros s. by repeat split. Qed.

Lemma preserves_sendEmptySelection bufnr :
  preserves_diffs (Manager.sendEmptySelection bufnr).
Proof.
  unfold Manager.sendEmptySelection.
  apply preserves_bind; [apply preserves_gets|]. intros running.
  destruct (negb running); [apply preserves_ret|].
  apply preserves_try_catch.
  apply preserves_bind; [apply preserves_gets|]. intros buffers.
  destruct (Nvim.find_buffer bufnr buffers) as [buffer|]; [|apply preserves_ret].
  destruct (String.eqb _ _); [apply preserves_ret|].
  apply preserves_bind; [apply preserves_gets|]. intros cursorPos.
  apply preserves_bind; [apply preserves_log|]. intros _.
  apply preserves_broadcast.
Qed.

Lemma preserves_stopSelectionTracking bufnr :
  preserves_diffs (Manager.stopSelectionTracking bufnr).
Proof.
  unfold Manager.stopSelectionTracking.
  apply preserves_bind; [apply preserves_gets|]. intros tracked.
  destruct (negb tracked); [apply preserves_ret|].
  apply preserves_bind; [apply preserves_modify; intros s; by repeat split|].
  intros _. apply preserves_bind; [apply preserves_gets|]. intros last.
  apply preserves_bind; [|intros _; apply preserves_log].
  destruct last as [n|]; [|apply preserves_ret].
  destruct (Js.strict_eq n bufnr); [|apply preserves_ret].
  apply preserves_bind; [apply preserves_sendEmptySelection|]. intros _.
  apply preserves_modify. intros s. by repeat split.
Qed.

(** ** One resolution attempt, and sequences of them *)

Lemma attempt_spec k bufnrStr a s :
  k = wipeout_key bufnrStr s ->
  exists b s',
    attempt k bufnrStr a s = (Ok b, s') /\
    Nvim.pid (nvim (Manager.world s')) = Nvim.pid (nvim (Manager.world s)) /\
    (b = true ->
       S (pending_count k (Manager.changeHandlers (Manager.this s'))) =
         pending_count k (Manager.changeHandlers (Manager.this s)) /\
       exists t e v, t ∈ Manager.changeHandlers (Manager.this s) /\ t !! k = Some e /\
         resolve_calls (Manager.world s') =
           (resolve_calls (Manager.world s) ++ [(McpTools.resolve e, v)])%list) /\
    (b = false -> same_diffs s s') /\
    (pending_count k (Manager.changeHandlers (Manager.this s)) = 0%nat -> b = false).
Proof.
  intros Hk. destruct a; simpl.
  - destruct (for_handlers_spec k _ (acceptChanges_resolver (Some Manager.logger) k) s)
      as (b & s' & E & Hpid & _ & Ht & Hf & H0).
    exists b, s'. unfold Manager.acceptChanges.
    split; [done|]. split; [done|]. split; [done|]. split; [done|].
    intros Hz. by destruct (H0 Hz).
  - destruct (for_handlers_spec k _ (dropChanges_resolver (Some Manager.logger) k) s)
      as (b & s' & E & Hpid & _ & Ht & Hf & H0).
    exists b, s'. unfold Manager.dropChanges.
    split; [done|]. split; [done|]. split; [done|]. split; [done|].
    intros Hz. by destruct (H0 Hz).
  - destruct (for_handlers_spec k _ (dropChanges_resolver (Some Manager.logger) k) s)
      as (b & s1 & E & Hpid & _ & Ht & Hf & H0).
    destruct (preserves_stopSelectionTracking (Js.parseInt bufnrStr) s1)
      as ([] & s2 & E2 & (Hh & Hc & Hp)).
    exists b, s2. unfold Manager.bufWipeout, Manager.dropChanges. unfold_monad.
    unfold wipeout_key in Hk. rewrite <- Hk, E, E2.
    split; [done|]. split; [congruence|]. split; [|split].
    + intros Hb. destruct (Ht Hb) as (Hn & t & e & v & Hin & He & Hcalls).
      split; [by rewrite Hh|]. exists t, e, v. by rewrite Hc.
    + intros Hb. apply same_diffs_trans with s1; [by apply Hf|]. by repeat split.
    + intros Hz. by destruct (H0 Hz).
Qed.

Lemma attempts_spec k bufnrStr l : forall s,
  k = wipeout_key bufnrStr s ->
  exists rs s',
    attempts k bufnrStr l s = (rs, s') /\
    k = wipeout_key bufnrStr s' /\
    Forall (fun r => exists b, r = Ok b) rs /\
    (pending_count k (Manager.changeHandlers (Manager.this s')) + successes rs =
       pending_count k (Manager.changeHandlers (Manager.this s)))%nat /\
    List.length (resolve_calls (Manager.world s')) =
      (List.length (resolve_calls (Manager.world s)) + successes rs)%nat.
Proof.
  induction l as [|a l IH]; intros s Hk.
  - exists [], s. simpl. repeat split; auto; unfold successes; simpl; lia.
  - destruct (attempt_spec k bufnrStr a s Hk) as (b & s1 & E & Hpid & Ht & Hf & _).
    assert (k = wipeout_key bufnrStr s1) as Hk1.
    { unfold wipeout_key in *. by rewrite Hpid. }
    destruct (IH s1 Hk1) as (rs & s2 & E2 & Hk2 & Hok & Hcount & Hlen).
    exists (Ok b :: rs), s2. simpl. rewrite E, E2.
    split; [done|]. split; [done|]. split; [constructor; eauto|].
    unfold successes in *. simpl. destruct b; simpl.
    + destruct (Ht eq_refl) as (Hn & t & e & v & _ & _ & Hc).
      rewrite Hc, length_app in Hlen. simpl in Hlen. lia.
    + destruct (Hf eq_refl) as (Hh & Hc & _). rewrite Hh, Hc in *. lia.
Qed.

Lemma attempts_after_removal k bufnrStr l : forall s,
  k = wipeout_key bufnrStr s ->
  pending_count k (Manager.changeHandlers (Manager.this s)) = 0%nat ->
  exists rs s',
    attempts k bufnrStr l s = (rs, s') /\
    Forall (fun r => r = Ok false) rs /\ same_diffs s s'.
Proof.
  induction l as [|a l IH]; intros s Hk Hz.
  - exists [], s. simpl. split; [done|]. split; [constructor|apply same_diffs_refl].
  - destruct (attempt_spec k bufnrStr a s Hk) as (b & s1 & E & Hpid & _ & Hf & H0).
    rewrite (H0 Hz) in *. destruct (Hf eq_refl) as (Hh & Hc & Hp).
    assert (k = wipeout_key bufnrStr s1) as Hk1.
    { unfold wipeout_key in *. by rewrite Hpid. }
    destruct (IH s1 Hk1) as (rs & s2 & E2 & Hall & Hsame); [by rewrite Hh|].
    exists (Ok false :: rs), s2. simpl. rewrite E, E2.
    split; [done|]. split; [by constructor|].
    apply same_diffs_trans with s1; [by repeat split|done].
Qed.

(** A call of the handler with its [await]s that nothing overlaps is the
    handler executed as one transition. *)
Lemma alone_acceptChanges logger k s :
  Async.alone (Async.acceptChanges logger k) s = McpTools.acceptChanges logger k s.
Proof.
  unfold Async.alone, Async.acceptChanges, McpTools.acceptChanges, Async.now,
    Async.try_catch, Async.await, Async.finish, bind, gets, try_catch, ret.
  destruct (McpTools.diffPromises s !! k) as [e|]; [|done]. simpl.
  unfold McpTools.nvim_buffers, gets, Async.now. simpl.
  destruct (Nvim.find_buffer _ _) as [b|]; simpl; [|done].
  unfold Async.now.
  destruct (McpTools.buffer_lines b s) as [[lines|msg] s1]; simpl; [|done].
  unfold Async.now.
  destruct (McpTools.buffer_setOption_modified b false s1) as [[[]|msg] s2]; simpl; done.
Qed.

Lemma alone_dropChanges logger k s :
  Async.alone (Async.dropChanges logger k) s = McpTools.dropChanges logger k s.
Proof.
  unfold Async.alone, Async.dropChanges, McpTools.dropChanges, Async.now,
    Async.try_catch, Async.await, Async.await_if, Async.finish, bind, gets, try_catch, ret.
  destruct (McpTools.diffPromises s !! k) as [e|]; [|done]. simpl.
  unfold McpTools.nvim_buffers, gets, Async.now. simpl.
  destruct (Nvim.find_buffer _ _) as [b|]; simpl; [|done].
  unfold Async.now.
  destruct (McpTools.buffer_setOption_modified b false s) as [[[]|msg] s2]; simpl; done.
Qed.

(** Registering a key that no table holds makes it pending in exactly one
    table, and leaves the count of every other key as it was: the keys
    openDiff builds from the number of a buffer the editor has just
    created stay pending in at most one table. *)
Lemma pending_count_register k k' e hs : forall i t,
  hs !! i = Some t ->
  t !! k = None ->
  pending_count k' (<[i := <[k := e]> t]> hs)
  = (pending_count k' hs + (if decide (k' = k) then 1 else 0))%nat.
Proof.
  induction hs as [|h hs IH]; intros i t Hi Ht; [done|].
  destruct i as [|i]; simpl in *.
  - injection Hi as ->. rewrite !pending_count_cons. unfold pending.
    destruct (decide (k' = k)) as [->|Hne].
    + rewrite lookup_insert_eq, Ht.
      rewrite bool_decide_eq_true_2 by eauto.
      rewrite bool_decide_eq_false_2 by (by intros [? ?]). lia.
    + rewrite lookup_insert_ne by done. lia.
  - rewrite !pending_count_cons, (IH i t Hi Ht). lia.
Qed.

(** C1, refuted as stated: two calls for one key that overlap both
    succeed.  A diff is pending on buffer 7; [acceptChanges] and
    [dropChanges] are called for its key one right after the other and
    resumed in turn.  Each has found the record before the other removed
    it, so both return [true] and both call the [resolve] function of the
    record: the promise is settled with DIFF_REJECTED, by the call that
    came first, although [acceptChanges] has returned [true] as well. *)
Lemma overlapping_calls_both_succeed :
  omap Async.result overlapping_calls.1 = [Ok true; Ok true] /\
  successes (omap Async.result overlapping_calls.1) = 2%nat /\
  resolve_calls (McpTools.world overlapping_calls.2) =
    [(McpTools.resolve sample_entry, McpTools.DIFF_REJECTED);
     (McpTools.resolve sample_entry, McpTools.FILE_SAVED ("hello" +:+ McpTools.LF))] /\
  Promise.settled (McpTools.resolve sample_entry)
    (resolve_calls (McpTools.world overlapping_calls.2)) = Some McpTools.DIFF_REJECTED.
Proof. repeat split; vm_compute; reflexivity. Qed.

(** C1, amended.  Take any sequence of resolution attempts on a key [k]
    that do not overlap: calls of the manager's [acceptChanges(k)] and
    [dropChanges(k)] and firings of the BufWipeout autocmd of the buffer of
    [k], each returned before the next begins.  The attempts that succeed
    are at most as many as the tables in which [k] is pending at the
    start, and an attempt that succeeds has removed the record of [k] from
    one table and called the [resolve] function of that record exactly
    once.  For a key pending in at most one table, then, at most one
    attempt succeeds; when one does, none before it did, and every later
    attempt returns [false], leaving the tables of pending diffs and the
    calls of [resolve] functions as they were. *)
Theorem resolution_at_most_once k bufnrStr (s : Manager.State) before a after :
  k = wipeout_key bufnrStr s ->
  exists rs1 s1 r s2 rs3 s3,
    attempts k bufnrStr before s = (rs1, s1) /\
    attempt k bufnrStr a s1 = (Ok r, s2) /\
    attempts k bufnrStr after s2 = (rs3, s3) /\
    (successes (rs1 ++ Ok r :: rs3)
       <= pending_count k (Manager.changeHandlers (Manager.this s)))%nat /\
    (r = true ->
       S (pending_count k (Manager.changeHandlers (Manager.this s2))) =
         pending_count k (Manager.changeHandlers (Manager.this s1)) /\
       exists t e v,
         t ∈ Manager.changeHandlers (Manager.this s1) /\ t !! k = Some e /\
         resolve_calls (Manager.world s2) =
           (resolve_calls (Manager.world s1) ++ [(McpTools.resolve e, v)])%list) /\
    ((pending_count k (Manager.changeHandlers (Manager.this s)) <= 1)%nat ->
       (successes (rs1 ++ Ok r :: rs3) <= 1)%nat /\
       (r = true ->
          successes rs1 = 0%nat /\
          pending_count k (Manager.changeHandlers (Manager.this s2)) = 0%nat /\
          Forall (fun r' => r' = Ok false) rs3 /\
          Manager.changeHandlers (Manager.this s3)
            = Manager.changeHandlers (Manager.this s2) /\
          resolve_calls (Manager.world s3) = resolve_calls (Manager.world s2))).
Proof.
  intros Hk.
  destruct (attempts_spec k bufnrStr before s Hk)
    as (rs1 & s1 & E1 & Hk1 & _ & Hc1 & _).
  destruct (attempt_spec k bufnrStr a s1 Hk1) as (r & s2 & E2 & Hpid & Ht & Hf & _).
  assert (k = wipeout_key bufnrStr s2) as Hk2.
  { unfold wipeout_key in *. by rewrite Hpid. }
  destruct (attempts_spec k bufnrStr after s2 Hk2)
    as (rs3 & s3 & E3 & _ & _ & Hc3 & _).
  exists rs1, s1, r, s2, rs3, s3.
  split; [done|]. split; [done|]. split; [done|].
  assert (successes (rs1 ++ Ok r :: rs3) =
          (successes rs1 + ((if r then 1 else 0) + successes rs3))%nat) as Hsum.
  { unfold successes. rewrite List.filter_app, length_app. simpl.
    by destruct r. }
  assert (successes (rs1 ++ Ok r :: rs3)
            <= pending_count k (Manager.changeHandlers (Manager.this s)))%nat as Hbound.
  { rewrite Hsum. destruct r.
    - destruct (Ht eq_refl) as (Hn & _). lia.
    - destruct (Hf eq_refl) as (Hh & _). rewrite Hh in Hc3. lia. }
  split; [exact Hbound|]. split; [exact Ht|].
  intros Hle. split; [lia|].
  intros ->. destruct (Ht eq_refl) as (Hn & Hex).
  assert (pending_count k (Manager.changeHandlers (Manager.this s2)) = 0%nat)
    as Hz by lia.
  destruct (attempts_after_removal k bufnrStr after s2 Hk2 Hz)
    as (rs3' & s3' & E3' & Hall & (Hh & Hc & _)).
  rewrite E3 in E3'. injection E3' as <- <-.
  split; [lia|]. by repeat split.
Qed.

Lemma resolution_at_most_once_witness :
  exists rs1 s1 r s2 rs3 s3,
    attempts "4242/7" "7" [ByAccept] (sample_manager [file_buffer]) = (rs1, s1) /\
    attempt "4242/7" "7" ByWipeout s1 = (Ok r, s2) /\
    attempts "4242/7" "7" [ByDrop; ByAccept; ByWipeout] s2 = (rs3, s3) /\
    (successes (rs1 ++ Ok r :: rs3) <= 1)%nat /\
    (r = true ->
       successes rs1 = 0%nat /\
       pending_count "4242/7" (Manager.changeHandlers (Manager.this s2)) = 0%nat /\
       Forall (fun r' => r' = Ok false) rs3 /\
       Manager.changeHandlers (Manager.this s3) = Manager.changeHandlers (Manager.this s2) /\
       resolve_calls (Manager.world s3) = resolve_calls (Manager.world s2)).
Proof.
  destruct (resolution_at_most_once "4242/7" "7" (sample_manager [file_buffer])
              [ByAccept] ByWipeout [ByDrop; ByAccept; ByWipeout])
    as (rs1 & s1 & r & s2 & rs3 & s3 & E1 & E2 & E3 & _ & _ & H).
  - vm_compute. reflexivity.
  - exists rs1, s1, r, s2, rs3, s3.
    split; [exact E1|]. split; [exact E2|]. split; [exact E3|].
    apply H. vm_compute. lia.
Defined.

(** ** Promises *)

Lemma settled_first_call p v calls :
  Promise.settled p calls = None ->
  Promise.settled p (calls ++ [(p, v)])%list = Some v.
Proof.
  unfold Promise.settled. induction calls as [|c calls IH]; simpl.
  - by rewrite Nat.eqb_refl.
  - destruct (Nat.eqb (fst c) p); [discriminate|exact IH].
Qed.

Lemma settled_stays p q v w calls :
  Promise.settled p calls = Some v ->
  Promise.settled p (calls ++ [(q, w)])%list = Some v.
Proof.
  unfold Promise.settled. induction calls as [|c calls IH]; simpl.
  - discriminate.
  - destruct (Nat.eqb (fst c) p); [done|exact IH].
Qed.

(** ** acceptChanges *)

(** C3, refuted as stated: a record is pending for the key "4242/7", the
    editor has no buffer 7, and [acceptChanges] returns [false]; the record
    stays in the table and no [resolve] function is called. *)
Lemma accept_pending_without_buffer :
  McpTools.diffPromises (sample_tools [file_buffer]) !! "4242/7" = Some sample_entry /\
  exists s',
    McpTools.acceptChanges (Some "MCP") "4242/7" (sample_tools [file_buffer])
      = (Ok false, s') /\
    McpTools.diffPromises s' !! "4242/7" = Some sample_entry /\
    resolve_calls (McpTools.world s') = [].
Proof.
  split; [by vm_compute|].
  eexists. split; [vm_compute; reflexivity|]. split; by vm_compute.
Qed.

(** C3, amended.  When a record [e] is pending for [k] and the editor still
    has the buffer [b] whose number [k] carries, [acceptChanges(k)] returns
    [true]; it has called the [resolve] function of [e] once, with the
    FILE_SAVED payload carrying the lines of [b] joined by line feeds, which
    settles the promise if it was pending; it has removed the record and
    cleared the buffer's modified flag, keeping its lines; and a second
    [acceptChanges(k)] returns [false] and changes nothing.  In any state
    without a record for [k], [acceptChanges(k)] returns [false] and changes
    nothing. *)
Theorem acceptChanges_behaviour logger k (s : McpTools.State) e b :
  McpTools.diffPromises s !! k = Some e ->
  Nvim.find_buffer (buffer_of_key k) (Nvim.buffers (nvim (McpTools.world s))) = Some b ->
  (exists s',
     let content := Js.join McpTools.LF (Nvim.buf_lines b) in
     McpTools.acceptChanges logger k s = (Ok true, s') /\
     resolve_calls (McpTools.world s') =
       (resolve_calls (McpTools.world s)
          ++ [(McpTools.resolve e, McpTools.FILE_SAVED content)])%list /\
     (Promise.settled (McpTools.resolve e) (resolve_calls (McpTools.world s)) = None ->
      Promise.settled (McpTools.resolve e) (resolve_calls (McpTools.world s'))
        = Some (McpTools.FILE_SAVED content)) /\
     McpTools.diffPromises s' = delete k (McpTools.diffPromises s) /\
     (exists b',
        Nvim.find_buffer (buffer_of_key k) (Nvim.buffers (nvim (McpTools.world s')))
          = Some b' /\
        Nvim.buf_modified b' = false /\ Nvim.buf_lines b' = Nvim.buf_lines b) /\
     McpTools.acceptChanges logger k s' = (Ok false, s')) /\
  (forall s0 : McpTools.State,
     McpTools.diffPromises s0 !! k = None ->
     McpTools.acceptChanges logger k s0 = (Ok false, s0)).
Proof.
  intros He Hb. split; [|intros s0; apply acceptChanges_absent].
  exists (accepted logger k e b s). cbv zeta.
  split; [by apply acceptChanges_found|].
  assert (resolve_calls (McpTools.world (accepted logger k e b s)) =
          (resolve_calls (McpTools.world s)
             ++ [(McpTools.resolve e,
                  McpTools.FILE_SAVED (Js.join McpTools.LF (Nvim.buf_lines b)))])%list)
    as Hcalls.
  { unfold accepted. simpl. done. }
  split; [done|]. split; [intros Hp; rewrite Hcalls; by apply settled_first_call|].
  split; [done|]. split.
  - destruct (buffer_of_key k) as [n|] eqn:Hn; [|discriminate].
    assert (Nvim.buf_id b = n) as Hid by (by apply find_buffer_id in Hb).
    exists (Nvim.set_modified false b).
    assert (Nvim.buffers (nvim (McpTools.world (accepted logger k e b s))) =
            Nvim.update_modified (Nvim.buf_id b) false
              (Nvim.buffers (nvim (McpTools.world s)))) as ->.
    { unfold accepted. simpl. by rewrite write_line_buffers. }
    rewrite find_update_modified, Hb. simpl.
    rewrite Hid, Z.eqb_refl. done.
  - apply acceptChanges_absent. unfold accepted. simpl. apply lookup_delete_eq.
Qed.

Lemma acceptChanges_behaviour_witness :
  (exists s',
     let content := Js.join McpTools.LF (Nvim.buf_lines diff_buffer) in
     McpTools.acceptChanges (Some "MCP") "4242/7" (sample_tools [file_buffer; diff_buffer])
       = (Ok true, s') /\
     resolve_calls (McpTools.world s') =
       (resolve_calls (McpTools.world (sample_tools [file_buffer; diff_buffer]))
          ++ [(McpTools.resolve sample_entry, McpTools.FILE_SAVED content)])%list /\
     (Promise.settled (McpTools.resolve sample_entry)
        (resolve_calls (McpTools.world (sample_tools [file_buffer; diff_buffer]))) = None ->
      Promise.settled (McpTools.resolve sample_entry) (resolve_calls (McpTools.world s'))
        = Some (McpTools.FILE_SAVED content)) /\
     McpTools.diffPromises s' =
       delete "4242/7" (McpTools.diffPromises (sample_tools [file_buffer; diff_buffer])) /\
     (exists b',
        Nvim.find_buffer (buffer_of_key "4242/7")
          (Nvim.buffers (nvim (McpTools.world s'))) = Some b' /\
        Nvim.buf_modified b' = false /\
        Nvim.buf_lines b' = Nvim.buf_lines diff_buffer) /\
     McpTools.acceptChanges (Some "MCP") "4242/7" s' = (Ok false, s')) /\
  (forall s0 : McpTools.State,
     McpTools.diffPromises s0 !! "4242/7" = None ->
     McpTools.acceptChanges (Some "MCP") "4242/7" s0 = (Ok false, s0)).
Proof.
  apply (acceptChanges_behaviour (Some "MCP") "4242/7"
           (sample_tools [file_buffer; diff_buffer]) sample_entry diff_buffer).
  - vm_compute. reflexivity.
  - vm_compute. reflexivity.
Defined.

(** C9.  When a record is pending for [k] and the editor has no buffer with
    the number [k] carries, [acceptChanges(k)] returns [false] and leaves
    the table of pending diffs unchanged: the record is still pending and
    no [resolve] function has been called.  The only change is the line
    "Buffer ... not found" in the log. *)
Theorem acceptChanges_buffer_gone logger k (s : McpTools.State) e :
  McpTools.diffPromises s !! k = Some e ->
  Nvim.find_buffer (buffer_of_key k) (Nvim.buffers (nvim (McpTools.world s))) = None ->
  exists s',
    McpTools.acceptChanges logger k s = (Ok false, s') /\
    s' = buffer_not_found logger k s /\
    McpTools.diffPromises s' = McpTools.diffPromises s /\
    McpTools.diffPromises s' !! k = Some e /\
    resolve_calls (McpTools.world s') = resolve_calls (McpTools.world s) /\
    Nvim.buffers (nvim (McpTools.world s')) = Nvim.buffers (nvim (McpTools.world s)).
Proof.
  intros He Hb. exists (buffer_not_found logger k s).
  split; [by apply acceptChanges_missing with e|]. split; [done|].
  unfold buffer_not_found. simpl. idtac.
  repeat split; try done. by rewrite write_line_buffers.
Qed.

Lemma acceptChanges_buffer_gone_witness :
  exists s',
    McpTools.acceptChanges (Some "MCP") "4242/7" (sample_tools [file_buffer])
      = (Ok false, s') /\
    s' = buffer_not_found (Some "MCP") "4242/7" (sample_tools [file_buffer]) /\
    McpTools.diffPromises s' = McpTools.diffPromises (sample_tools [file_buffer]) /\
    McpTools.diffPromises s' !! "4242/7" = Some sample_entry /\
    resolve_calls (McpTools.world s')
      = resolve_calls (McpTools.world (sample_tools [file_buffer])) /\
    Nvim.buffers (nvim (McpTools.world s'))
      = Nvim.buffers (nvim (McpTools.world (sample_tools [file_buffer]))).
Proof.
  apply (acceptChanges_buffer_gone (Some "MCP") "4242/7"
           (sample_tools [file_buffer]) sample_entry).
  - vm_compute. reflexivity.
  - vm_compute. reflexivity.
Defined.

(** ** dropChanges *)

Lemma first_handler_drop logger k hs : forall w,
  (0 < pending_count k hs)%nat ->
  exists hs' w' t e,
    Manager.first_handler (McpTools.dropChanges logger k) hs w = (Ok true, hs', w') /\
    t ∈ hs /\ t !! k = Some e /\
    resolve_calls w' =
      (resolve_calls w ++ [(McpTools.resolve e, McpTools.DIFF_REJECTED)])%list /\
    S (pending_count k hs') = pending_count k hs /\
    Nvim.pid (nvim w') = Nvim.pid (nvim w).
Proof.
  induction hs as [|h hs IH]; intros w Hpos.
  - unfold pending_count in Hpos. simpl in Hpos. lia.
  - simpl. destruct (h !! k) as [e|] eqn:He.
    + rewrite (dropChanges_present logger k e
                 {| McpTools.diffPromises := h; McpTools.world := w |} He).
      eexists _, _, h, e. split; [done|]. split; [apply list_elem_of_here|].
      split; [done|].
      destruct (clear_modified_facts k
                  {| McpTools.diffPromises := h; McpTools.world := w |})
        as (Hd & Hc & Hp). simpl in Hd, Hc, Hp.
      unfold dropped. simpl. rewrite write_line_pid.
      simpl. rewrite Hc, Hd, Hp. split; [done|]. split; [|done].
      rewrite !pending_count_cons, pending_delete, (pending_lookup_Some _ _ _ He).
      done.
    + rewrite (dropChanges_absent logger k
                 {| McpTools.diffPromises := h; McpTools.world := w |} He).
      simpl. rewrite pending_count_cons in Hpos.
      apply pending_lookup_None in He as Hp. rewrite Hp in Hpos.
      destruct (IH w Hpos) as (hs' & w' & t & e & E & Hin & Ht & Hc & Hn & Hpid).
      rewrite E. exists (h :: hs'), w', t, e.
      split; [done|]. split; [by apply list_elem_of_further|].
      split; [done|]. split; [done|]. split; [|done].
      rewrite !pending_count_cons, Hp. lia.
Qed.

(** C10.  When a record [e] is pending for [k], [dropChanges(k)] returns
    [true] whether or not the editor still has the buffer of [k]: it has
    called the [resolve] function of [e] once with the DIFF_REJECTED
    payload, which settles the promise if it was pending, and has removed
    the record; when the buffer is gone the editor's buffers are left as
    they were.  Hence, while the server runs, the BufWipeout autocmd of a
    buffer whose key is pending in some client's table returns normally,
    having resolved one such record with DIFF_REJECTED and removed it. *)
Theorem dropChanges_without_buffer logger k (s : McpTools.State) e :
  McpTools.diffPromises s !! k = Some e ->
  (exists s',
     McpTools.dropChanges logger k s = (Ok true, s') /\
     resolve_calls (McpTools.world s') =
       (resolve_calls (McpTools.world s)
          ++ [(McpTools.resolve e, McpTools.DIFF_REJECTED)])%list /\
     (Promise.settled (McpTools.resolve e) (resolve_calls (McpTools.world s)) = None ->
      Promise.settled (McpTools.resolve e) (resolve_calls (McpTools.world s'))
        = Some McpTools.DIFF_REJECTED) /\
     McpTools.diffPromises s' = delete k (McpTools.diffPromises s) /\
     (Nvim.find_buffer (buffer_of_key k) (Nvim.buffers (nvim (McpTools.world s))) = None ->
      Nvim.buffers (nvim (McpTools.world s')) = Nvim.buffers (nvim (McpTools.world s)))) /\
  (forall (p : Plugin.State) mgr bufnrStr,
     Plugin.running p = Some mgr ->
     (0 < pending_count
            (McpTools.changeId_of (Nvim.pid (nvim (Plugin.world p))) (Js.parseInt bufnrStr))
            (Manager.changeHandlers mgr))%nat ->
     exists p' mgr' t e',
       Plugin.BufWipeout bufnrStr p = (Ok tt, p') /\
       Plugin.serverManager p' = Some mgr' /\
       t ∈ Manager.changeHandlers mgr /\
       t !! McpTools.changeId_of (Nvim.pid (nvim (Plugin.world p))) (Js.parseInt bufnrStr)
         = Some e' /\
       resolve_calls (Plugin.world p') =
         (resolve_calls (Plugin.world p)
            ++ [(McpTools.resolve e', McpTools.DIFF_REJECTED)])%list /\
       S (pending_count
            (McpTools.changeId_of (Nvim.pid (nvim (Plugin.world p))) (Js.parseInt bufnrStr))
            (Manager.changeHandlers mgr')) =
         pending_count
           (McpTools.changeId_of (Nvim.pid (nvim (Plugin.world p))) (Js.parseInt bufnrStr))
           (Manager.changeHandlers mgr)).
Proof.
  intros He. split.
  - exists (dropped logger k e s).
    split; [by apply dropChanges_present|].
    destruct (clear_modified_facts k s) as (Hd & Hc & _).
    assert (resolve_calls (McpTools.world (dropped logger k e s)) =
            (resolve_calls (McpTools.world s)
               ++ [(McpTools.resolve e, McpTools.DIFF_REJECTED)])%list) as Hcalls.
    { unfold dropped. simpl. simpl.
      by rewrite Hc. }
    split; [done|]. split; [intros Hp; rewrite Hcalls; by apply settled_first_call|].
    split; [unfold dropped; simpl; by rewrite Hd|].
    intros Hnone. unfold dropped, clear_modified. rewrite Hnone.
    simpl. by rewrite write_line_buffers.
  - intros p mgr bufnrStr Hrun Hpos.
    set (key := McpTools.changeId_of (Nvim.pid (nvim (Plugin.world p)))
                  (Js.parseInt bufnrStr)) in *.
    destruct (first_handler_drop (Some Manager.logger) key
                (Manager.changeHandlers mgr) (Plugin.world p) Hpos)
      as (hs' & w' & t & e' & E & Hin & Ht & Hc & Hn & Hpid).
    destruct (preserves_stopSelectionTracking (Js.parseInt bufnrStr)
                {| Manager.this := Manager.set_changeHandlers hs' mgr;
                   Manager.world := w' |})
      as ([] & s2 & E2 & (Hh & Hc2 & _)). simpl in Hh, Hc2.
    exists {| Plugin.serverManager := Some (Manager.this s2);
              Plugin.world := Manager.world s2 |}, (Manager.this s2), t, e'.
    split.
    { unfold Plugin.BufWipeout, Plugin.call, Manager.bufWipeout,
        Manager.dropChanges, Manager.for_handlers. unfold_monad.
      rewrite Hrun. simpl. fold key. rewrite E, E2. done. }
    simpl. split; [done|]. split; [done|]. split; [done|].
    split; [by rewrite Hc2|]. by rewrite Hh.
Qed.

Lemma dropChanges_without_buffer_witness :
  exists s',
    McpTools.dropChanges (Some "MCP") "4242/7" (sample_tools [file_buffer]) = (Ok true, s') /\
    resolve_calls (McpTools.world s') = [(0%nat, McpTools.DIFF_REJECTED)] /\
    McpTools.diffPromises s' !! "4242/7" = None.
Proof.
  destruct (dropChanges_without_buffer (Some "MCP") "4242/7"
              (sample_tools [file_buffer]) sample_entry) as [(s' & E & Hc & _ & Hd & _) _].
  - vm_compute. reflexivity.
  - exists s'. split; [exact E|]. split; [exact Hc|].
    rewrite Hd. apply lookup_delete_eq.
Defined.

Example bufWipeout_resolves_pending :
  exists p',
    Plugin.BufWipeout "7" (sample_plugin [file_buffer]) = (Ok tt, p') /\
    resolve_calls (Plugin.world p') = [(0%nat, McpTools.DIFF_REJECTED)] /\
    (Manager.changeHandlers <$> Plugin.serverManager p') = Some [∅].
Proof. eexists. split; [vm_compute; reflexivity|]. split; by vm_compute. Qed.

(** ** close_tab *)

(** C8.  When the editor's [bufnr] finds no buffer for the tab name
    (it answers -1), close_tab returns the TAB_CLOSED payload without
    throwing and leaves the whole state as it was; so do two calls in
    sequence. *)
Theorem close_tab_missing vim_bufnr vim_command tab_name (s : McpTools.State) :
  vim_bufnr (nvim (McpTools.world s)) tab_name = -1 ->
  McpTools.close_tab vim_bufnr vim_command tab_name s = (Ok McpTools.TAB_CLOSED, s) /\
  close_tab_twice vim_bufnr vim_command tab_name s
    = (Ok (McpTools.TAB_CLOSED, McpTools.TAB_CLOSED), s).
Proof.
  intros H.
  assert (McpTools.close_tab vim_bufnr vim_command tab_name s
          = (Ok McpTools.TAB_CLOSED, s)) as E.
  { unfold McpTools.close_tab. unfold_monad. by rewrite H. }
  split; [exact E|].
  unfold close_tab_twice, bind. by rewrite E, E.
Qed.

Lemma close_tab_missing_witness :
  McpTools.close_tab exact_bufnr inert_command "missing.txt" (sample_tools [file_buffer])
    = (Ok McpTools.TAB_CLOSED, sample_tools [file_buffer]) /\
  close_tab_twice exact_bufnr inert_command "missing.txt" (sample_tools [file_buffer])
    = (Ok (McpTools.TAB_CLOSED, McpTools.TAB_CLOSED), sample_tools [file_buffer]).
Proof.
  apply (close_tab_missing exact_bufnr inert_command "missing.txt"
           (sample_tools [file_buffer])).
  vm_compute. reflexivity.
Defined.


(** ** Sessions *)

Lemma map_set_elem k v m : (k, v) ∈ Manager.map_set k v m.
Proof.
  induction m as [|[k' v'] m IH]; simpl; [apply list_elem_of_here|].
  destruct (Nat.eqb k' k); [apply list_elem_of_here|by apply list_elem_of_further].
Qed.

Lemma map_set_new_length k v m :
  k ∉ m.*1 -> List.length (Manager.map_set k v m) = S (List.length m).
Proof.
  induction m as [|[k' v'] m IH]; simpl; [done|]. intros Hn.
  destruct (Nat.eqb k' k) eqn:E.
  - apply Nat.eqb_eq in E as ->. destruct Hn. apply list_elem_of_here.
  - simpl. rewrite IH; [done|]. intros Hin. apply Hn. by apply list_elem_of_further.
Qed.

(** [handleClient] on an open socket: the session is registered, with a
    new timer that starts at [pingId = 0]; sockets and pending diffs are
    not touched. *)
Lemma handleClient_open (s : Manager.State) socket sock :
  sockets (Manager.world s) !! socket = Some sock ->
  Net.readyState sock = Net.OPEN ->
  exists s',
    Manager.handleClient socket s = (Ok tt, s') /\
    Manager.clientServers (Manager.this s') =
      Manager.map_set socket (List.length (Manager.changeHandlers (Manager.this s)))
        (Manager.clientServers (Manager.this s)) /\
    Manager.changeHandlers (Manager.this s') =
      (Manager.changeHandlers (Manager.this s) ++ [∅])%list /\
    Manager.healthCheckIntervals (Manager.this s') =
      <[socket := fresh (dom (timers (Manager.world s)))]>
        (Manager.healthCheckIntervals (Manager.this s)) /\
    timers (Manager.world s') =
      <[fresh (dom (timers (Manager.world s))) :=
          {| Net.hb_ws := socket; Net.pingId := 0; Net.active := true |}]>
        (timers (Manager.world s)) /\
    sockets (Manager.world s') = sockets (Manager.world s) /\
    Manager.wss (Manager.this s') = Manager.wss (Manager.this s).
Proof.
  intros Hs Ho.
  unfold Manager.handleClient, Manager.mcpServer_connect, Manager.lift,
    WsServer.transport_start, Manager.setInterval, Manager.log. unfold_monad.
  destruct (Nvim.unsafe_execute_lua (nvim (Manager.world s)));
    simpl; rewrite Hs, Ho; simpl.
  all: eexists; split; [reflexivity|]; simpl; by repeat split.
Qed.
(** ** The handshake *)

Lemma header_is_spec authHeader authToken :
  WsServer.header_is authHeader authToken = true <->
  authHeader = WsServer.Single authToken.
Proof.
  destruct authHeader as [|value|values]; simpl.
  - split; discriminate.
  - rewrite String.eqb_eq. split; [by intros ->|by intros [= ->]].
  - split; discriminate.
Qed.

(** C4.  On a listening server an upgrade request is accepted by
    [verifyClient] if and only if its x-claude-code-ide-authorization
    header is the one string equal to the server's token.  With any other
    header (absent, a list, another string) [verifyClient] answers 401
    "Unauthorized" and the request changes nothing but the record of that
    rejection: the manager object, hence its sessions and their number, and
    the sockets and timers are as before.  With the right header a new open
    socket is created and handed to [handleClient], which registers it as a
    session. *)
Theorem upgrade_needs_token (s : Manager.State) server authHeader :
  Manager.wss (Manager.this s) = Some server ->
  (WsServer.verifyClient (WsServer.authToken server) authHeader = WsServer.Accept <->
   authHeader = WsServer.Single (WsServer.authToken server)) /\
  (authHeader <> WsServer.Single (WsServer.authToken server) ->
   WsServer.verifyClient (WsServer.authToken server) authHeader
     = WsServer.Reject 401 "Unauthorized" /\
   exists s',
     Manager.on_upgrade authHeader s = (Ok tt, s') /\
     s' = Manager.with_world (with_event (EvReject 401 "Unauthorized")) s /\
     Manager.this s' = Manager.this s /\
     Manager.getClientCount (Manager.this s') = Manager.getClientCount (Manager.this s) /\
     sockets (Manager.world s') = sockets (Manager.world s) /\
     timers (Manager.world s') = timers (Manager.world s)) /\
  (authHeader = WsServer.Single (WsServer.authToken server) ->
   let socket := fresh (dom (sockets (Manager.world s))) in
   exists s' mcpServer,
     Manager.on_upgrade authHeader s = (Ok tt, s') /\
     (socket, mcpServer) ∈ Manager.clientServers (Manager.this s') /\
     sockets (Manager.world s') !! socket
       = Some {| Net.readyState := Net.OPEN; Net.sent := [] |} /\
     (socket ∉ (Manager.clientServers (Manager.this s)).*1 ->
      Manager.getClientCount (Manager.this s')
        = S (Manager.getClientCount (Manager.this s)))).
Proof.
  intros Hwss.
  assert (WsServer.verifyClient (WsServer.authToken server) authHeader = WsServer.Accept <->
          authHeader = WsServer.Single (WsServer.authToken server)) as Hiff.
  { unfold WsServer.verifyClient. rewrite <- header_is_spec.
    destruct (WsServer.header_is _ _); split; congruence. }
  split; [exact Hiff|]. split.
  - intros Hne.
    assert (WsServer.verifyClient (WsServer.authToken server) authHeader
            = WsServer.Reject 401 "Unauthorized") as Hrej.
    { unfold WsServer.verifyClient in *.
      destruct (WsServer.header_is _ _); [|done]. by destruct Hne, Hiff as [-> _]. }
    split; [exact Hrej|]. eexists. split.
    + unfold Manager.on_upgrade. unfold_monad. rewrite Hwss, Hrej. reflexivity.
    + by repeat split.
  - intros Heq. apply Hiff in Heq as Hacc. cbv zeta.
    set (socket := fresh (dom (sockets (Manager.world s)))).
    set (s1 := Manager.with_world (with_sockets
                 <[socket := {| Net.readyState := Net.OPEN; Net.sent := [] |}]>) s).
    destruct (handleClient_open s1 socket {| Net.readyState := Net.OPEN; Net.sent := [] |})
      as (s' & E & Hcs & _ & _ & _ & Hsock & _).
    { unfold s1. simpl. apply lookup_insert_eq. }
    { done. }
    exists s', (List.length (Manager.changeHandlers (Manager.this s))).
    split.
    { unfold Manager.on_upgrade. unfold_monad. rewrite Hwss, Hacc. exact E. }
    split; [rewrite Hcs; apply map_set_elem|].
    split; [rewrite Hsock; unfold s1; simpl; apply lookup_insert_eq|].
    intros Hnew. unfold Manager.getClientCount. rewrite Hcs.
    by apply map_set_new_length.
Qed.

Lemma upgrade_needs_token_witness :
  (WsServer.verifyClient (WsServer.authToken sample_wss) (WsServer.Single "guess")
     = WsServer.Accept <->
   WsServer.Single "guess" = WsServer.Single (WsServer.authToken sample_wss)) /\
  Manager.getClientCount (Manager.this listening_manager) = 0%nat.
Proof.
  destruct (upgrade_needs_token listening_manager sample_wss (WsServer.Single "guess"))
    as (Hiff & _).
  - vm_compute. reflexivity.
  - split; [exact Hiff|]. vm_compute. reflexivity.
Defined.

(** ** The heartbeat *)

Lemma healthCheck_idle t outcome (s : Manager.State) hb :
  timers (Manager.world s) !! t = Some hb ->
  Net.active hb = false ->
  Manager.healthCheck t outcome s = (Ok tt, s).
Proof.
  intros Ht Ha. unfold Manager.healthCheck. unfold_monad. by rewrite Ht, Ha.
Qed.

Lemma ticks_idle t outcomes (s : Manager.State) hb :
  timers (Manager.world s) !! t = Some hb ->
  Net.active hb = false ->
  ticks t outcomes s = (Ok tt, s).
Proof.
  intros Ht Ha. induction outcomes as [|o outcomes IH]; [done|].
  simpl. unfold bind. by rewrite (healthCheck_idle t o s hb Ht Ha).
Qed.

Lemma healthCheck_delivered t (s : Manager.State) hb sock :
  timers (Manager.world s) !! t = Some hb ->
  Net.active hb = true ->
  sockets (Manager.world s) !! Net.hb_ws hb = Some sock ->
  Net.readyState sock = Net.OPEN ->
  Manager.healthCheck t Manager.Delivered s =
    (Ok tt,
     Manager.with_world
       (with_sockets (alter (Net.push_frame (Net.Ping (Net.pingId hb))) (Net.hb_ws hb)))
       (Manager.with_world
          (with_timers
             <[t := {| Net.hb_ws := Net.hb_ws hb; Net.pingId := Net.pingId hb + 1;
                       Net.active := Net.active hb |}]>) s)).
Proof.
  intros Ht Ha Hs Ho. unfold Manager.healthCheck. unfold_monad.
  rewrite Ht, Ha. simpl. rewrite Hs. simpl. by rewrite Ho.
Qed.

Lemma healthCheck_failed t outcome (s : Manager.State) hb sock :
  outcome <> Manager.Delivered ->
  timers (Manager.world s) !! t = Some hb ->
  Net.active hb = true ->
  sockets (Manager.world s) !! Net.hb_ws hb = Some sock ->
  Net.readyState sock = Net.OPEN ->
  exists s',
    Manager.healthCheck t outcome s = (Ok tt, s') /\
    timers (Manager.world s') =
      <[t := {| Net.hb_ws := Net.hb_ws hb; Net.pingId := Net.pingId hb + 1;
                Net.active := false |}]> (timers (Manager.world s)) /\
    sockets (Manager.world s') =
      <[Net.hb_ws hb := {| Net.readyState := Net.CLOSING; Net.sent := Net.sent sock |}]>
        (sockets (Manager.world s)) /\
    trace (Manager.world s') =
      (trace (Manager.world s)
         ++ [EvClearInterval t; EvSocketClose (Net.hb_ws hb)])%list /\
    Manager.this s' = Manager.this s.
Proof.
  intros Hne Ht Ha Hs Ho. unfold Manager.healthCheck. unfold_monad.
  rewrite Ht, Ha. simpl. rewrite Hs. simpl. rewrite Ho.
  unfold Manager.log, Manager.clearInterval, Manager.lift, WsServer.ws_close.
  unfold_monad.
  destruct outcome; [done| |]; simpl.
  all: eexists; split; [reflexivity|]; simpl.
  all: split; [by rewrite alter_insert_eq|].
  all: split; [|by rewrite <- app_assoc].
  all: apply map_eq; intros i; destruct (decide (i = Net.hb_ws hb)) as [->|Hi];
    [rewrite lookup_alter_eq, lookup_insert_eq, Hs; simpl;
       unfold Net.close_socket; by rewrite Ho
    |by rewrite lookup_alter_ne, lookup_insert_ne].
Qed.

Lemma pings_length first n : List.length (pings first n) = n.
Proof. revert first. induction n; intros; simpl; auto. Qed.

(** The identifiers of [pings first n] are [first], [first + 1], ...:
    each probe's identifier exceeds that of the probe before it by one. *)
Lemma pings_lookup first n i :
  (i < n)%nat -> pings first n !! i = Some (Net.Ping (first + Z.of_nat i)).
Proof.
  revert first i. induction n as [|n IH]; intros first i Hi; [lia|].
  destruct i as [|i]; simpl.
  - f_equal. f_equal. lia.
  - rewrite IH by lia. f_equal. f_equal. lia.
Qed.

(** C7.  A timer created by [handleClient] starts with [pingId = 0].  For an
    active timer [t] on an open socket, let [n] be the number of firings
    whose send succeeds before the first failing one, the identifiers
    staying integers that a JavaScript number holds exactly (below 2^53).
    After the firings the socket has received exactly the probes numbered
    [pingId], [pingId + 1], ..., [n] of them, in this order.  If a send failed, the
    timer has been cancelled and then the socket closed ([ws.close()]), and
    later firings do nothing; otherwise the timer is still active and the
    socket open.  No other socket, no other timer and nothing in the
    manager object (the sessions) has changed. *)
Theorem heartbeat_probes t outcomes : forall (s : Manager.State) hb sock,
  timers (Manager.world s) !! t = Some hb ->
  Net.active hb = true ->
  sockets (Manager.world s) !! Net.hb_ws hb = Some sock ->
  Net.readyState sock = Net.OPEN ->
  0 <= Net.pingId hb ->
  Net.pingId hb + Z.of_nat (List.length outcomes) < 2 ^ 53 ->
  let n := delivered_prefix outcomes in
  let failed := (n <? List.length outcomes)%nat in
  (forall (s0 : Manager.State) socket, exists s1,
     Manager.setInterval socket s0 = (Ok (fresh (dom (timers (Manager.world s0)))), s1) /\
     timers (Manager.world s1) !! fresh (dom (timers (Manager.world s0))) =
       Some {| Net.hb_ws := socket; Net.pingId := 0; Net.active := true |}) /\
  exists s',
    ticks t outcomes s = (Ok tt, s') /\
    sockets (Manager.world s') !! Net.hb_ws hb =
      Some {| Net.readyState := if failed then Net.CLOSING else Net.OPEN;
              Net.sent := (Net.sent sock ++ pings (Net.pingId hb) n)%list |} /\
    timers (Manager.world s') !! t =
      Some {| Net.hb_ws := Net.hb_ws hb;
              Net.pingId := Net.pingId hb + Z.of_nat n + (if failed then 1 else 0);
              Net.active := negb failed |} /\
    trace (Manager.world s') =
      (trace (Manager.world s)
         ++ (if failed then [EvClearInterval t; EvSocketClose (Net.hb_ws hb)] else []))%list /\
    (forall other, other <> Net.hb_ws hb ->
       sockets (Manager.world s') !! other = sockets (Manager.world s) !! other) /\
    (forall other, other <> t ->
       timers (Manager.world s') !! other = timers (Manager.world s) !! other) /\
    Manager.this s' = Manager.this s.
Proof.
  induction outcomes as [|o outcomes IH]; intros s hb sock Ht Ha Hs Ho Hid Hmax; cbv zeta.
  - split.
    { intros s0 socket. eexists. split; [reflexivity|]. simpl. apply lookup_insert_eq. }
    exists s. simpl. split; [done|].
    split; [rewrite Hs, app_nil_r; by destruct sock; simpl in *; subst|].
    split; [rewrite Ht; destruct hb; simpl in *; subst; do 2 f_equal; lia|].
    split; [by rewrite app_nil_r|]. done.
  - split.
    { intros s0 socket. eexists. split; [reflexivity|]. simpl. apply lookup_insert_eq. }
    assert (o = Manager.Delivered \/ o <> Manager.Delivered) as [->|Hne]
      by (destruct o; auto; right; discriminate).
    + pose proof (healthCheck_delivered t s hb sock Ht Ha Hs Ho) as E.
      set (s1 := Manager.with_world _ _) in E.
      destruct (IH s1
                  {| Net.hb_ws := Net.hb_ws hb; Net.pingId := Net.pingId hb + 1;
                     Net.active := Net.active hb |}
                  (Net.push_frame (Net.Ping (Net.pingId hb)) sock))
        as (_ & s' & E' & Hsock & Htim & Htr & Hos & Hot & Hthis).
      { unfold s1. simpl. apply lookup_insert_eq. }
      { done. }
      { unfold s1. simpl. by rewrite lookup_alter_eq, Hs. }
      { done. }
      { simpl. lia. }
      { simpl. simpl List.length in Hmax. lia. }
      exists s'. simpl in *. unfold bind. rewrite E.
      split; [exact E'|].
      assert (forall m, (S (delivered_prefix outcomes) <? S m)%nat
                        = (delivered_prefix outcomes <? m)%nat) as Hlt by done.
      rewrite Hlt.
      split; [rewrite Hsock; by rewrite <- app_assoc|].
      split; [rewrite Htim; do 2 f_equal; lia|].
      split; [exact Htr|].
      split; [intros other Hother; rewrite Hos by done; unfold s1; simpl;
              by rewrite lookup_alter_ne|].
      split; [intros other Hother; rewrite Hot by done; unfold s1; simpl;
              by rewrite lookup_insert_ne|].
      exact Hthis.
    + destruct (healthCheck_failed t o s hb sock Hne Ht Ha Hs Ho)
        as (s1 & E & Htim & Hsock & Htr & Hthis).
      assert (delivered_prefix (o :: outcomes) = 0%nat) as -> by (by destruct o).
      assert (ticks t outcomes s1 = (Ok tt, s1)) as E'.
      { eapply ticks_idle; [rewrite Htim; apply lookup_insert_eq|done]. }
      exists s1. simpl. unfold bind. rewrite E.
      split; [exact E'|].
      split; [rewrite Hsock, app_nil_r; apply lookup_insert_eq|].
      split; [rewrite Htim, lookup_insert_eq; do 2 f_equal; lia|].
      split; [exact Htr|].
      split; [intros other Hother; by rewrite Hsock, lookup_insert_ne|].
      split; [intros other Hother; by rewrite Htim, lookup_insert_ne|].
      exact Hthis.
Qed.

Lemma heartbeat_probes_witness :
  exists s',
    ticks 0 [Manager.Delivered; Manager.Delivered; Manager.CallbackError; Manager.Delivered]
      connected_manager = (Ok tt, s') /\
    sockets (Manager.world s') !! 0%nat =
      Some {| Net.readyState := Net.CLOSING;
              Net.sent := [Net.Ping 0; Net.Ping 1] |} /\
    timers (Manager.world s') !! 0%nat =
      Some {| Net.hb_ws := 0; Net.pingId := 3; Net.active := false |}.
Proof.
  destruct (heartbeat_probes 0
              [Manager.Delivered; Manager.Delivered; Manager.CallbackError; Manager.Delivered]
              connected_manager
              {| Net.hb_ws := 0; Net.pingId := 0; Net.active := true |}
              {| Net.readyState := Net.OPEN; Net.sent := [] |})
    as (_ & s' & E & Hsock & Htim & _).
  - vm_compute. reflexivity.
  - reflexivity.
  - vm_compute. reflexivity.
  - reflexivity.
  - simpl. lia.
  - simpl. lia.
  - exists s'. split; [exact E|]. split; [exact Hsock|exact Htim].
Defined.

(** ** Selection tracking *)

(** C5, refuted as stated, in both directions.  First run: buffer 1 is
    tracked and one movement in normal mode is reported, so the last
    notification for buffer 1 has an empty selection; ending the tracking
    still writes one more empty-selection notification.  Second run: the
    last notification for buffer 1 has a non-empty selection, a later one
    was sent for buffer 2, and ending the tracking of buffer 1 writes
    nothing. *)
Lemma final_notification_ignores_emptiness :
  (frames_on 0 (track_and_move connected_manager)
     = [Net.SelectionChanged "" "/a.txt" "file:///a.txt" (1, 2) (1, 2) true] /\
   frames_on 0 (track_move_stop connected_manager)
     = [Net.SelectionChanged "" "/a.txt" "file:///a.txt" (1, 2) (1, 2) true;
        Net.SelectionChanged "" "/a.txt" "file:///a.txt" (1, 2) (1, 2) true]) /\
  (frames_on 0 (track_two connected_manager)
     = [Net.SelectionChanged "lph" "/a.txt" "file:///a.txt" (0, 1) (0, 4) false;
        Net.SelectionChanged "" "/b.txt" "file:///b.txt" (0, 0) (0, 0) true] /\
   frames_on 0 (track_two_stop_first connected_manager)
     = frames_on 0 (track_two connected_manager)).
Proof.
  split; (split; [vm_compute; reflexivity|]); vm_compute; reflexivity.
Qed.

Lemma broadcast_lookup frame clients : forall (m : gmap nat Net.Socket) socket,
  NoDup clients.*1 ->
  fold_left (fun m' (kv : nat * nat) => alter (Manager.send_if_open frame) (fst kv) m')
    clients m !! socket =
  if decide (socket ∈ clients.*1) then Manager.send_if_open frame <$> m !! socket
  else m !! socket.
Proof.
  induction clients as [|[k v] clients IH]; intros m socket Hnd.
  - done.
  - rewrite fmap_cons in *. cbn [fold_left fst].
    apply NoDup_cons in Hnd as [Hk Hnd]. rewrite IH by done.
    destruct (decide (socket = k)) as [->|Hne].
    + rewrite lookup_alter_eq.
      rewrite (decide_False (P := k ∈ clients.*1)) by done.
      rewrite (decide_True (P := k ∈ k :: clients.*1)) by apply list_elem_of_here.
      done.
    + rewrite lookup_alter_ne by done.
      destruct (decide (socket ∈ clients.*1)) as [Hin|Hnin].
      * rewrite (decide_True (P := socket ∈ k :: clients.*1))
          by (by apply list_elem_of_further). done.
      * rewrite (decide_False (P := socket ∈ k :: clients.*1)); [done|].
        intros Hin'. apply elem_of_cons in Hin' as [->|]; done.
Qed.

Lemma sendEmptySelection_sends bufnr (s : Manager.State) buffer :
  Manager.isRunning (Manager.this s) = true ->
  Nvim.find_buffer bufnr (Nvim.buffers (nvim (Manager.world s))) = Some buffer ->
  Nvim.buf_name buffer <> "" ->
  exists s',
    Manager.sendEmptySelection bufnr s = (Ok tt, s') /\
    Manager.this s' = Manager.this s /\
    sockets (Manager.world s') =
      fold_left (fun m' (kv : nat * nat) =>
                   alter (Manager.send_if_open
                            (empty_selection (Nvim.buf_name buffer)
                               (Nvim.cursor_pos (nvim (Manager.world s))))) (fst kv) m')
        (Manager.clientServers (Manager.this s)) (sockets (Manager.world s)).
Proof.
  intros Hrun Hb Hname.
  unfold Manager.sendEmptySelection, Manager.log, Manager.broadcast. unfold_monad.
  rewrite Hrun. simpl. rewrite Hb.
  destruct (String.eqb (Nvim.buf_name buffer) "") eqn:E.
  { by apply String.eqb_eq in E. }
  eexists. split; [reflexivity|]. done.
Qed.

Lemma sendSelectionChanged_remembers bufnr (s : Manager.State) buffer :
  Manager.isRunning (Manager.this s) = true ->
  Nvim.find_buffer bufnr (Nvim.buffers (nvim (Manager.world s))) = Some buffer ->
  Nvim.buf_name buffer <> "" ->
  exists s',
    Manager.sendSelectionChanged bufnr s = (Ok tt, s') /\
    Manager.lastSelectionBuffer (Manager.this s') = Some bufnr.
Proof.
  intros Hrun Hb Hname.
  unfold Manager.sendSelectionChanged, Manager.log, Manager.broadcast. unfold_monad.
  rewrite Hrun. simpl. rewrite Hb.
  destruct (String.eqb (Nvim.buf_name buffer) "") eqn:E.
  { by apply String.eqb_eq in E. }
  eexists. split; [reflexivity|]. done.
Qed.

(** C5, amended.  Let buffer [a] be tracked on a running server whose
    client sockets are pairwise distinct, and let the editor still have
    buffer [a] under a non-empty name.  Ending the tracking of [a] writes
    to every open client socket exactly one notification, the empty
    selection at the cursor for the file of [a], if [a] is the buffer the
    most recent selection_changed notification of [sendSelectionChanged] was
    sent for; otherwise it writes nothing to any socket.  That memory,
    [lastSelectionBuffer], is set by every notification
    [sendSelectionChanged] sends, empty or not, and is cleared by the final
    notification. *)
Theorem stopSelectionTracking_final_notification a (s : Manager.State) buffer :
  is_Some (Manager.selectionTracking (Manager.this s) !! Some a) ->
  Manager.isRunning (Manager.this s) = true ->
  Nvim.find_buffer (Some a) (Nvim.buffers (nvim (Manager.world s))) = Some buffer ->
  Nvim.buf_name buffer <> "" ->
  NoDup (Manager.clientServers (Manager.this s)).*1 ->
  let final :=
    empty_selection (Nvim.buf_name buffer) (Nvim.cursor_pos (nvim (Manager.world s))) in
  (exists s',
     Manager.stopSelectionTracking (Some a) s = (Ok tt, s') /\
     Manager.selectionTracking (Manager.this s')
       = delete (Some a) (Manager.selectionTracking (Manager.this s)) /\
     (Manager.lastSelectionBuffer (Manager.this s) = Some (Some a) ->
      Manager.lastSelectionBuffer (Manager.this s') = None /\
      is_empty_selection final = true /\
      forall socket sock,
        sockets (Manager.world s) !! socket = Some sock ->
        sockets (Manager.world s') !! socket =
          Some (if decide (socket ∈ (Manager.clientServers (Manager.this s)).*1)
                then (if Net.is_open (Net.readyState sock)
                      then Net.push_frame final sock else sock)
                else sock)) /\
     (Manager.lastSelectionBuffer (Manager.this s) <> Some (Some a) ->
      Manager.lastSelectionBuffer (Manager.this s')
        = Manager.lastSelectionBuffer (Manager.this s) /\
      sockets (Manager.world s') = sockets (Manager.world s))) /\
  (exists s1,
     Manager.sendSelectionChanged (Some a) s = (Ok tt, s1) /\
     Manager.lastSelectionBuffer (Manager.this s1) = Some (Some a)).
Proof.
  intros Htracked Hrun Hb Hname Hnd. cbv zeta.
  split; [|by apply sendSelectionChanged_remembers with buffer].
  unfold Manager.stopSelectionTracking, Manager.log. unfold_monad.
  rewrite (bool_decide_eq_true_2 _ Htracked). cbn [negb].
  change (Manager.lastSelectionBuffer
            (Manager.this (Manager.with_this
               (λ m, Manager.set_selectionTracking
                   (delete (Some a) (Manager.selectionTracking m)) m) s)))
    with (Manager.lastSelectionBuffer (Manager.this s)).
  destruct (Manager.lastSelectionBuffer (Manager.this s)) as [[n|]|] eqn:Hlast.
  - cbn [Js.strict_eq]. destruct (n =? a) eqn:Hn.
    + apply Z.eqb_eq in Hn as ->.
      match goal with
      | |- context [Manager.sendEmptySelection ?b ?st] =>
          destruct (sendEmptySelection_sends b st buffer Hrun Hb Hname)
            as (s1 & E1 & Hthis1 & Hsock1)
      end.
      simpl in Hsock1, Hthis1.
      eexists. split; [rewrite E1; reflexivity|]. simpl. split; [by rewrite Hthis1|].
      split; [|by intros []].
      intros _. split; [done|]. split; [done|].
      intros socket sock Hs. rewrite Hsock1.
      rewrite broadcast_lookup by done. rewrite Hs. simpl.
      unfold Manager.send_if_open. by destruct (decide _).
    + eexists. split; [reflexivity|]. simpl. split; [done|]. split.
      * intros [= ->]. by rewrite Z.eqb_refl in Hn.
      * done.
  - eexists. split; [reflexivity|]. simpl. split; [done|]. split; [discriminate|done].
  - eexists. split; [reflexivity|]. simpl. split; [done|]. split; [discriminate|done].
Qed.

Lemma stopSelectionTracking_final_notification_witness :
  exists s',
    Manager.stopSelectionTracking (Some 1) tracked_manager = (Ok tt, s') /\
    Manager.lastSelectionBuffer (Manager.this s') = None /\
    sockets (Manager.world s') !! 0%nat =
      Some {| Net.readyState := Net.OPEN;
              Net.sent := [empty_selection "/a.txt" (2, 3);
                           empty_selection "/a.txt" (2, 3)] |}.
Proof.
  destruct (stopSelectionTracking_final_notification 1 tracked_manager
              (sample_buffer 1 "/a.txt" ["alpha"; "beta"] false))
    as [(s' & E & _ & Hlast & _) _].
  - vm_compute. eauto.
  - vm_compute. reflexivity.
  - vm_compute. reflexivity.
  - discriminate.
  - apply (bool_decide_unpack _). vm_compute. exact I.
  - destruct Hlast as (Hnone & _ & Hsent); [vm_compute; reflexivity|].
    exists s'. split; [exact E|]. split; [exact Hnone|].
    rewrite (Hsent 0%nat {| Net.readyState := Net.OPEN;
                            Net.sent := [empty_selection "/a.txt" (2, 3)] |});
      [|vm_compute; reflexivity].
    vm_compute. reflexivity.
Defined.

(** ** The lock file *)

Lemma string_length_app (s1 s2 : string) :
  String.length (s1 +:+ s2) = (String.length s1 + String.length s2)%nat.
Proof. induction s1 as [|c s1 IH]; simpl; [done|]. by rewrite IH. Qed.

Lemma hex_run_length rnd first count :
  String.length (WsServer.hex_run rnd first count) = count.
Proof.
  revert first. induction count as [|count IH]; intros first; simpl; [done|].
  by rewrite IH.
Qed.

Lemma randomUUID_length rnd : String.length (WsServer.randomUUID rnd) = 36%nat.
Proof.
  unfold WsServer.randomUUID.
  rewrite !string_length_app, !hex_run_length. reflexivity.
Qed.

Lemma path_join_inj a b1 b2 :
  WsServer.path_join a b1 = WsServer.path_join a b2 -> b1 = b2.
Proof.
  unfold WsServer.path_join. destruct (String.eqb a "/");
    intros H; repeat (apply String.app_inj in H); done.
Qed.

Lemma string_app_inj_r (s1 s2 t : string) : s1 +:+ t = s2 +:+ t -> s1 = s2.
Proof.
  revert s2. induction s1 as [|c s1 IH]; intros s2 H.
  - destruct s2 as [|d s2]; [done|].
    apply (f_equal String.length) in H.
    rewrite !string_length_app in H. simpl in H. lia.
  - destruct s2 as [|d s2].
    + apply (f_equal String.length) in H.
      rewrite !string_length_app in H. simpl in H. lia.
    + simpl in H. injection H as -> H. f_equal. by apply IH.
Qed.

(** Distinct ports have distinct lock files. *)
Lemma lockFilePath_inj home p q :
  WsServer.lockFilePath home p = WsServer.lockFilePath home q -> p = q.
Proof.
  unfold WsServer.lockFilePath. intros H. apply path_join_inj in H.
  apply string_app_inj_r in H. by apply (inj pretty) in H.
Qed.

Lemma written_files_app l1 l2 :
  written_files (l1 ++ l2) = (written_files l1 ++ written_files l2)%list.
Proof.
  induction l1 as [|e l1 IH]; [done|]. destruct e; simpl; by rewrite ?IH.
Qed.

Lemma start_spec rnd (s : Manager.State) :
  Manager.wss (Manager.this s) = None ->
  WsServer.valid_port (Manager.port (Manager.this s)) = true ->
  let path := WsServer.lockFilePath (homedir (proc (Manager.world s)))
                (Manager.port (Manager.this s)) in
  let server :=
    {| WsServer.wss_port := Manager.port (Manager.this s); WsServer.wss_path := "/";
       WsServer.authToken := WsServer.randomUUID rnd;
       WsServer.wss_lockFilePath := path |} in
  exists s',
    Manager.start rnd s = (Ok tt, s') /\
    Manager.this s' = Manager.set_wss (Some server) (Manager.this s) /\
    files (Manager.world s') =
      <[path := {| lf_pid := process_pid (proc (Manager.world s));
                   lf_workspaceFolders := [Nvim.cwd (nvim (Manager.world s))];
                   lf_ideName := "neovim"; lf_transport := ws;
                   lf_authToken := WsServer.randomUUID rnd |}]>
        (files (Manager.world s)) /\
    written_files (trace (Manager.world s')) =
      (written_files (trace (Manager.world s)) ++ [path])%list /\
    Nvim.ide_port (nvim (Manager.world s')) = Manager.port (Manager.this s).
Proof.
  intros Hwss Hport. cbv zeta.
  unfold Manager.start, Manager.lift, WsServer.createClaudeWebSocketServer,
    WsServer.mkdirSync, WsServer.writeFileSync, Manager.log. unfold_monad.
  rewrite Hwss. simpl. rewrite Hport.
  destruct (WsServer.existsSync _ _); simpl.
  all: eexists; split; [reflexivity|]; simpl.
  all: split; [done|]; split; [done|]; split;
    [rewrite ?written_files_app; simpl; by rewrite ?app_nil_r|].
  all: unfold write_line; repeat destruct (_ <? _); done.
Qed.

(** [start] with a port outside 0..65535: the lock file has been written
    when the server fails to listen; the error is thrown on, the manager
    stays without a server and g:claude_ide_port is not set. *)
Lemma start_bad_port rnd (s : Manager.State) :
  Manager.wss (Manager.this s) = None ->
  WsServer.valid_port (Manager.port (Manager.this s)) = false ->
  let path := WsServer.lockFilePath (homedir (proc (Manager.world s)))
                (Manager.port (Manager.this s)) in
  exists w',
    Manager.start rnd s
      = (Throw (WsServer.bad_port (Manager.port (Manager.this s))),
         {| Manager.this := Manager.this s; Manager.world := w' |}) /\
    files w' =
      <[path := {| lf_pid := process_pid (proc (Manager.world s));
                   lf_workspaceFolders := [Nvim.cwd (nvim (Manager.world s))];
                   lf_ideName := "neovim"; lf_transport := ws;
                   lf_authToken := WsServer.randomUUID rnd |}]>
        (files (Manager.world s)) /\
    nvim w' = nvim (Manager.world s) /\
    proc w' = proc (Manager.world s) /\
    sockets w' = sockets (Manager.world s) /\
    timers w' = timers (Manager.world s) /\
    resolve_calls w' = resolve_calls (Manager.world s).
Proof.
  intros Hwss Hport. cbv zeta.
  unfold Manager.start, Manager.lift, WsServer.createClaudeWebSocketServer,
    WsServer.mkdirSync, WsServer.writeFileSync, Manager.log. unfold_monad.
  rewrite Hwss. simpl. rewrite Hport.
  destruct (WsServer.existsSync _ _); simpl.
  all: eexists; split; [by destruct s|]; simpl; by repeat split.
Qed.

(** ** Stopping the server *)

Lemma bind_Ok {S A B} (m : M S A) (k : A -> M S B) s a s1 :
  m s = (Ok a, s1) -> bind m k s = k a s1.
Proof. intros E. unfold bind. by rewrite E. Qed.

Lemma try_catch_Ok {S A} (m : M S A) h s a s1 :
  m s = (Ok a, s1) -> try_catch m h s = (Ok a, s1).
Proof. intros E. unfold try_catch. by rewrite E. Qed.

Lemma shut_twice socket (m : gmap nat Net.Socket) :
  alter Net.close_socket socket
    (alter Manager.mark_closed socket (alter Net.close_socket socket m))
  = alter Manager.mark_closed socket m.
Proof.
  rewrite !alter_alter_eq. apply alter_ext. by intros [[] f] _.
Qed.

Lemma shut_closed socket (m : gmap nat Net.Socket) sock :
  m !! socket = Some sock -> Net.readyState sock = Net.CLOSED ->
  alter Net.close_socket socket m = alter Manager.mark_closed socket m.
Proof.
  intros Hs Hc. apply alter_ext. intros x Hx. rewrite Hs in Hx. injection Hx as <-.
  destruct sock as [r f]. simpl in Hc. by subst.
Qed.

Lemma clearInterval_run t (s : Manager.State) :
  Manager.clearInterval t s =
  (Ok tt, {| Manager.this := Manager.this s;
             Manager.world := net_update (Manager.world s) (sockets (Manager.world s))
                                (alter Net.cancel t (timers (Manager.world s)))
                                [EvClearInterval t] |}).
Proof. reflexivity. Qed.

Lemma ws_close_run socket (s : Manager.State) :
  Manager.lift (WsServer.ws_close socket) s =
  (Ok tt, {| Manager.this := Manager.this s;
             Manager.world := net_update (Manager.world s)
                                (alter Net.close_socket socket (sockets (Manager.world s)))
                                (timers (Manager.world s))
                                [EvSocketClose socket] |}).
Proof. reflexivity. Qed.

Lemma mcpServer_close_run socket (s : Manager.State) :
  exists n,
  Manager.mcpServer_close socket s =
  (Ok tt, {| Manager.this := Manager.this s;
             Manager.world := net_update (Manager.world s)
                                (alter Manager.mark_closed socket (sockets (Manager.world s)))
                                (timers (Manager.world s))
                                (repeat (EvSocketClose socket) n) |}).
Proof.
  unfold Manager.mcpServer_close. unfold bind at 1. unfold gets.
  destruct (sockets (Manager.world s) !! socket) as [[r f]|] eqn:Hs.
  - destruct r.
    + exists 1%nat. cbn [fmap option_fmap option_map Net.readyState].
      rewrite (bind_Ok _ _ _ _ _ (ws_close_run socket s)).
      unfold modify, Manager.with_world, with_sockets, net_update.
      cbn [Manager.this Manager.world nvim proc resolve_calls next_promise files dirs sockets timers trace repeat].
      do 3 f_equal. rewrite alter_alter_eq. apply alter_ext. by intros [[] ?] _.
    + exists 1%nat. cbn [fmap option_fmap option_map Net.readyState].
      rewrite (bind_Ok _ _ _ _ _ (ws_close_run socket s)).
      unfold modify, Manager.with_world, with_sockets, net_update.
      cbn [Manager.this Manager.world nvim proc resolve_calls next_promise files dirs sockets timers trace repeat].
      do 3 f_equal. rewrite alter_alter_eq. apply alter_ext. by intros [[] ?] _.
    + exists 0%nat. cbn [fmap option_fmap option_map Net.readyState].
      unfold ret, net_update. cbn [repeat]. rewrite app_nil_r.
      destruct s as [m w]. cbn [Manager.this Manager.world]. do 2 f_equal.
      destruct w as [a1 a2 a3 a4 a5 a6 a7 a8 a9]. simpl in *.
      f_equal. symmetry. apply map_eq. intros i.
      destruct (decide (i = socket)) as [->|?];
        [by rewrite lookup_alter_eq, Hs|by rewrite lookup_alter_ne].
  - exists 1%nat. cbn [fmap option_fmap option_map].
    rewrite (bind_Ok _ _ _ _ _ (ws_close_run socket s)).
    unfold modify, Manager.with_world, with_sockets, net_update.
    cbn [Manager.this Manager.world nvim proc resolve_calls next_promise files dirs sockets timers trace repeat].
    do 3 f_equal. rewrite alter_alter_eq. apply alter_ext. by intros [[] ?] _.
Qed.

Lemma net_update_twice w a b e1 a' b' e2 :
  net_update (net_update w a b e1) a' b' e2 = net_update w a' b' (e1 ++ e2).
Proof. unfold net_update. simpl. by rewrite app_assoc. Qed.

Lemma close_after_mark socket (m : gmap nat Net.Socket) :
  alter Net.close_socket socket (alter Manager.mark_closed socket m)
  = alter Manager.mark_closed socket m.
Proof. rewrite alter_alter_eq. apply alter_ext. by intros [r f] _. Qed.

Lemma repeat_snoc {A} (x : A) n : (repeat x n ++ [x])%list = repeat x (S n).
Proof. induction n as [|n IH]; simpl; [done|]. by rewrite IH. Qed.

Lemma close_body_spec (interval : option nat) socket (s : Manager.State) :
  exists n,
    ((match interval with
      | Some t => Manager.clearInterval t
      | None => ret tt
      end ;;;
      Manager.mcpServer_close socket ;;;
      Manager.lift (WsServer.ws_close socket)) s) =
    (Ok tt,
     {| Manager.this := Manager.this s;
        Manager.world :=
          net_update (Manager.world s)
            (alter Manager.mark_closed socket (sockets (Manager.world s)))
            (match interval with
             | Some t => alter Net.cancel t (timers (Manager.world s))
             | None => timers (Manager.world s)
             end)
            ((match interval with
              | Some t => [EvClearInterval t]
              | None => []
              end) ++ repeat (EvSocketClose socket) (S n)) |}).
Proof.
  destruct interval as [t|].
  - rewrite (bind_Ok _ _ _ _ _ (clearInterval_run t s)).
    match goal with
    | |- context [bind (Manager.mcpServer_close socket) _ ?st] =>
        destruct (mcpServer_close_run socket st) as (n & E);
        exists n; rewrite (bind_Ok _ _ _ _ _ E)
    end.
    rewrite ws_close_run. cbn [Manager.this Manager.world].
    rewrite !net_update_twice. do 3 f_equal.
    + unfold net_update. cbn. apply close_after_mark.
    + by rewrite <- repeat_snoc.
  - rewrite (bind_Ok _ _ _ tt s); [|done].
    destruct (mcpServer_close_run socket s) as (n & E).
    exists n. rewrite (bind_Ok _ _ _ _ _ E).
    rewrite ws_close_run. cbn [Manager.this Manager.world].
    rewrite !net_update_twice. do 3 f_equal.
    + unfold net_update. cbn. apply close_after_mark.
    + by rewrite <- repeat_snoc.
Qed.

Lemma close_client_spec socket (s : Manager.State) :
  exists block,
    Manager.close_client socket s =
      (Ok tt,
       {| Manager.this := Manager.this s;
          Manager.world :=
            net_update (Manager.world s)
              (shut_client (sockets (Manager.world s)) (socket, 0%nat))
              (cancel_client (Manager.this s) (timers (Manager.world s)) (socket, 0%nat))
              block |}) /\
    closes_after_cancel (Manager.this s) (socket, 0%nat) block.
Proof.
  destruct (close_body_spec (Manager.healthCheckIntervals (Manager.this s) !! socket)
              socket s) as (n & E).
  eexists. split; [|by exists n].
  unfold Manager.close_client. apply try_catch_Ok.
  unfold bind at 1. unfold gets. exact E.
Qed.

Lemma close_clients_spec clients : forall (s : Manager.State),
  exists blocks,
    Manager.close_clients clients s =
      (Ok tt,
       {| Manager.this := Manager.this s;
          Manager.world :=
            net_update (Manager.world s)
              (fold_left shut_client clients (sockets (Manager.world s)))
              (fold_left (cancel_client (Manager.this s)) clients
                 (timers (Manager.world s)))
              (concat blocks) |}) /\
    Forall2 (closes_after_cancel (Manager.this s)) clients blocks.
Proof.
  induction clients as [|[socket v] clients IH]; intros s.
  - exists []. split; [|constructor]. cbn. unfold ret, net_update.
    rewrite app_nil_r. by destruct s as [? []].
  - destruct (close_client_spec socket s) as (block & E1 & Hb).
    match type of E1 with _ = (_, ?s1) => destruct (IH s1) as (blocks & E2 & Hbs) end.
    exists (block :: blocks). split; [|by constructor].
    cbn [Manager.close_clients]. rewrite (bind_Ok _ _ _ _ _ E1), E2.
    cbn [Manager.this Manager.world]. rewrite net_update_twice. done.
Qed.

Lemma on_close_spec server (w : World) :
  WsServer.on_close server w =
    (Ok tt,
     {| nvim := nvim w; proc := proc w; resolve_calls := resolve_calls w;
        next_promise := next_promise w;
        files := delete (WsServer.wss_lockFilePath server) (files w);
        dirs := dirs w; sockets := sockets w; timers := timers w;
        trace := (trace w ++ unlink_events server w)%list |}).
Proof.
  unfold WsServer.on_close, WsServer.existsSync, WsServer.unlinkSync, unlink_events.
  unfold_monad.
  destruct (files w !! WsServer.wss_lockFilePath server) as [data|] eqn:Hf.
  - rewrite bool_decide_eq_true_2 by eauto. cbn [orb]. by rewrite Hf.
  - rewrite bool_decide_eq_false_2 by (by intros [? ?]). cbn [orb].
    rewrite (delete_id _ _ Hf), app_nil_r.
    destruct (bool_decide _); [rewrite Hf|]; by destruct w.
Qed.

Lemma stop_spec (s : Manager.State) server :
  Manager.wss (Manager.this s) = Some server ->
  exists s' blocks,
    Manager.stop s = (Ok tt, s') /\
    Forall2 (closes_after_cancel (Manager.this s))
      (Manager.clientServers (Manager.this s)) blocks /\
    trace (Manager.world s') =
      (trace (Manager.world s) ++ concat blocks
         ++ unlink_events server (Manager.world s))%list /\
    Manager.this s' =
      Manager.set_wss None
        (Manager.set_healthCheckIntervals ∅
           (Manager.set_clientServers [] (Manager.this s))) /\
    sockets (Manager.world s') =
      fold_left shut_client (Manager.clientServers (Manager.this s))
        (sockets (Manager.world s)) /\
    timers (Manager.world s') =
      fold_left (cancel_client (Manager.this s)) (Manager.clientServers (Manager.this s))
        (timers (Manager.world s)) /\
    resolve_calls (Manager.world s') = resolve_calls (Manager.world s) /\
    files (Manager.world s') =
      delete (WsServer.wss_lockFilePath server) (files (Manager.world s)) /\
    Nvim.ide_port (nvim (Manager.world s')) = 0.
Proof.
  intros Hwss.
  destruct (close_clients_spec (Manager.clientServers (Manager.this s)) s)
    as (blocks & E1 & Hblocks).
  eexists _, blocks. split.
  { unfold Manager.stop. unfold bind at 1. unfold gets. rewrite Hwss.
    unfold bind at 1. unfold gets. rewrite (bind_Ok _ _ _ _ _ E1).
    unfold bind at 1. unfold modify at 1.
    unfold bind at 1. unfold modify at 1.
    unfold bind at 1. unfold Manager.lift at 1. cbn [Manager.world Manager.with_this].
    rewrite on_close_spec. reflexivity. }
  split; [done|]. cbn. unfold unlink_events. cbn. rewrite <- app_assoc.
  repeat (split; [done|]). unfold write_line. by destruct (_ <? _).
Qed.

Lemma shut_client_lookup (m : gmap nat Net.Socket) client socket :
  shut_client m client !! socket =
  if decide (socket = fst client) then Manager.mark_closed <$> m !! socket
  else m !! socket.
Proof.
  unfold shut_client. case_decide as H.
  - subst. apply lookup_alter_eq.
  - by apply lookup_alter_ne.
Qed.

Lemma fold_shut_closed clients : forall (m : gmap nat Net.Socket) socket sock,
  fold_left shut_client clients m !! socket = Some sock ->
  (socket ∈ clients.*1 \/
   exists sock0, m !! socket = Some sock0 /\ Net.readyState sock0 = Net.CLOSED) ->
  Net.readyState sock = Net.CLOSED.
Proof.
  induction clients as [|[k v] clients IH]; intros m socket sock Hl Hin.
  - destruct Hin as [Hin|(sock0 & H0 & Hc)]; [by apply elem_of_nil in Hin|].
    cbn in Hl. congruence.
  - cbn [fold_left] in Hl.
    destruct (shut_client m (k, v) !! socket) as [sock1|] eqn:H1.
    + apply (IH _ _ _ Hl). rewrite H1.
      rewrite shut_client_lookup in H1. cbn [fst] in H1.
      case_decide as Hk.
      * destruct (m !! socket) as [sock0|]; [|done]. injection H1 as <-.
        right. by eexists.
      * destruct Hin as [Hin|(sock0 & H0 & Hc)].
        -- rewrite fmap_cons in Hin. apply elem_of_cons in Hin as [?|Hin]; [done|].
           by left.
        -- right. exists sock0. split; congruence.
    + exfalso. clear IH Hin. revert H1 Hl. generalize (shut_client m (k, v)).
      induction clients as [|c clients IH]; intros m' H1 Hl; cbn [fold_left] in Hl.
      * congruence.
      * apply (IH (shut_client m' c)); [|done].
        rewrite shut_client_lookup. case_decide; by rewrite H1.
Qed.

Lemma cancel_client_lookup mgr (timers : gmap nat Net.Heartbeat) client t :
  cancel_client mgr timers client !! t =
  if decide (Manager.healthCheckIntervals mgr !! fst client = Some t)
  then Net.cancel <$> timers !! t else timers !! t.
Proof.
  unfold cancel_client.
  destruct (Manager.healthCheckIntervals mgr !! fst client) as [t'|] eqn:E.
  - case_decide as H.
    + injection H as ->. apply lookup_alter_eq.
    + apply lookup_alter_ne. congruence.
  - by rewrite decide_False.
Qed.

Lemma fold_cancel_inactive mgr clients : forall (timers : gmap nat Net.Heartbeat) t hb,
  fold_left (cancel_client mgr) clients timers !! t = Some hb ->
  ((exists socket, socket ∈ clients.*1 /\
      Manager.healthCheckIntervals mgr !! socket = Some t) \/
   exists hb0, timers !! t = Some hb0 /\ Net.active hb0 = false) ->
  Net.active hb = false.
Proof.
  induction clients as [|[k v] clients IH]; intros timers t hb Hl Hin.
  - destruct Hin as [(socket & Hin & _)|(hb0 & H0 & Ha)];
      [by apply elem_of_nil in Hin|]. cbn in Hl. congruence.
  - cbn [fold_left] in Hl.
    destruct (cancel_client mgr timers (k, v) !! t) as [hb1|] eqn:H1.
    + apply (IH _ _ _ Hl). rewrite H1.
      rewrite cancel_client_lookup in H1. cbn [fst] in H1.
      case_decide as Hk.
      * destruct (timers !! t) as [hb0|]; [|done]. injection H1 as <-.
        right. by eexists.
      * destruct Hin as [(socket & Hin & Hi)|(hb0 & H0 & Ha)].
        -- rewrite fmap_cons in Hin. apply elem_of_cons in Hin as [->|Hin]; [done|].
           left. eauto.
        -- right. exists hb0. split; congruence.
    + exfalso. clear IH Hin. revert H1 Hl. generalize (cancel_client mgr timers (k, v)).
      induction clients as [|c clients IH]; intros m' H1 Hl; cbn [fold_left] in Hl.
      * congruence.
      * apply (IH (cancel_client mgr m' c)); [|done].
        rewrite cancel_client_lookup. case_decide; by rewrite H1.
Qed.

(** C6.  Starting a manager that is not running, on a port a server can
    listen on (0 to 65535), writes exactly one file, at the path
    ~/.claude/ide/[port].lock, which is a function of the home directory
    and the port and differs for different ports.  The file holds
    the object with [pid] the process id, [workspaceFolders] the editor's
    working directory, [ideName] "neovim", [transport] "ws" and [authToken]
    the server's token, which has 36 characters.  Stopping the manager of
    that server, from any state, returns normally and the file is gone. *)
Theorem lock_file_lifecycle rnd (s : Manager.State) :
  Manager.wss (Manager.this s) = None ->
  WsServer.valid_port (Manager.port (Manager.this s)) = true ->
  let path := WsServer.lockFilePath (homedir (proc (Manager.world s)))
                (Manager.port (Manager.this s)) in
  (forall q, WsServer.lockFilePath (homedir (proc (Manager.world s))) q = path ->
             q = Manager.port (Manager.this s)) /\
  exists s' server data,
    Manager.start rnd s = (Ok tt, s') /\
    Manager.wss (Manager.this s') = Some server /\
    WsServer.wss_lockFilePath server = path /\
    written_files (trace (Manager.world s')) =
      (written_files (trace (Manager.world s)) ++ [path])%list /\
    files (Manager.world s') !! path = Some data /\
    lf_pid data = process_pid (proc (Manager.world s)) /\
    lf_workspaceFolders data = [Nvim.cwd (nvim (Manager.world s))] /\
    lf_ideName data = "neovim" /\
    lf_transport data = ws /\
    lf_authToken data = WsServer.authToken server /\
    String.length (lf_authToken data) = 36%nat /\
    (forall s2 : Manager.State,
       Manager.wss (Manager.this s2) = Some server ->
       exists s3,
         Manager.stop s2 = (Ok tt, s3) /\
         files (Manager.world s3) !! path = None /\
         Manager.wss (Manager.this s3) = None).
Proof.
  intros Hwss Hport. cbv zeta. split; [intros q Hq; by apply lockFilePath_inj in Hq|].
  destruct (start_spec rnd s Hwss Hport) as (s' & E & Hthis & Hfiles & Hwritten & _).
  eexists s', _, _. split; [exact E|].
  split; [by rewrite Hthis|]. split; [done|]. split; [exact Hwritten|].
  split; [rewrite Hfiles; apply lookup_insert_eq|]. simpl.
  do 5 (split; [done|]). split; [first [done|apply randomUUID_length]|].
  intros s2 Hs2.
  destruct (stop_spec s2 _ Hs2) as (s3 & blocks & E3 & _ & _ & Ht3 & _ & _ & _ & Hf3 & _).
  exists s3. split; [exact E3|]. split; [|by rewrite Ht3].
  rewrite Hf3. simpl. apply lookup_delete_eq.
Qed.

Lemma lock_file_lifecycle_witness :
  exists s' data,
    Manager.start 0 stopped_manager = (Ok tt, s') /\
    written_files (trace (Manager.world s')) = ["/home/user/.claude/ide/45678.lock"] /\
    files (Manager.world s') !! "/home/user/.claude/ide/45678.lock" = Some data /\
    String.length (lf_authToken data) = 36%nat /\
    exists s3,
      Manager.stop s' = (Ok tt, s3) /\
      files (Manager.world s3) !! "/home/user/.claude/ide/45678.lock" = None.
Proof.
  destruct (lock_file_lifecycle 0 stopped_manager)
    as (_ & s' & server & data & E & Hwss & _ & Hw & Hf & _ & _ & _ & _ & _ & Hlen & Hstop).
  - vm_compute. reflexivity.
  - vm_compute. reflexivity.
  - destruct (Hstop s' Hwss) as (s3 & E3 & Hgone & _).
    exists s', data. split; [exact E|]. split; [exact Hw|]. split; [exact Hf|].
    split; [exact Hlen|]. exists s3. split; [exact E3|exact Hgone].
Defined.

(** C2, refuted as stated: a server with one client and one pending diff
    is stopped; [stop] returns normally, and the promise of the diff is
    still not settled and its record is still in the client's table. *)
Lemma stop_leaves_continuation_pending :
  Manager.isRunning (Manager.this busy_manager) = true /\
  pending_count "4242/7" (Manager.changeHandlers (Manager.this busy_manager)) = 1%nat /\
  exists s',
    Manager.stop busy_manager = (Ok tt, s') /\
    Promise.settled (McpTools.resolve sample_entry) (resolve_calls (Manager.world s')) = None /\
    resolve_calls (Manager.world s') = [] /\
    Manager.changeHandlers (Manager.this s') = [sample_table].
Proof.
  split; [by vm_compute|]. split; [by vm_compute|].
  eexists. split; [vm_compute; reflexivity|].
  split; [vm_compute; reflexivity|]. split; vm_compute; reflexivity.
Qed.

Lemma cancelled_before_close_other t socket other n rest :
  other <> socket ->
  cancelled_before_close t socket (repeat (EvSocketClose other) n ++ rest)
  = cancelled_before_close t socket rest.
Proof.
  intros Hne. induction n as [|n IH]; [done|]. simpl.
  by destruct (Nat.eqb_spec other socket).
Qed.

Lemma cancelled_before_close_blocks m t socket rest clients : forall blocks,
  Manager.healthCheckIntervals m !! socket = Some t ->
  Forall2 (closes_after_cancel m) clients blocks ->
  cancelled_before_close t socket rest = true ->
  cancelled_before_close t socket (concat blocks ++ rest) = true.
Proof.
  induction clients as [|client clients IH]; intros blocks Ht Hblocks Hrest.
  - by apply Forall2_nil_inv_l in Hblocks as ->.
  - apply Forall2_cons_inv_l in Hblocks as (block & blocks' & [n ->] & Hblocks & ->).
    simpl. rewrite <- !app_assoc. unfold cancel_events.
    destruct (decide (client.1 = socket)) as [->|Hne].
    + rewrite Ht. simpl. by rewrite Nat.eqb_refl.
    + destruct (Manager.healthCheckIntervals m !! client.1) as [t'|]; simpl.
      * destruct (Nat.eqb_spec t' t); [done|].
        destruct (Nat.eqb_spec client.1 socket); [done|].
        rewrite cancelled_before_close_other by done. by apply IH.
      * destruct (Nat.eqb_spec client.1 socket); [done|].
        rewrite cancelled_before_close_other by done. by apply IH.
Qed.

(** C2, amended.  On a running server [stop] returns normally.  Among the
    calls it makes, the cancellation of a client's heartbeat timer comes
    before every [ws.close()] on that client's socket; afterwards every
    client socket is closed, every client timer is cancelled, the session
    and timer maps are empty, the server is not running and the lock file
    is gone.  The pending diff records and their promises are left as they
    were: no record is removed and no [resolve] function is called. *)
Theorem stop_cancels_timers_not_diffs (s : Manager.State) server :
  Manager.wss (Manager.this s) = Some server ->
  exists s' events,
    Manager.stop s = (Ok tt, s') /\
    trace (Manager.world s') = (trace (Manager.world s) ++ events)%list /\
    (forall socket t,
       Manager.healthCheckIntervals (Manager.this s) !! socket = Some t ->
       cancelled_before_close t socket events = true) /\
    (forall socket sock,
       socket ∈ (Manager.clientServers (Manager.this s)).*1 ->
       sockets (Manager.world s') !! socket = Some sock ->
       Net.readyState sock = Net.CLOSED) /\
    (forall socket t hb,
       socket ∈ (Manager.clientServers (Manager.this s)).*1 ->
       Manager.healthCheckIntervals (Manager.this s) !! socket = Some t ->
       timers (Manager.world s') !! t = Some hb ->
       Net.active hb = false) /\
    Manager.clientServers (Manager.this s') = [] /\
    Manager.healthCheckIntervals (Manager.this s') = ∅ /\
    Manager.wss (Manager.this s') = None /\
    files (Manager.world s') !! WsServer.wss_lockFilePath server = None /\
    Manager.changeHandlers (Manager.this s') = Manager.changeHandlers (Manager.this s) /\
    resolve_calls (Manager.world s') = resolve_calls (Manager.world s).
Proof.
  intros Hwss.
  destruct (stop_spec s server Hwss)
    as (s' & blocks & E & Hblocks & Htrace & Hthis & Hsock & Htim & Hcalls & Hfiles & _).
  exists s', (concat blocks ++ unlink_events server (Manager.world s))%list.
  split; [exact E|]. split; [exact Htrace|]. split.
  { intros socket t Ht.
    apply cancelled_before_close_blocks with (Manager.this s)
      (Manager.clientServers (Manager.this s)); [done|done|].
    unfold unlink_events. by destruct (files _ !! _). }
  split.
  { intros socket sock Hin Hl. rewrite Hsock in Hl.
    apply (fold_shut_closed _ _ _ _ Hl). by left. }
  split.
  { intros socket t hb Hin Hi Hl. rewrite Htim in Hl.
    apply (fold_cancel_inactive _ _ _ _ _ Hl). left. eauto. }
  rewrite Hthis, Hfiles. simpl. repeat split; try done. apply lookup_delete_eq.
Qed.

Lemma stop_cancels_timers_not_diffs_witness :
  exists s' events,
    Manager.stop busy_manager = (Ok tt, s') /\
    trace (Manager.world s') = (trace (Manager.world busy_manager) ++ events)%list /\
    cancelled_before_close 0 0 events = true /\
    Manager.clientServers (Manager.this s') = [] /\
    Manager.wss (Manager.this s') = None /\
    Manager.changeHandlers (Manager.this s') = [sample_table] /\
    resolve_calls (Manager.world s') = [].
Proof.
  destruct (stop_cancels_timers_not_diffs busy_manager sample_wss)
    as (s' & events & E & Ht & Hfirst & _ & _ & Hc & _ & Hw & _ & Hh & Hr).
  - vm_compute. reflexivity.
  - exists s', events. split; [exact E|]. split; [exact Ht|].
    split; [apply Hfirst; vm_compute; reflexivity|].
    split; [exact Hc|]. split; [exact Hw|]. split; [exact Hh|exact Hr].
Defined.

(** * Further properties of the code *)

(** ** Keys of pending diffs and buffer text *)

Lemma append_cons x (a b : string) : String x a +:+ b = String x (a +:+ b).
Proof. reflexivity. Qed.

Lemma append_nil (b : string) : "" +:+ b = b.
Proof. reflexivity. Qed.

Lemma string_app_assoc (a b c : string) : (a +:+ b) +:+ c = a +:+ (b +:+ c).
Proof.
  induction a as [|x a IH]; [done|]. rewrite !append_cons. f_equal. exact IH.
Qed.

Lemma string_app_nil_r (s : string) : s +:+ "" = s.
Proof. induction s as [|a s IH]; [done|]. rewrite append_cons. by f_equal. Qed.

Lemma all_digits_app a b : all_digits (a +:+ b) = all_digits a && all_digits b.
Proof.
  induction a as [|x a IH]; [done|]. rewrite append_cons. simpl.
  by rewrite IH, andb_assoc.
Qed.

Lemma pretty_N_char_spec x :
  (x < 10)%N ->
  is_digit (pretty_N_char x) = true /\
  Js.radix_digit 10 (pretty_N_char x) = Some (Z.of_N x).
Proof.
  intros H.
  assert (x = 0 \/ x = 1 \/ x = 2 \/ x = 3 \/ x = 4 \/ x = 5 \/ x = 6 \/ x = 7
          \/ x = 8 \/ x = 9)%N as Hx by lia.
  repeat (destruct Hx as [->|Hx]); try subst x; by vm_compute.
Qed.

Lemma pretty_N_go_digits x : forall s,
  (0 < x)%N ->
  exists ds n,
    pretty_N_go x s = ds +:+ s /\ all_digits ds = true /\ ds <> "" /\
    forall seen acc rest,
      Js.parse_digits 10 seen acc (ds +:+ rest)
      = Js.parse_digits 10 true (acc * 10 ^ Z.of_nat n + Z.of_N x) rest.
Proof.
  induction (N.lt_wf_0 x) as [x _ IH]. intros s Hx.
  rewrite pretty_N_go_step by done.
  destruct (pretty_N_char_spec (x `mod` 10)%N) as (Hd & Hv); [by apply N.mod_lt|].
  destruct (decide (x `div` 10 = 0)%N) as [Hz|Hnz].
  - rewrite Hz, pretty_N_go_0.
    exists (String (pretty_N_char (x `mod` 10)) ""), 1%nat.
    split; [done|]. split; [simpl; by rewrite Hd|]. split; [done|].
    intros seen acc rest. rewrite append_cons, append_nil. simpl. rewrite Hv.
    f_equal. assert (x `mod` 10 = x)%N as ->
      by (apply N.mod_small, N.div_small_iff; lia).
    change (10 ^ Z.of_nat 1) with 10. reflexivity.
  - destruct (IH (x `div` 10)%N) with (s := String (pretty_N_char (x `mod` 10)) s)
      as (ds & n & E & Hall & Hne & Hparse).
    { apply N.div_lt; lia. }
    { by apply N.neq_0_lt_0. }
    exists (ds +:+ String (pretty_N_char (x `mod` 10)) ""), (S n).
    split; [by rewrite E, string_app_assoc, append_cons, append_nil|].
    split; [rewrite all_digits_app, Hall; simpl; by rewrite Hd|].
    split; [by destruct ds|].
    intros seen acc rest. rewrite string_app_assoc, append_cons, append_nil.
    rewrite Hparse. simpl. rewrite Hv. f_equal.
    pose proof (N.div_mod x 10 ltac:(lia)) as Hdm.
    rewrite Nat2Z.inj_succ, Z.pow_succ_r by lia.
    remember (x `div` 10)%N as q. remember (x `mod` 10)%N as r. lia.
Qed.

Lemma digit_not_special c :
  is_digit c = true ->
  Js.is_space c = false /\ c <> "-"%char /\ c <> "+"%char /\ c <> "/"%char
  /\ c <> "x"%char /\ c <> "X"%char.
Proof.
  destruct c as [[] [] [] [] [] [] [] []]; try discriminate; intros _;
    repeat split; done.
Qed.

Lemma parseInt_digits ds n z :
  all_digits ds = true -> ds <> "" ->
  (forall seen acc rest,
     Js.parse_digits 10 seen acc (ds +:+ rest)
     = Js.parse_digits 10 true (acc * 10 ^ Z.of_nat n + z) rest) ->
  Js.parseInt ds = Some z /\ Js.parseInt ("-" +:+ ds) = Some (- z).
Proof.
  intros Hall Hne Hparse.
  destruct ds as [|c ds]; [done|]. simpl in Hall.
  apply andb_true_iff in Hall as [Hc Hall].
  destruct (digit_not_special c Hc) as (Hsp & Hm & Hp & _ & _ & _).
  assert (Js.strip_hex_prefix (String c ds) = (10, String c ds)) as Hhex.
  { unfold Js.strip_hex_prefix.
    destruct ds as [|d ds]; [by destruct c as [[] [] [] [] [] [] [] []]|].
    simpl in Hall. apply andb_true_iff in Hall as [Hd _].
    destruct (digit_not_special d Hd) as (_ & _ & _ & _ & Hx & HX).
    destruct c as [[] [] [] [] [] [] [] []]; try done;
      destruct d as [[] [] [] [] [] [] [] []]; done. }
  assert (Js.strip_sign (String c ds) = (1, String c ds)) as Hsign.
  { unfold Js.strip_sign. destruct c as [[] [] [] [] [] [] [] []]; done. }
  pose proof (Hparse false 0 "") as Hp0.
  rewrite string_app_nil_r in Hp0. simpl Js.parse_digits at 2 in Hp0.
  split.
  - assert (Js.trim_start (String c ds) = String c ds) as Htrim
      by (simpl; by rewrite Hsp).
    unfold Js.parseInt. rewrite Htrim, Hsign. cbv beta iota.
    rewrite Hhex. cbv beta iota. rewrite Hp0. first [done | f_equal; lia].
  - unfold Js.parseInt. rewrite append_cons, append_nil.
    change (Js.trim_start (String "-" (String c ds))) with (String "-" (String c ds)).
    change (Js.strip_sign (String "-" (String c ds))) with (-1, String c ds).
    cbv beta iota. rewrite Hhex. cbv beta iota. rewrite Hp0. first [done | f_equal; lia].
Qed.

(** [parseInt(`${z}`)] is [z] for every integer. *)
Lemma parseInt_pretty (z : Z) : Js.parseInt (pretty z) = Some z.
Proof.
  destruct z as [|p|p].
  - reflexivity.
  - change (pretty (Z.pos p)) with (pretty (N.pos p)).
    unfold pretty, pretty_N. rewrite decide_False by done.
    destruct (pretty_N_go_digits (N.pos p) "" ltac:(lia))
      as (ds & n & E & Hall & Hne & Hparse).
    rewrite E, string_app_nil_r.
    by destruct (parseInt_digits ds n (Z.of_N (N.pos p)) Hall Hne Hparse) as [-> _].
  - change (pretty (Z.neg p)) with ("-" +:+ pretty (N.pos p)).
    unfold pretty, pretty_N. rewrite decide_False by done.
    destruct (pretty_N_go_digits (N.pos p) "" ltac:(lia))
      as (ds & n & E & Hall & Hne & Hparse).
    rewrite E, string_app_nil_r.
    by destruct (parseInt_digits ds n (Z.of_N (N.pos p)) Hall Hne Hparse) as [_ ->].
Qed.

Lemma split_go_no_char sep s : forall cur,
  no_char sep s = true -> Js.split_go sep cur s = [cur +:+ s].
Proof.
  induction s as [|a s IH]; intros cur H; simpl in *.
  - by rewrite string_app_nil_r.
  - apply andb_true_iff in H as [Ha Hs].
    apply negb_true_iff in Ha. rewrite Ha, IH by done.
    by rewrite string_app_assoc.
Qed.

Lemma split_go_app sep a : forall cur b,
  no_char sep a = true ->
  Js.split_go sep cur (a +:+ String sep b)
  = (cur +:+ a) :: Js.split_go sep "" b.
Proof.
  induction a as [|x a IH]; intros cur b H; simpl in H.
  - rewrite append_nil, string_app_nil_r. simpl. by rewrite Ascii.eqb_refl.
  - apply andb_true_iff in H as [Hx Ha]. apply negb_true_iff in Hx.
    rewrite append_cons. simpl. rewrite Hx, IH by done.
    by rewrite string_app_assoc.
Qed.

(** [(a + sep + b).split(sep)] is [[a, b]] when neither part holds the
    separator. *)
Lemma split_two sep a b :
  no_char sep a = true -> no_char sep b = true ->
  Js.split sep (a +:+ String sep b) = [a; b].
Proof.
  intros Ha Hb. unfold Js.split.
  rewrite split_go_app by done. by rewrite split_go_no_char by done.
Qed.

Lemma all_digits_no_slash ds : all_digits ds = true -> no_char "/" ds = true.
Proof.
  induction ds as [|c ds IH]; [done|]. simpl. intros H.
  apply andb_true_iff in H as [Hc Hds]. rewrite IH by done.
  by destruct c as [[] [] [] [] [] [] [] []].
Qed.

Lemma pretty_Z_no_slash (z : Z) : no_char "/" (pretty z) = true.
Proof.
  assert (forall p, no_char "/" (pretty (N.pos p)) = true) as Hpos.
  { intros p. unfold pretty, pretty_N. rewrite decide_False by done.
    destruct (pretty_N_go_digits (N.pos p) "" ltac:(lia))
      as (ds & n & E & Hall & _ & _).
    rewrite E, string_app_nil_r. by apply all_digits_no_slash. }
  destruct z as [|p|p]; [done| |].
  - change (pretty (Z.pos p)) with (pretty (N.pos p)). apply Hpos.
  - change (pretty (Z.neg p)) with ("-" +:+ pretty (N.pos p)).
    rewrite append_cons, append_nil. simpl. apply Hpos.
Qed.

Lemma num_to_string_no_slash (b : Js.num) :
  no_char "/" (Js.num_to_string b) = true.
Proof. destruct b; [apply pretty_Z_no_slash|done]. Qed.

Lemma parseInt_num_to_string (b : Js.num) : Js.parseInt (Js.num_to_string b) = b.
Proof. destruct b; [apply parseInt_pretty|done]. Qed.

Lemma split_changeId_of pid (b : Js.num) :
  Js.split "/" (McpTools.changeId_of pid b) = [pretty pid; Js.num_to_string b].
Proof.
  unfold McpTools.changeId_of. rewrite append_cons, append_nil.
  apply split_two; [apply pretty_Z_no_slash|apply num_to_string_no_slash].
Qed.

Lemma buffer_of_key_build (pid : Z) (bufnr : Js.num) :
  buffer_of_key (McpTools.changeId_of pid bufnr) = bufnr.
Proof.
  unfold buffer_of_key. rewrite split_changeId_of. simpl.
  apply parseInt_num_to_string.
Qed.

(** X1.  The key round trip.  Let the process id be an integer that a
    JavaScript number holds exactly (of absolute value below 2^53) and the
    buffer number such an integer or [NaN].  The key [`${pid}/${bufnr}`]
    splits at "/" into exactly two parts, the process id and the buffer
    number as they were printed, and the handlers read back, with
    [parseInt(changeId.split('/')[1])], exactly the buffer number the key
    was built from, negative numbers and [NaN] included. *)
Theorem buffer_of_changeId (pid : Z) (bufnr : Js.num) :
  safe_integer pid ->
  safe_number bufnr ->
  Js.split "/" (McpTools.changeId_of pid bufnr) = [pretty pid; Js.num_to_string bufnr] /\
  buffer_of_key (McpTools.changeId_of pid bufnr) = bufnr.
Proof.
  intros _ _. split; [apply split_changeId_of|].
  unfold buffer_of_key. rewrite split_changeId_of. simpl.
  apply parseInt_num_to_string.
Qed.

Lemma buffer_of_changeId_witness :
  buffer_of_key (McpTools.changeId_of 4242 (Some (-7))) = Some (-7) /\
  buffer_of_key (McpTools.changeId_of 4242 None) = None.
Proof.
  split.
  - apply (buffer_of_changeId 4242 (Some (-7))); unfold safe_number, safe_integer; lia.
  - apply (buffer_of_changeId 4242 None); [unfold safe_integer; lia|exact I].
Defined.

(** X2.  Keys do not collide: two keys are the same string only when they
    were built from the same process id and the same buffer number. *)
Theorem changeId_of_inj pid1 (b1 : Js.num) pid2 (b2 : Js.num) :
  McpTools.changeId_of pid1 b1 = McpTools.changeId_of pid2 b2 ->
  pid1 = pid2 /\ b1 = b2.
Proof.
  intros E.
  assert (Js.split "/" (McpTools.changeId_of pid1 b1)
          = Js.split "/" (McpTools.changeId_of pid2 b2)) as Es by by rewrite E.
  rewrite !split_changeId_of in Es. injection Es as E1 E2.
  split; [by apply (inj pretty) in E1|].
  by rewrite <- (parseInt_num_to_string b1), E2, parseInt_num_to_string.
Qed.

Lemma changeId_of_inj_witness : 4242 = 4242 /\ Some 7 = Some 7.
Proof. exact (changeId_of_inj 4242 (Some 7) 4242 (Some 7) eq_refl). Defined.

Lemma split_go_nonempty sep s : forall cur, Js.split_go sep cur s <> [].
Proof.
  induction s as [|a s IH]; intros cur; simpl; [done|].
  destruct (Ascii.eqb a sep); [done|apply IH].
Qed.

Lemma join_cons sep p l :
  l <> [] -> Js.join sep (p :: l) = p +:+ sep +:+ Js.join sep l.
Proof. by destruct l. Qed.

Lemma join_split_go sep s : forall cur,
  Js.join (String sep "") (Js.split_go sep cur s) = cur +:+ s.
Proof.
  induction s as [|a s IH]; intros cur; simpl.
  - by rewrite string_app_nil_r.
  - destruct (Ascii.eqb_spec a sep) as [->|Hne].
    + rewrite join_cons by apply split_go_nonempty. by rewrite IH.
    + by rewrite IH, string_app_assoc.
Qed.

(** X3.  The text round trip of a diff.  openDiff splits the proposed
    contents at line feeds into the lines of the buffer and acceptChanges
    joins the lines of the buffer with line feeds: joining what was split
    gives back the text, whatever it contains (no line feed, empty lines,
    a trailing line feed). *)
Theorem join_split sep s : Js.join (String sep "") (Js.split sep s) = s.
Proof. unfold Js.split. by rewrite join_split_go. Qed.

(** ** Sessions: connecting and disconnecting *)

Lemma map_delete_set k v m :
  k ∉ m.*1 -> Manager.map_delete k (Manager.map_set k v m) = m.
Proof.
  induction m as [|[k' v'] m IH]; intros H; simpl.
  - unfold Manager.map_delete. simpl. by rewrite Nat.eqb_refl.
  - rewrite fmap_cons, not_elem_of_cons in H. destruct H as [Hne Hm]. simpl in Hne.
    destruct (Nat.eqb_spec k' k) as [->|Hk]; [done|].
    unfold Manager.map_delete in *. simpl.
    destruct (Nat.eqb_spec k' k) as [->|_]; [done|]. simpl. f_equal. by apply IH.
Qed.

Lemma close_socket_not_open socket (m : gmap nat Net.Socket) :
  Net.readyState <$> m !! socket <> Some Net.OPEN ->
  alter Net.close_socket socket m = m.
Proof.
  intros H. apply map_eq. intros i.
  destruct (decide (i = socket)) as [->|Hne]; [|by rewrite lookup_alter_ne].
  rewrite lookup_alter_eq. destruct (m !! socket) as [sock|] eqn:E; [|done].
  simpl in *. f_equal. unfold Net.close_socket.
  destruct (Net.readyState sock) eqn:Er; done.
Qed.

(** X4.  A connection whose socket is no longer open when the MCP server is
    connected to it.  [handleClient] does not throw: it writes the error
    "Error handling client: WebSocket is not in a valid state" to the log
    and calls [ws.close()].  The socket is not registered as a client, no
    health-check timer and no 'close' listener is set up; but the handlers
    of the tools registered for it stay in [changeHandlers], which grows
    by one entry. *)
Theorem handleClient_not_open (s : Manager.State) socket :
  Net.readyState <$> sockets (Manager.world s) !! socket <> Some Net.OPEN ->
  exists s' lines,
    Manager.handleClient socket s = (Ok tt, s') /\
    Manager.clientServers (Manager.this s') = Manager.clientServers (Manager.this s) /\
    Manager.healthCheckIntervals (Manager.this s')
      = Manager.healthCheckIntervals (Manager.this s) /\
    Manager.closeListeners (Manager.this s') = Manager.closeListeners (Manager.this s) /\
    Manager.changeHandlers (Manager.this s')
      = (Manager.changeHandlers (Manager.this s) ++ [∅])%list /\
    timers (Manager.world s') = timers (Manager.world s) /\
    sockets (Manager.world s') = sockets (Manager.world s) /\
    trace (Manager.world s') = (trace (Manager.world s) ++ [EvSocketClose socket])%list /\
    resolve_calls (Manager.world s') = resolve_calls (Manager.world s) /\
    Nvim.out (nvim (Manager.world s')) =
      (Nvim.out (nvim (Manager.world s)) ++ lines
         ++ [(Nvim.ERROR, "MCP",
              "Error handling client: WebSocket is not in a valid state")])%list.
Proof.
  intros Hno. pose proof (close_socket_not_open socket _ Hno) as Hclose.
  unfold Manager.handleClient, try_catch, bind, gets, modify, Manager.mcpServer_connect,
    Manager.lift, WsServer.transport_start, Manager.log, ret.
  destruct s as [m w]. simpl in *.
  assert (forall pre, exists lines,
    Nvim.out (write_line (env_log_level (proc w)) "MCP" Nvim.ERROR
                "Error handling client: WebSocket is not in a valid state"
                (write_line (env_log_level (proc w)) "MCP" Nvim.WARN pre (nvim w)))
    = (Nvim.out (nvim w) ++ lines ++ [(Nvim.ERROR, "MCP",
         "Error handling client: WebSocket is not in a valid state")])%list) as Hout2.
  { intros pre. unfold write_line.
    destruct (env_log_level (proc w)); simpl;
      first [by exists [] | (eexists [_]; by rewrite <- app_assoc)]. }
  assert (Nvim.out (write_line (env_log_level (proc w)) "MCP" Nvim.ERROR
                "Error handling client: WebSocket is not in a valid state" (nvim w))
    = (Nvim.out (nvim w) ++ [] ++ [(Nvim.ERROR, "MCP",
         "Error handling client: WebSocket is not in a valid state")])%list) as Hout1.
  { unfold write_line. by destruct (env_log_level (proc w)). }
  destruct (Nvim.unsafe_execute_lua (nvim w)); simpl.
  - destruct (Hout2 "Unsafe Lua code execution is ENABLED via g:claude_unsafe_execute_lua")
      as [lines Hl].
    destruct (sockets w !! socket) as [sock|] eqn:E; simpl in *.
    + destruct (Net.readyState sock) eqn:Er; [done| |].
      all: simpl; eexists; exists lines; split; [reflexivity|]; simpl.
      all: unfold WsServer.ws_close, modify; simpl; rewrite ?Hclose.
      all: repeat (split; [done|]); exact Hl.
    + simpl; eexists; exists lines; split; [reflexivity|]; simpl.
      unfold WsServer.ws_close, modify; simpl; rewrite ?Hclose.
      repeat (split; [done|]); exact Hl.
  - destruct (sockets w !! socket) as [sock|] eqn:E; simpl in *.
    + destruct (Net.readyState sock) eqn:Er; [done| |].
      all: simpl; eexists; exists []; split; [reflexivity|]; simpl.
      all: unfold WsServer.ws_close, modify; simpl; rewrite ?Hclose.
      all: repeat (split; [done|]); exact Hout1.
    + simpl; eexists; exists []; split; [reflexivity|]; simpl.
      unfold WsServer.ws_close, modify; simpl; rewrite ?Hclose.
      repeat (split; [done|]); exact Hout1.
Qed.

Lemma handleClient_not_open_witness :
  exists s',
    Manager.handleClient 3 closing_manager = (Ok tt, s') /\
    Manager.getClientCount (Manager.this s') = 0%nat /\
    List.length (Manager.changeHandlers (Manager.this s')) = 1%nat /\
    trace (Manager.world s') = [EvSocketClose 3].
Proof.
  destruct (handleClient_not_open closing_manager 3) as (s' & lines & E & Hc & _ & _ & Hh & _ & _ & Ht & _).
  { vm_compute. discriminate. }
  exists s'. split; [exact E|]. unfold Manager.getClientCount.
  rewrite Hc, Hh, Ht. repeat split.
Defined.

Lemma handleClient_run (s : Manager.State) socket sock :
  sockets (Manager.world s) !! socket = Some sock ->
  Net.readyState sock = Net.OPEN ->
  exists w',
    Manager.handleClient socket s =
      (Ok tt,
       {| Manager.this :=
            Manager.set_closeListeners ({[socket]} ∪ Manager.closeListeners (Manager.this s))
              (Manager.set_healthCheckIntervals
                 (<[socket := fresh (dom (timers (Manager.world s)))]>
                    (Manager.healthCheckIntervals (Manager.this s)))
                 (Manager.set_clientServers
                    (Manager.map_set socket
                       (List.length (Manager.changeHandlers (Manager.this s)))
                       (Manager.clientServers (Manager.this s)))
                    (Manager.set_changeHandlers
                       (Manager.changeHandlers (Manager.this s) ++ [∅])%list
                       (Manager.this s))));
          Manager.world := w' |}) /\
    sockets w' = sockets (Manager.world s) /\
    timers w' =
      <[fresh (dom (timers (Manager.world s))) :=
          {| Net.hb_ws := socket; Net.pingId := 0; Net.active := true |}]>
        (timers (Manager.world s)) /\
    trace w' = trace (Manager.world s) /\
    resolve_calls w' = resolve_calls (Manager.world s) /\
    files w' = files (Manager.world s).
Proof.
  intros Hs Ho.
  unfold Manager.handleClient, Manager.mcpServer_connect, Manager.lift,
    WsServer.transport_start, Manager.setInterval, Manager.log. unfold_monad.
  destruct (Nvim.unsafe_execute_lua (nvim (Manager.world s)));
    simpl; rewrite Hs, Ho; simpl.
  all: eexists; split; [reflexivity|]; simpl; by repeat split.
Qed.

Lemma on_socket_close_run (s : Manager.State) socket t :
  socket ∈ Manager.closeListeners (Manager.this s) ->
  Manager.healthCheckIntervals (Manager.this s) !! socket = Some t ->
  exists w',
    Manager.on_socket_close socket s =
      (Ok tt,
       {| Manager.this :=
            Manager.set_clientServers
              (Manager.map_delete socket (Manager.clientServers (Manager.this s)))
              (Manager.set_healthCheckIntervals
                 (delete socket (Manager.healthCheckIntervals (Manager.this s)))
                 (Manager.this s));
          Manager.world := w' |}) /\
    sockets w' = alter Manager.mark_closed socket (sockets (Manager.world s)) /\
    timers w' = alter Net.cancel t (timers (Manager.world s)) /\
    trace w' = (trace (Manager.world s) ++ [EvClearInterval t])%list /\
    resolve_calls w' = resolve_calls (Manager.world s) /\
    files w' = files (Manager.world s).
Proof.
  intros Hl Ht.
  unfold Manager.on_socket_close, Manager.clearInterval, Manager.log. unfold_monad.
  simpl. rewrite bool_decide_eq_true_2 by done. simpl. rewrite Ht. simpl.
  eexists. split; [reflexivity|]. simpl. by repeat split.
Qed.

Lemma verifyClient_token authToken :
  WsServer.verifyClient authToken (WsServer.Single authToken) = WsServer.Accept.
Proof. unfold WsServer.verifyClient. simpl. by rewrite String.eqb_refl. Qed.

(** X5.  What a session leaves behind.  On a running server, a handshake with
    the right token followed by the close of the new socket gives back the
    table of clients and the table of health-check timers as they were.
    The socket ends closed, having received nothing; the one timer that
    was created is cancelled, by one call of [clearInterval], and its
    later firings do nothing.  [changeHandlers] is not restored: it keeps
    the entry added for the connection. *)
Theorem session_round_trip (s : Manager.State) server :
  Manager.wss (Manager.this s) = Some server ->
  let socket := fresh (dom (sockets (Manager.world s))) in
  let t := fresh (dom (timers (Manager.world s))) in
  socket ∉ (Manager.clientServers (Manager.this s)).*1 ->
  Manager.healthCheckIntervals (Manager.this s) !! socket = None ->
  exists s1 s2,
    Manager.on_upgrade (WsServer.Single (WsServer.authToken server)) s = (Ok tt, s1) /\
    Manager.on_socket_close socket s1 = (Ok tt, s2) /\
    Manager.clientServers (Manager.this s2) = Manager.clientServers (Manager.this s) /\
    Manager.healthCheckIntervals (Manager.this s2)
      = Manager.healthCheckIntervals (Manager.this s) /\
    Manager.changeHandlers (Manager.this s2)
      = (Manager.changeHandlers (Manager.this s) ++ [∅])%list /\
    sockets (Manager.world s2)
      = <[socket := {| Net.readyState := Net.CLOSED; Net.sent := [] |}]>
          (sockets (Manager.world s)) /\
    timers (Manager.world s2)
      = <[t := {| Net.hb_ws := socket; Net.pingId := 0; Net.active := false |}]>
          (timers (Manager.world s)) /\
    trace (Manager.world s2) = (trace (Manager.world s) ++ [EvClearInterval t])%list /\
    (forall outcomes, ticks t outcomes s2 = (Ok tt, s2)).
Proof.
  intros Hwss socket t Hnew Hint.
  set (s0 := Manager.with_world (with_sockets
               <[socket := {| Net.readyState := Net.OPEN; Net.sent := [] |}]>) s).
  destruct (handleClient_run s0 socket {| Net.readyState := Net.OPEN; Net.sent := [] |})
    as (w1 & E1 & Hs1 & Ht1 & Htr1 & _).
  { unfold s0. simpl. apply lookup_insert_eq. }
  { done. }
  match type of E1 with _ = (_, ?st) => set (s1 := st) in * end.
  destruct (on_socket_close_run s1 socket t) as (w2 & E2 & Hs2 & Ht2 & Htr2 & _).
  { unfold s1. simpl. set_solver. }
  { unfold s1. simpl. apply lookup_insert_eq. }
  match type of E2 with _ = (_, ?st) => set (s2 := st) in * end.
  exists s1, s2.
  split.
  { unfold Manager.on_upgrade. unfold_monad. rewrite Hwss, verifyClient_token. exact E1. }
  split; [exact E2|].
  assert (timers w2 = <[t := {| Net.hb_ws := socket; Net.pingId := 0; Net.active := false |}]>
                        (timers (Manager.world s))) as Htimers.
  { rewrite Ht2. unfold s1. simpl. rewrite Ht1. unfold s0. simpl.
    fold t. rewrite alter_insert_eq. done. }
  split; [unfold s2, s1; simpl; by apply map_delete_set|].
  split; [unfold s2, s1; simpl; by apply delete_insert_id|].
  split; [done|].
  split.
  { unfold s2. simpl. rewrite Hs2. unfold s1. simpl. rewrite Hs1. unfold s0. simpl.
    fold socket. by rewrite alter_insert_eq. }
  split; [exact Htimers|].
  split; [unfold s2; simpl; rewrite Htr2; unfold s1; simpl; by rewrite Htr1|].
  intros outcomes. apply ticks_idle with {| Net.hb_ws := socket; Net.pingId := 0; Net.active := false |}.
  - unfold s2. simpl. rewrite Htimers. apply lookup_insert_eq.
  - done.
Qed.

Lemma session_round_trip_witness :
  exists s1 s2,
    Manager.on_upgrade (WsServer.Single (WsServer.authToken sample_wss)) listening_manager
      = (Ok tt, s1) /\
    Manager.on_socket_close 0 s1 = (Ok tt, s2) /\
    Manager.clientServers (Manager.this s2) = [] /\
    Manager.changeHandlers (Manager.this s2) = [∅].
Proof.
  destruct (session_round_trip listening_manager sample_wss eq_refl)
    as (s1 & s2 & E1 & E2 & Hc & _ & Hh & _).
  - vm_compute. apply not_elem_of_nil.
  - vm_compute. reflexivity.
  - exists s1, s2. split; [exact E1|]. split; [exact E2|]. split; [exact Hc|exact Hh].
Defined.

(** ** Accepting from the editor *)

Lemma first_handler_accept logger k b hs : forall w,
  (0 < pending_count k hs)%nat ->
  Nvim.find_buffer (buffer_of_key k) (Nvim.buffers (nvim w)) = Some b ->
  exists hs' w' t e,
    Manager.first_handler (McpTools.acceptChanges logger k) hs w = (Ok true, hs', w') /\
    t ∈ hs /\ t !! k = Some e /\
    resolve_calls w' =
      (resolve_calls w
         ++ [(McpTools.resolve e,
              McpTools.FILE_SAVED (Js.join McpTools.LF (Nvim.buf_lines b)))])%list /\
    S (pending_count k hs') = pending_count k hs /\
    Nvim.buffers (nvim w')
      = Nvim.update_modified (Nvim.buf_id b) false (Nvim.buffers (nvim w)) /\
    Nvim.pid (nvim w') = Nvim.pid (nvim w) /\
    Nvim.current (nvim w') = Nvim.current (nvim w).
Proof.
  induction hs as [|h hs IH]; intros w Hpos Hb.
  - unfold pending_count in Hpos. simpl in Hpos. lia.
  - simpl. destruct (h !! k) as [e|] eqn:He.
    + rewrite (acceptChanges_found logger k e b
                 {| McpTools.diffPromises := h; McpTools.world := w |} He Hb).
      eexists _, _, h, e. split; [done|]. split; [apply list_elem_of_here|].
      split; [done|]. unfold accepted. simpl.
      split; [done|]. split.
      { rewrite !pending_count_cons, pending_delete, (pending_lookup_Some _ _ _ He). done. }
      unfold write_line. destruct (_ <? _); simpl; by repeat split.
    + rewrite (acceptChanges_absent logger k
                 {| McpTools.diffPromises := h; McpTools.world := w |} He).
      simpl. rewrite pending_count_cons in Hpos.
      apply pending_lookup_None in He as Hp. rewrite Hp in Hpos.
      destruct (IH w Hpos Hb) as (hs' & w' & t & e & E & Hin & Ht & Hc & Hn & Hrest).
      rewrite E. exists (h :: hs'), w', t, e.
      split; [done|]. split; [by apply list_elem_of_further|].
      split; [done|]. split; [done|]. split; [|done].
      rewrite !pending_count_cons, Hp. lia.
Qed.

Lemma find_update_modified_self b bs bufnr :
  Nvim.find_buffer bufnr bs = Some b ->
  Nvim.find_buffer bufnr (Nvim.update_modified (Nvim.buf_id b) false bs)
  = Some (Nvim.set_modified false b).
Proof.
  destruct bufnr as [n|]; [|done]. intros H.
  rewrite find_update_modified, H. simpl. by rewrite Z.eqb_refl.
Qed.

(** X6.  :ClaudeAccept on a diff buffer (the command the BufWriteCmd autocmd of
    openDiff runs).  While the server runs, if the current buffer exists
    and its key [`${pid}/${bufnr}`] is pending in some client's table, the
    command returns normally; it has called the [resolve] function of one
    such record once, with the FILE_SAVED payload holding the lines of the
    current buffer joined by line feeds, has removed that record, and has
    cleared the buffer's modified flag. *)
Theorem ClaudeAccept_saves (p : Plugin.State) mgr b :
  Plugin.running p = Some mgr ->
  let ed := nvim (Plugin.world p) in
  let k := McpTools.changeId_of (Nvim.pid ed) (Some (Nvim.current ed)) in
  Nvim.find_buffer (Some (Nvim.current ed)) (Nvim.buffers ed) = Some b ->
  (0 < pending_count k (Manager.changeHandlers mgr))%nat ->
  exists p' mgr' t e,
    Plugin.ClaudeAccept p = (Ok tt, p') /\
    Plugin.serverManager p' = Some mgr' /\
    t ∈ Manager.changeHandlers mgr /\ t !! k = Some e /\
    resolve_calls (Plugin.world p') =
      (resolve_calls (Plugin.world p)
         ++ [(McpTools.resolve e,
              McpTools.FILE_SAVED (Js.join McpTools.LF (Nvim.buf_lines b)))])%list /\
    S (pending_count k (Manager.changeHandlers mgr'))
      = pending_count k (Manager.changeHandlers mgr) /\
    Nvim.find_buffer (Some (Nvim.current ed)) (Nvim.buffers (nvim (Plugin.world p')))
      = Some (Nvim.set_modified false b).
Proof.
  intros Hrun ed k Hb Hpos.
  assert (Nvim.find_buffer (buffer_of_key k) (Nvim.buffers ed) = Some b) as Hb'.
  { unfold k. by rewrite buffer_of_key_build. }
  destruct (first_handler_accept (Some Manager.logger) k b (Manager.changeHandlers mgr)
              (Plugin.world p) Hpos Hb')
    as (hs' & w' & t & e & E & Hin & Ht & Hc & Hn & Hbuf & Hpid & Hcur).
  eexists _, _, t, e.
  split.
  { unfold Plugin.ClaudeAccept, Plugin.changeId_of_current, Plugin.call,
      Manager.acceptChanges, Manager.for_handlers. unfold_monad.
    rewrite Hrun. simpl. fold ed. fold k. rewrite E. simpl. reflexivity. }
  simpl. split; [reflexivity|]. split; [done|]. split; [done|].
  split; [done|]. split; [done|].
  rewrite Hbuf. exact (find_update_modified_self b _ (Some (Nvim.current ed)) Hb).
Qed.

Lemma ClaudeAccept_saves_witness :
  exists p' mgr' t e,
    Plugin.ClaudeAccept editing_diff = (Ok tt, p') /\
    Plugin.serverManager p' = Some mgr' /\
    t ∈ [sample_table] /\ t !! "4242/7" = Some e /\
    resolve_calls (Plugin.world p') =
      [(McpTools.resolve e, McpTools.FILE_SAVED (Js.join McpTools.LF ["hello"; ""]))].
Proof.
  destruct (ClaudeAccept_saves editing_diff
              (Manager.set_wss (Some sample_wss)
                 (Manager.this (sample_manager [file_buffer; diff_buffer])))
              diff_buffer)
    as (p' & mgr' & t & e & E & Hm & Hin & Ht & Hc & _).
  - vm_compute. reflexivity.
  - vm_compute. reflexivity.
  - vm_compute. lia.
  - exists p', mgr', t, e. split; [exact E|]. split; [exact Hm|].
    split; [exact Hin|]. split; [exact Ht|]. exact Hc.
Defined.

Lemma handlers_idle k f (Hf : resolver k f) (s : Manager.State) :
  pending_count k (Manager.changeHandlers (Manager.this s)) = 0%nat ->
  Manager.for_handlers f s = (Ok false, s).
Proof.
  intros H0.
  destruct (for_handlers_spec k f Hf s) as (b & s' & E & _ & _ & _ & _ & Hz).
  destruct (Hz H0) as [-> ->]. exact E.
Qed.

(** X7.  What :ClaudeAccept and :ClaudeDrop do when there is nothing to
    resolve.  Without a running server their only effect is the warning
    "Claude MCP Server is not running"; with a running server and a
    current buffer whose key is pending in no client's table their only
    effect is the warning "This is not a claude code diff".  Neither
    throws. *)
Theorem commands_refuse (p : Plugin.State) :
  (Plugin.running p = None ->
   Plugin.ClaudeAccept p
     = Plugin.log Nvim.WARN "Claude MCP Server is not running" p /\
   Plugin.ClaudeDrop p
     = Plugin.log Nvim.WARN "Claude MCP Server is not running" p) /\
  (forall mgr,
     Plugin.running p = Some mgr ->
     pending_count
       (McpTools.changeId_of (Nvim.pid (nvim (Plugin.world p)))
          (Some (Nvim.current (nvim (Plugin.world p)))))
       (Manager.changeHandlers mgr) = 0%nat ->
     Plugin.ClaudeAccept p
       = Plugin.log Nvim.WARN "This is not a claude code diff" p /\
     Plugin.ClaudeDrop p
       = Plugin.log Nvim.WARN "This is not a claude code diff" p).
Proof.
  split.
  - intros Hrun. unfold Plugin.ClaudeAccept, Plugin.ClaudeDrop. unfold_monad.
    rewrite Hrun. unfold Plugin.log, modify. by split.
  - intros mgr Hrun H0.
    assert (Plugin.serverManager p = Some mgr) as Hm.
    { unfold Plugin.running in Hrun. destruct (Plugin.serverManager p) as [m|]; [|done].
      destruct (Manager.isRunning m); congruence. }
    destruct p as [sm w]. simpl in *. subst sm.
    unfold Plugin.ClaudeAccept, Plugin.ClaudeDrop, Plugin.changeId_of_current,
      Plugin.call, Manager.acceptChanges, Manager.dropChanges. unfold_monad.
    rewrite Hrun. simpl.
    rewrite (handlers_idle _ _ (acceptChanges_resolver (Some Manager.logger) _)
               {| Manager.this := mgr; Manager.world := w |} H0).
    rewrite (handlers_idle _ _ (dropChanges_resolver (Some Manager.logger) _)
               {| Manager.this := mgr; Manager.world := w |} H0).
    simpl. unfold Plugin.log, modify. by split.
Qed.

Lemma commands_refuse_witness :
  Plugin.ClaudeAccept (sample_plugin [file_buffer])
    = Plugin.log Nvim.WARN "This is not a claude code diff" (sample_plugin [file_buffer]) /\
  Plugin.ClaudeDrop (sample_plugin [file_buffer])
    = Plugin.log Nvim.WARN "This is not a claude code diff" (sample_plugin [file_buffer]).
Proof.
  destruct (commands_refuse (sample_plugin [file_buffer])) as [_ H].
  apply (H (Manager.set_wss (Some sample_wss)
              (Manager.this (sample_manager [file_buffer])))).
  - vm_compute. reflexivity.
  - vm_compute. reflexivity.
Defined.

(** X8.  :ClaudeMcpServerStop discards the manager together with its tables.
    On a running server the command returns normally without calling any
    [resolve] function and leaves [serverManager] unset; from then on
    :ClaudeAccept, :ClaudeDrop and the BufWipeout autocmd call no
    [resolve] function either, so a diff that was pending when the server
    was stopped can no longer be resolved by any command. *)
Theorem stop_orphans_diffs (p : Plugin.State) mgr :
  Plugin.running p = Some mgr ->
  exists p',
    Plugin.ClaudeMcpServerStop p = (Ok tt, p') /\
    Plugin.serverManager p' = None /\
    resolve_calls (Plugin.world p') = resolve_calls (Plugin.world p) /\
    forall bufnrStr, exists pa pd,
      Plugin.ClaudeAccept p' = (Ok tt, pa) /\
      Plugin.ClaudeDrop p' = (Ok tt, pd) /\
      Plugin.BufWipeout bufnrStr p' = (Ok tt, p') /\
      Plugin.serverManager pa = None /\ Plugin.serverManager pd = None /\
      resolve_calls (Plugin.world pa) = resolve_calls (Plugin.world p) /\
      resolve_calls (Plugin.world pd) = resolve_calls (Plugin.world p).
Proof.
  intros Hrun.
  assert (exists server, Manager.wss mgr = Some server) as [server Hwss].
  { unfold Plugin.running in Hrun. destruct (Plugin.serverManager p) as [m|]; [|done].
    destruct (Manager.isRunning m) eqn:Er; [|done]. injection Hrun as <-.
    unfold Manager.isRunning in Er. apply bool_decide_eq_true in Er as [x Hx]. eauto. }
  destruct (stop_spec {| Manager.this := mgr; Manager.world := Plugin.world p |} server Hwss)
    as (s' & blocks & E & _ & _ & _ & _ & _ & Hres & _).
  eexists. split.
  { unfold Plugin.ClaudeMcpServerStop, Plugin.call. unfold_monad. rewrite Hrun. simpl.
    rewrite E. simpl. reflexivity. }
  simpl. split; [done|]. split; [done|].
  intros bufnrStr.
  unfold Plugin.ClaudeAccept, Plugin.ClaudeDrop, Plugin.BufWipeout, Plugin.log. unfold_monad.
  simpl. eexists _, _. split; [reflexivity|]. split; [reflexivity|].
  split; [reflexivity|]. simpl. by repeat split.
Qed.

Lemma stop_orphans_diffs_witness :
  exists p',
    Plugin.ClaudeMcpServerStop (sample_plugin [file_buffer]) = (Ok tt, p') /\
    Plugin.serverManager p' = None /\
    resolve_calls (Plugin.world p') = [].
Proof.
  destruct (stop_orphans_diffs (sample_plugin [file_buffer])
              (Manager.set_wss (Some sample_wss)
                 (Manager.this (sample_manager [file_buffer]))))
    as (p' & E & Hm & Hc & _).
  - vm_compute. reflexivity.
  - exists p'. split; [exact E|]. split; [exact Hm|exact Hc].
Defined.

(** ** Restarting the server *)

Lemma stop_frame (s : Manager.State) server :
  Manager.wss (Manager.this s) = Some server ->
  exists s',
    Manager.stop s = (Ok tt, s') /\
    proc (Manager.world s') = proc (Manager.world s) /\
    dirs (Manager.world s') = dirs (Manager.world s) /\
    next_promise (Manager.world s') = next_promise (Manager.world s) /\
    Nvim.buffers (nvim (Manager.world s')) = Nvim.buffers (nvim (Manager.world s)) /\
    Nvim.pid (nvim (Manager.world s')) = Nvim.pid (nvim (Manager.world s)) /\
    Nvim.current (nvim (Manager.world s')) = Nvim.current (nvim (Manager.world s)).
Proof.
  intros Hwss.
  destruct (close_clients_spec (Manager.clientServers (Manager.this s)) s)
    as (blocks & E1 & Hblocks).
  eexists. split.
  { unfold Manager.stop. unfold bind at 1. unfold gets. rewrite Hwss.
    unfold bind at 1. unfold gets. rewrite (bind_Ok _ _ _ _ _ E1).
    unfold bind at 1. unfold modify at 1.
    unfold bind at 1. unfold modify at 1.
    unfold bind at 1. unfold Manager.lift at 1. cbn [Manager.world Manager.with_this].
    rewrite on_close_spec. reflexivity. }
  cbn. unfold write_line. by destruct (_ <? _).
Qed.

Lemma start_frame rnd (s : Manager.State) :
  Manager.wss (Manager.this s) = None ->
  exists r s',
    Manager.start rnd s = (r, s') /\
    proc (Manager.world s') = proc (Manager.world s) /\
    sockets (Manager.world s') = sockets (Manager.world s) /\
    timers (Manager.world s') = timers (Manager.world s) /\
    resolve_calls (Manager.world s') = resolve_calls (Manager.world s) /\
    Nvim.buffers (nvim (Manager.world s')) = Nvim.buffers (nvim (Manager.world s)) /\
    Nvim.pid (nvim (Manager.world s')) = Nvim.pid (nvim (Manager.world s)).
Proof.
  intros Hwss.
  unfold Manager.start, Manager.lift, WsServer.createClaudeWebSocketServer,
    WsServer.mkdirSync, WsServer.writeFileSync, Manager.log. unfold_monad.
  rewrite Hwss. simpl.
  destruct (WsServer.valid_port _); destruct (WsServer.existsSync _ _); simpl.
  all: eexists _, _; split; [reflexivity|]; simpl.
  all: unfold write_line; repeat destruct (_ <? _); done.
Qed.

(** X9.  Errors and restarts of the manager.  [stop] on a server that is
    not running throws "Server is not running" and [start] on a running one
    throws "Server is already running", both without any change of state.
    On a port a server can listen on (0 to 65535) a stopped server can be
    started again: the lock file of its port then holds the token of the
    new run, and a handshake that presents the token of the earlier run is
    rejected with 401 whenever the two tokens differ.  On any other port
    (an integer that a JavaScript number holds exactly) [start] throws,
    after it has written the lock file: the manager is left not running,
    so that [stop] throws as well and the file stays. *)
Theorem restart_renews_token rnd rnd' (s : Manager.State) :
  Manager.wss (Manager.this s) = None ->
  let path := WsServer.lockFilePath (homedir (proc (Manager.world s)))
                (Manager.port (Manager.this s)) in
  Manager.stop s = (Throw "Server is not running", s) /\
  (WsServer.valid_port (Manager.port (Manager.this s)) = true ->
   exists s1 s2 s3 data,
     Manager.start rnd s = (Ok tt, s1) /\
     Manager.start rnd' s1 = (Throw "Server is already running", s1) /\
     Manager.stop s1 = (Ok tt, s2) /\
     Manager.stop s2 = (Throw "Server is not running", s2) /\
     Manager.start rnd' s2 = (Ok tt, s3) /\
     files (Manager.world s3) !! path = Some data /\
     lf_authToken data = WsServer.randomUUID rnd' /\
     (WsServer.randomUUID rnd <> WsServer.randomUUID rnd' ->
      Manager.on_upgrade (WsServer.Single (WsServer.randomUUID rnd)) s3
        = (Ok tt, Manager.with_world (with_event (EvReject 401 "Unauthorized")) s3))) /\
  (WsServer.valid_port (Manager.port (Manager.this s)) = false ->
   safe_integer (Manager.port (Manager.this s)) ->
   exists message s1 data,
     Manager.start rnd s = (Throw message, s1) /\
     Manager.this s1 = Manager.this s /\
     files (Manager.world s1) !! path = Some data /\
     lf_authToken data = WsServer.randomUUID rnd /\
     Nvim.ide_port (nvim (Manager.world s1)) = Nvim.ide_port (nvim (Manager.world s)) /\
     Manager.stop s1 = (Throw "Server is not running", s1)).
Proof.
  intros Hwss path.
  split.
  { unfold Manager.stop. unfold_monad. by rewrite Hwss. }
  split.
  - intros Hport.
    destruct (start_spec rnd s Hwss Hport) as (s1 & E1 & Hthis1 & Hfiles1 & _ & _).
    cbv zeta in Hthis1, Hfiles1. fold path in Hthis1, Hfiles1.
    match type of Hthis1 with _ = Manager.set_wss (Some ?srv) _ => set (server := srv) in * end.
    assert (Manager.wss (Manager.this s1) = Some server) as Hwss1 by by rewrite Hthis1.
    destruct (stop_spec s1 server Hwss1)
      as (s2 & blocks & E2 & _ & _ & Hthis2 & _ & _ & _ & Hfiles2 & _).
    assert (Manager.wss (Manager.this s2) = None) as Hwss2 by by rewrite Hthis2.
    assert (Manager.port (Manager.this s2) = Manager.port (Manager.this s)) as Hp
      by by rewrite Hthis2, Hthis1.
    assert (WsServer.valid_port (Manager.port (Manager.this s2)) = true) as Hport2
      by by rewrite Hp.
    destruct (start_spec rnd' s2 Hwss2 Hport2) as (s3 & E3 & Hthis3 & Hfiles3 & _ & _).
    cbv zeta in Hthis3, Hfiles3.
    assert (homedir (proc (Manager.world s2)) = homedir (proc (Manager.world s))) as Hhome.
    { destruct (stop_frame s1 server Hwss1) as (s2' & E2' & Hp2 & _).
      destruct (start_frame rnd s Hwss) as (r1' & s1' & E1' & Hp1 & _).
      rewrite E2 in E2'. rewrite E1 in E1'.
      injection E2' as <-. injection E1' as <- <-. by rewrite Hp2, Hp1. }
    rewrite Hp, Hhome in Hthis3, Hfiles3. fold path in Hthis3, Hfiles3.
    eexists s1, s2, s3, _.
    split; [exact E1|].
    split; [unfold Manager.start; unfold_monad; by rewrite Hwss1|].
    split; [exact E2|].
    split; [unfold Manager.stop; unfold_monad; by rewrite Hwss2|].
    split; [exact E3|].
    split; [rewrite Hfiles3; apply lookup_insert_eq|].
    split; [reflexivity|].
    intros Hne. unfold Manager.on_upgrade. unfold_monad. rewrite Hthis3.
    cbn [Manager.wss Manager.set_wss WsServer.authToken].
    unfold WsServer.verifyClient, WsServer.header_is.
    destruct (String.eqb_spec (WsServer.randomUUID rnd) (WsServer.randomUUID rnd')); [done|].
    reflexivity.
  - intros Hport _.
    destruct (start_bad_port rnd s Hwss Hport) as (w' & E & Hfiles & Hnvim & _).
    cbv zeta in Hfiles. fold path in Hfiles.
    eexists _, _, _. split; [exact E|]. cbn [Manager.this Manager.world].
    split; [done|]. split; [rewrite Hfiles; apply lookup_insert_eq|].
    split; [done|]. split; [by rewrite Hnvim|].
    unfold Manager.stop. unfold_monad. cbn [Manager.this]. by rewrite Hwss.
Qed.

Lemma restart_renews_token_witness :
  (Manager.stop stopped_manager = (Throw "Server is not running", stopped_manager) /\
   exists s1 s2 s3,
     Manager.start 0 stopped_manager = (Ok tt, s1) /\
     Manager.stop s1 = (Ok tt, s2) /\
     Manager.start 1 s2 = (Ok tt, s3)) /\
  (exists message s1 data,
     Manager.start 0 {| Manager.this := Manager.create 70000;
                        Manager.world := sample_world [file_buffer] |}
       = (Throw message, s1) /\
     files (Manager.world s1) !! "/home/user/.claude/ide/70000.lock" = Some data /\
     Manager.stop s1 = (Throw "Server is not running", s1)).
Proof.
  split.
  - destruct (restart_renews_token 0 1 stopped_manager eq_refl) as (E0 & H & _).
    destruct (H eq_refl) as (s1 & s2 & s3 & data & E1 & _ & E2 & _ & E3 & _).
    split; [exact E0|]. exists s1, s2, s3. split; [exact E1|]. split; [exact E2|exact E3].
  - destruct (restart_renews_token 0 1
                {| Manager.this := Manager.create 70000;
                   Manager.world := sample_world [file_buffer] |} eq_refl) as (_ & _ & H).
    destruct (H eq_refl) as (message & s1 & data & E & _ & Hf & _ & _ & Es).
    { unfold safe_integer. simpl. lia. }
    exists message, s1, data. split; [exact E|]. split; [exact Hf|exact Es].
Defined.

(** ** Selection notifications *)

Lemma sendSelectionChanged_frame bufnr (s : Manager.State) buffer :
  Manager.isRunning (Manager.this s) = true ->
  Nvim.find_buffer bufnr (Nvim.buffers (nvim (Manager.world s))) = Some buffer ->
  Nvim.buf_name buffer <> "" ->
  NoDup (Manager.clientServers (Manager.this s)).*1 ->
  let ed := nvim (Manager.world s) in
  exists text start_ end_ s',
    Manager.sendSelectionChanged bufnr s = (Ok tt, s') /\
    Manager.this s' = Manager.set_lastSelectionBuffer (Some bufnr) (Manager.this s) /\
    (forall socket sock,
       sockets (Manager.world s) !! socket = Some sock ->
       sockets (Manager.world s') !! socket =
         Some (if decide (socket ∈ (Manager.clientServers (Manager.this s)).*1)
               then Manager.send_if_open
                      (Net.SelectionChanged text (Nvim.buf_name buffer)
                         ("file://" +:+ Nvim.buf_name buffer) start_ end_
                         (negb (Manager.is_visual (Nvim.mode ed)))) sock
               else sock)) /\
    (fst start_ < fst end_ \/ (fst start_ = fst end_ /\ snd start_ <= snd end_)) /\
    (Manager.is_visual (Nvim.mode ed) = false ->
     text = "" /\ end_ = start_ /\
     start_ = (fst (Nvim.cursor_pos ed) - 1, snd (Nvim.cursor_pos ed) - 1)) /\
    (Manager.is_visual (Nvim.mode ed) = true -> start_ <> end_).
Proof.
  intros Hrun Hb Hname Hnd ed.
  unfold Manager.sendSelectionChanged, Manager.log. unfold_monad.
  rewrite Hrun. simpl. rewrite Hb.
  destruct (String.eqb (Nvim.buf_name buffer) "") eqn:E.
  { by apply String.eqb_eq in E. }
  fold ed.
  destruct (Manager.is_visual (Nvim.mode ed)) eqn:Hvis.
  - destruct (Nvim.visual_pos ed) as [sl sc] eqn:Hv.
    destruct (Nvim.cursor_pos ed) as [el ec] eqn:Hc. simpl.
    destruct ((el <? sl) || ((sl =? el) && (ec <? sc))) eqn:Hswap; simpl.
    + assert ((el - 1 =? sl - 1) && (ec - 1 =? sc) = false) as ->.
      { apply andb_false_iff. destruct (Z.eqb_spec (el - 1) (sl - 1)); [|by left].
        right. apply orb_true_iff in Hswap as [H|H]; [lia|].
        apply andb_true_iff in H as [_ H]. lia. }
      eexists _, (el - 1, ec - 1), (sl - 1, sc), _. split; [reflexivity|].
      split; [done|]. split.
      { intros socket sock Hs. simpl. rewrite broadcast_lookup by done.
        rewrite Hs. by case_decide. }
      simpl. split.
      { apply orb_true_iff in Hswap as [H|H]; [lia|].
        apply andb_true_iff in H as [H1 H2]. lia. }
      split; [done|]. intros _ Heq. injection Heq as H1 H2.
      apply orb_true_iff in Hswap as [H|H]; [lia|].
      apply andb_true_iff in H as [_ H]. lia.
    + assert ((sl - 1 =? el - 1) && (sc - 1 =? ec) = false) as ->.
      { apply andb_false_iff. destruct (Z.eqb_spec (sl - 1) (el - 1)); [|by left].
        right. apply orb_false_iff in Hswap as [H1 H2].
        apply andb_false_iff in H2 as [H2|H2]; lia. }
      eexists _, (sl - 1, sc - 1), (el - 1, ec), _. split; [reflexivity|].
      split; [done|]. split.
      { intros socket sock Hs. simpl. rewrite broadcast_lookup by done.
        rewrite Hs. by case_decide. }
      simpl. apply orb_false_iff in Hswap as [H1 H2].
      split; [apply andb_false_iff in H2 as [H2|H2]; lia|].
      split; [done|]. intros _ Heq. injection Heq as H3 H4.
      apply andb_false_iff in H2 as [H2|H2]; lia.
  - simpl. eexists "", _, _, _. split; [reflexivity|].
    split; [done|]. split.
    { intros socket sock Hs. simpl. rewrite broadcast_lookup by done.
      rewrite Hs. by case_decide. }
    simpl. split; [right; split; [done|lia]|]. split; [done|]. done.
Qed.

(** X10.  The selection_changed notification of [sendSelectionChanged], for a
    named buffer on a running server whose client sockets are pairwise
    distinct.  Every open client socket receives exactly one frame, other
    sockets none.  The frame names the buffer's file and its "file://" URL;
    its start never lies after its end; and its isEmpty flag is true
    exactly when the editor is not in a visual mode: outside visual mode it
    is the empty selection at the cursor, and in visual mode start and end
    always differ, so the flag computed there is always false. *)
Theorem selection_notification bufnr (s : Manager.State) buffer :
  Manager.isRunning (Manager.this s) = true ->
  Nvim.find_buffer bufnr (Nvim.buffers (nvim (Manager.world s))) = Some buffer ->
  Nvim.buf_name buffer <> "" ->
  NoDup (Manager.clientServers (Manager.this s)).*1 ->
  let ed := nvim (Manager.world s) in
  exists text start_ end_ s',
    Manager.sendSelectionChanged bufnr s = (Ok tt, s') /\
    (forall socket sock,
       sockets (Manager.world s) !! socket = Some sock ->
       sockets (Manager.world s') !! socket =
         Some (if decide (socket ∈ (Manager.clientServers (Manager.this s)).*1)
               then Manager.send_if_open
                      (Net.SelectionChanged text (Nvim.buf_name buffer)
                         ("file://" +:+ Nvim.buf_name buffer) start_ end_
                         (negb (Manager.is_visual (Nvim.mode ed)))) sock
               else sock)) /\
    (fst start_ < fst end_ \/ (fst start_ = fst end_ /\ snd start_ <= snd end_)) /\
    (Manager.is_visual (Nvim.mode ed) = false ->
     text = "" /\ end_ = start_ /\
     start_ = (fst (Nvim.cursor_pos ed) - 1, snd (Nvim.cursor_pos ed) - 1)) /\
    (Manager.is_visual (Nvim.mode ed) = true -> start_ <> end_).
Proof.
  intros Hrun Hb Hname Hnd ed.
  destruct (sendSelectionChanged_frame bufnr s buffer Hrun Hb Hname Hnd)
    as (text & start_ & end_ & s' & E & _ & Hs & Ho & Hn & Hv).
  exists text, start_, end_, s'.
  split; [exact E|]. split; [exact Hs|]. split; [exact Ho|]. split; [exact Hn|exact Hv].
Qed.

Lemma selection_notification_witness :
  exists text start_ end_ s',
    Manager.sendSelectionChanged (Some 1) connected_manager = (Ok tt, s') /\
    (fst start_ < fst end_ \/ (fst start_ = fst end_ /\ snd start_ <= snd end_)) /\
    (Manager.is_visual (Nvim.mode (nvim (Manager.world connected_manager))) = false ->
     text = "" /\ end_ = start_ /\
     start_ = (fst (Nvim.cursor_pos (nvim (Manager.world connected_manager))) - 1,
               snd (Nvim.cursor_pos (nvim (Manager.world connected_manager))) - 1)).
Proof.
  destruct (selection_notification (Some 1) connected_manager file_buffer)
    as (text & start_ & end_ & s' & E & _ & Hord & Hn & _).
  - vm_compute. reflexivity.
  - vm_compute. reflexivity.
  - discriminate.
  - vm_compute. apply NoDup_singleton.
  - exists text, start_, end_, s'. split; [exact E|]. split; [exact Hord|exact Hn].
Defined.

Lemma join_snoc sep mid (x : string) :
  mid <> [] -> Js.join sep (mid ++ [x]) = Js.join sep mid +:+ sep +:+ x.
Proof.
  induction mid as [|a mid IH]; intros Hne; [done|]. clear Hne.
  destruct mid as [|b mid]; [reflexivity|].
  change ((a :: b :: mid) ++ [x])%list with (a :: ((b :: mid) ++ [x]))%list.
  rewrite join_cons by (by destruct mid). rewrite IH by done.
  rewrite (join_cons sep a (b :: mid)) by done. by rewrite !string_app_assoc.
Qed.

Lemma take_all s : Js.take (String.length s) s = s.
Proof. induction s as [|c s IH]; [done|]. simpl. by rewrite IH. Qed.

Lemma substring_prefix_all s b :
  Z.of_nat (String.length s) <= b -> Js.substring s 0 b = s.
Proof.
  intros H. unfold Js.substring, Js.clamp.
  set (len := Z.of_nat (String.length s)) in *.
  assert (Z.max 0 (Z.min 0 len) = 0) as -> by lia.
  assert (Z.max 0 (Z.min b len) = len) as -> by lia.
  assert (Z.min 0 len = 0) as -> by lia.
  assert (Z.max 0 len = len) as -> by lia.
  rewrite Z.sub_0_r. unfold len. rewrite Nat2Z.id. simpl. apply take_all.
Qed.

Lemma substring_from_start s : Js.substring_from s 0 = s.
Proof. unfold Js.substring_from. apply substring_prefix_all. lia. Qed.

(** X11.  The text of a visual selection over several lines.  Over three or
    more lines it is the tail of the first line, the lines between and the
    head of the last line, joined by line feeds; when the selection starts
    in column 1 and reaches the end of the last line it is the selected
    lines joined by line feeds.  Over exactly two lines the text has an
    empty line between the two parts: a line feed is written both after
    the first line and before the last. *)
Theorem selected_text_lines first mid last startCol endCol :
  Manager.selected_text [first; last] startCol endCol
    = Js.join McpTools.LF
        [Js.substring_from first (startCol - 1); ""; Js.substring last 0 endCol] /\
  (mid <> [] ->
   Manager.selected_text (first :: mid ++ [last]) startCol endCol
     = Js.join McpTools.LF
         (Js.substring_from first (startCol - 1) :: mid
            ++ [Js.substring last 0 endCol])) /\
  (mid <> [] -> Z.of_nat (String.length last) <= endCol ->
   Manager.selected_text (first :: mid ++ [last]) 1 endCol
     = Js.join McpTools.LF (first :: mid ++ [last])).
Proof.
  assert (mid <> [] ->
          forall sc ec, Manager.selected_text (first :: mid ++ [last]) sc ec
            = Js.join McpTools.LF
                (Js.substring_from first (sc - 1) :: mid ++ [Js.substring last 0 ec])) as H.
  { intros Hmid sc ec. unfold Manager.selected_text.
    destruct (mid ++ [last])%list as [|x l] eqn:E; [by destruct mid|].
    rewrite <- E. clear x l E.
    change (List.tl (first :: mid ++ [last]))%list with (mid ++ [last])%list.
    rewrite removelast_last.
    change (first :: mid ++ [last])%list with ((first :: mid) ++ [last])%list.
    rewrite last_last, length_app. simpl List.length.
    replace (1 <? Z.of_nat (S (List.length mid) + 1)) with true
      by (symmetry; apply Z.ltb_lt; lia).
    change ((first :: mid) ++ [last])%list with (first :: (mid ++ [last]))%list.
    rewrite join_cons by (by destruct mid). by rewrite join_snoc. }
  split; [reflexivity|]. split; [intros Hmid; by apply H|].
  intros Hmid Hlen. rewrite H by done. change (1 - 1) with 0.
  by rewrite substring_from_start, substring_prefix_all.
Qed.

Lemma selected_text_lines_witness :
  Manager.selected_text ("alpha" :: ["beta"] ++ ["gamma"]) 1 5
    = Js.join McpTools.LF ("alpha" :: ["beta"] ++ ["gamma"]).
Proof.
  destruct (selected_text_lines "alpha" ["beta"] "gamma" 1 5) as (_ & _ & H).
  apply H; [discriminate|vm_compute; discriminate].
Defined.

(** X12.  Selection tracking of one buffer.  For a buffer that is not tracked,
    a selection update and a request to stop tracking do nothing at all.
    Starting to track it adds it to the tracked buffers, and starting
    again changes nothing, not even the log.  If the buffer is not the one
    the last notification was sent for, stopping after starting gives the
    manager back as it was and writes to no socket, and selection updates
    for the buffer again do nothing. *)
Theorem tracking_round_trip (bufnr : Js.num) (s : Manager.State) :
  Manager.selectionTracking (Manager.this s) !! bufnr = None ->
  (forall n, Manager.lastSelectionBuffer (Manager.this s) = Some n ->
             Js.strict_eq n bufnr = false) ->
  Manager.handleSelectionUpdate bufnr s = (Ok tt, s) /\
  Manager.stopSelectionTracking bufnr s = (Ok tt, s) /\
  exists s1 s2,
    Manager.startSelectionTracking bufnr s = (Ok tt, s1) /\
    Manager.selectionTracking (Manager.this s1)
      = <[bufnr := 1]> (Manager.selectionTracking (Manager.this s)) /\
    Manager.startSelectionTracking bufnr s1 = (Ok tt, s1) /\
    Manager.stopSelectionTracking bufnr s1 = (Ok tt, s2) /\
    Manager.this s2 = Manager.this s /\
    sockets (Manager.world s2) = sockets (Manager.world s) /\
    Manager.handleSelectionUpdate bufnr s2 = (Ok tt, s2).
Proof.
  intros Hnone Hlast. destruct s as [m w]. simpl in *.
  split.
  { unfold Manager.handleSelectionUpdate. unfold_monad. simpl. by rewrite Hnone. }
  split.
  { unfold Manager.stopSelectionTracking. unfold_monad. simpl. by rewrite Hnone. }
  eexists _, _. split.
  { unfold Manager.startSelectionTracking, Manager.log. unfold_monad. simpl.
    rewrite Hnone. simpl. reflexivity. }
  simpl. split; [done|]. split.
  { unfold Manager.startSelectionTracking. unfold_monad. simpl.
    by rewrite lookup_insert_eq. }
  split.
  { unfold Manager.stopSelectionTracking, Manager.log. unfold_monad. simpl.
    rewrite lookup_insert_eq. simpl.
    destruct (Manager.lastSelectionBuffer m) as [n|] eqn:El.
    - rewrite (Hlast n eq_refl). simpl. reflexivity.
    - simpl. reflexivity. }
  assert (
    Manager.set_selectionTracking
      (delete bufnr (<[bufnr:=1]> (Manager.selectionTracking m)))
      (Manager.set_selectionTracking (<[bufnr:=1]> (Manager.selectionTracking m)) m)
    = m) as Hm.
  { destruct m. unfold Manager.set_selectionTracking. simpl in *.
    f_equal. by apply delete_insert_id. }
  destruct (Manager.lastSelectionBuffer m) as [n|] eqn:El; simpl.
  - split; [exact Hm|]. split; [done|].
    unfold Manager.handleSelectionUpdate. unfold_monad. simpl.
    rewrite lookup_delete_eq. done.
  - split; [exact Hm|]. split; [done|].
    unfold Manager.handleSelectionUpdate. unfold_monad. simpl.
    rewrite lookup_delete_eq. done.
Qed.

Lemma tracking_round_trip_witness :
  Manager.handleSelectionUpdate (Some 1) connected_manager = (Ok tt, connected_manager) /\
  Manager.stopSelectionTracking (Some 1) connected_manager = (Ok tt, connected_manager).
Proof.
  destruct (tracking_round_trip (Some 1) connected_manager) as (H1 & H2 & _).
  - vm_compute. reflexivity.
  - intros n. vm_compute. discriminate.
  - split; [exact H1|exact H2].
Defined.

(** ** The commands of the plugin *)

Lemma parseInt_10_digits ds n z :
  all_digits ds = true -> ds <> "" ->
  (forall seen acc rest,
     Js.parse_digits 10 seen acc (ds +:+ rest)
     = Js.parse_digits 10 true (acc * 10 ^ Z.of_nat n + z) rest) ->
  Commands.parseInt_10 ds = Some z /\ Commands.parseInt_10 ("-" +:+ ds) = Some (- z).
Proof.
  intros Hall Hne Hparse.
  destruct ds as [|c ds]; [done|]. simpl in Hall.
  apply andb_true_iff in Hall as [Hc Hall].
  destruct (digit_not_special c Hc) as (Hsp & Hm & Hp & _ & _ & _).
  assert (Js.strip_sign (String c ds) = (1, String c ds)) as Hsign.
  { unfold Js.strip_sign. destruct c as [[] [] [] [] [] [] [] []]; done. }
  pose proof (Hparse false 0 "") as Hp0.
  rewrite string_app_nil_r in Hp0. simpl Js.parse_digits at 2 in Hp0.
  split.
  - assert (Js.trim_start (String c ds) = String c ds) as Htrim
      by (simpl; by rewrite Hsp).
    unfold Commands.parseInt_10. rewrite Htrim, Hsign. cbv beta iota.
    rewrite Hp0. first [done | f_equal; lia].
  - unfold Commands.parseInt_10. rewrite append_cons, append_nil.
    change (Js.trim_start (String "-" (String c ds))) with (String "-" (String c ds)).
    change (Js.strip_sign (String "-" (String c ds))) with (-1, String c ds).
    cbv beta iota. rewrite Hp0. first [done | f_equal; lia].
Qed.

Lemma parseInt_10_pretty (z : Z) : Commands.parseInt_10 (pretty z) = Some z.
Proof.
  destruct z as [|p|p].
  - reflexivity.
  - change (pretty (Z.pos p)) with (pretty (N.pos p)).
    unfold pretty, pretty_N. rewrite decide_False by done.
    destruct (pretty_N_go_digits (N.pos p) "" ltac:(lia))
      as (ds & n & E & Hall & Hne & Hparse).
    rewrite E, string_app_nil_r.
    by destruct (parseInt_10_digits ds n (Z.of_N (N.pos p)) Hall Hne Hparse) as [-> _].
  - change (pretty (Z.neg p)) with ("-" +:+ pretty (N.pos p)).
    unfold pretty, pretty_N. rewrite decide_False by done.
    destruct (pretty_N_go_digits (N.pos p) "" ltac:(lia))
      as (ds & n & E & Hall & Hne & Hparse).
    rewrite E, string_app_nil_r.
    by destruct (parseInt_10_digits ds n (Z.of_N (N.pos p)) Hall Hne Hparse) as [_ ->].
Qed.

Lemma pretty_Z_nonempty (z : Z) : pretty z <> "".
Proof.
  intros H. pose proof (parseInt_10_pretty z) as Hp. rewrite H in Hp. done.
Qed.

Lemma first_arg_pretty (z : Z) rest :
  Commands.first_arg (pretty z :: rest) = Some (pretty z).
Proof.
  unfold Commands.first_arg.
  destruct (String.eqb_spec (pretty z) ""); [by destruct (pretty_Z_nonempty z)|done].
Qed.

Lemma Start_run randomPort rnd args (p : Plugin.State) :
  Plugin.running p = None ->
  let port := chosen_port args randomPort in
  let path := WsServer.lockFilePath (homedir (proc (Plugin.world p))) port in
  WsServer.valid_port port = true ->
  exists p' w',
    Commands.ClaudeMcpServerStart randomPort rnd args p = (Ok tt, p') /\
    p' = {| Plugin.serverManager :=
              Some (Manager.set_wss
                      (Some {| WsServer.wss_port := port; WsServer.wss_path := "/";
                               WsServer.authToken := WsServer.randomUUID rnd;
                               WsServer.wss_lockFilePath := path |})
                      (Manager.create port));
            Plugin.world := w' |} /\
    files w' =
      <[path := {| lf_pid := process_pid (proc (Plugin.world p));
                   lf_workspaceFolders := [Nvim.cwd (nvim (Plugin.world p))];
                   lf_ideName := "neovim"; lf_transport := ws;
                   lf_authToken := WsServer.randomUUID rnd |}]>
        (files (Plugin.world p)) /\
    Nvim.ide_port (nvim w') = port /\
    resolve_calls w' = resolve_calls (Plugin.world p) /\
    sockets w' = sockets (Plugin.world p).
Proof.
  intros Hrun port path Hport.
  set (s0 := {| Manager.this := Manager.create port; Manager.world := Plugin.world p |}).
  destruct (start_spec rnd s0 eq_refl Hport) as (s' & E & Hthis & Hfiles & _ & Hp).
  destruct (start_frame rnd s0 eq_refl) as (r'' & s'' & E' & _ & Hsock & _ & Hres & _).
  rewrite E in E'. injection E' as <- <-.
  cbv zeta in Hthis, Hfiles. simpl in Hthis, Hfiles, Hp, Hsock, Hres.
  exists {| Plugin.serverManager := Some (Manager.this s'); Plugin.world := Manager.world s' |},
         (Manager.world s').
  split.
  { unfold Commands.ClaudeMcpServerStart, Commands.set_serverManager, Plugin.call.
    unfold_monad. rewrite Hrun. simpl.
    change (Commands.new_manager _ _) with (Manager.create port).
    fold s0. rewrite E. reflexivity. }
  split; [by rewrite Hthis|]. by repeat split.
Qed.

Lemma Start_fails randomPort rnd args (p : Plugin.State) :
  Plugin.running p = None ->
  let port := chosen_port args randomPort in
  let path := WsServer.lockFilePath (homedir (proc (Plugin.world p))) port in
  WsServer.valid_port port = false ->
  exists w',
    Commands.ClaudeMcpServerStart randomPort rnd args p
      = Plugin.log Nvim.ERROR
          ("Failed to start Claude MCP Server: " +:+ WsServer.bad_port port)
          {| Plugin.serverManager := Some (Manager.create port); Plugin.world := w' |} /\
    files w' =
      <[path := {| lf_pid := process_pid (proc (Plugin.world p));
                   lf_workspaceFolders := [Nvim.cwd (nvim (Plugin.world p))];
                   lf_ideName := "neovim"; lf_transport := ws;
                   lf_authToken := WsServer.randomUUID rnd |}]>
        (files (Plugin.world p)) /\
    nvim w' = nvim (Plugin.world p) /\
    proc w' = proc (Plugin.world p) /\
    sockets w' = sockets (Plugin.world p) /\
    resolve_calls w' = resolve_calls (Plugin.world p).
Proof.
  intros Hrun port path Hport.
  set (s0 := {| Manager.this := Manager.create port; Manager.world := Plugin.world p |}).
  destruct (start_bad_port rnd s0 eq_refl Hport)
    as (w' & E & Hfiles & Hnvim & Hproc & Hsock & _ & Hres).
  cbv zeta in Hfiles. simpl in Hfiles, Hnvim, Hproc, Hsock, Hres, E.
  exists w'. split.
  { unfold Commands.ClaudeMcpServerStart, Commands.set_serverManager, Plugin.call.
    unfold try_catch, bind at 1, gets at 1. rewrite Hrun.
    unfold bind at 1, modify at 1. cbn [Plugin.world].
    change (Commands.new_manager _ _) with (Manager.create port).
    fold s0. rewrite E. reflexivity. }
  by repeat split.
Qed.

(** X13.  :ClaudeMcpServerStart.  While a server runs the command only
    writes the warning "Claude MCP Server is already running".  Otherwise
    it replaces the manager by a new one, without clients and without the
    handlers of earlier connections, for the chosen port.  When that is a
    port a server can listen on (0 to 65535) the manager is started: the
    lock file of the port holds the new token and g:claude_ide_port is the
    port.  For any other port the command still returns normally: it logs
    the error "Failed to start Claude MCP Server: ...", the new manager is
    installed but not running, g:claude_ide_port is as before, and the lock
    file of the port has been written all the same.  The chosen port is
    the number given as the first argument; it is the random port when
    there is no argument, when the argument does not start with a decimal
    number, and when the number given is 0.  Numbers are integers that a
    JavaScript number holds exactly (of absolute value below 2^53). *)
Theorem ClaudeMcpServerStart_port randomPort rnd (p : Plugin.State) :
  (forall mgr args,
     Plugin.running p = Some mgr ->
     Commands.ClaudeMcpServerStart randomPort rnd args p
       = Plugin.log Nvim.WARN "Claude MCP Server is already running" p) /\
  (Plugin.running p = None ->
   forall args,
     WsServer.valid_port (chosen_port args randomPort) = true ->
     exists p' manager data,
       Commands.ClaudeMcpServerStart randomPort rnd args p = (Ok tt, p') /\
       Plugin.serverManager p' = Some manager /\
       Manager.isRunning manager = true /\
       Manager.getPort manager = chosen_port args randomPort /\
       Manager.clientServers manager = [] /\
       Manager.changeHandlers manager = [] /\
       files (Plugin.world p')
         !! WsServer.lockFilePath (homedir (proc (Plugin.world p)))
              (chosen_port args randomPort) = Some data /\
       lf_authToken data = WsServer.randomUUID rnd /\
       Nvim.ide_port (nvim (Plugin.world p')) = chosen_port args randomPort) /\
  (Plugin.running p = None ->
   forall args,
     WsServer.valid_port (chosen_port args randomPort) = false ->
     safe_integer (chosen_port args randomPort) ->
     exists p' manager data message,
       Commands.ClaudeMcpServerStart randomPort rnd args p = (Ok tt, p') /\
       Plugin.serverManager p' = Some manager /\
       Manager.isRunning manager = false /\
       Manager.getPort manager = chosen_port args randomPort /\
       Nvim.ide_port (nvim (Plugin.world p')) = Nvim.ide_port (nvim (Plugin.world p)) /\
       files (Plugin.world p')
         !! WsServer.lockFilePath (homedir (proc (Plugin.world p)))
              (chosen_port args randomPort) = Some data /\
       lf_authToken data = WsServer.randomUUID rnd /\
       nvim (Plugin.world p')
         = write_line (env_log_level (proc (Plugin.world p))) "Command" Nvim.ERROR
             ("Failed to start Claude MCP Server: " +:+ message) (nvim (Plugin.world p))) /\
  chosen_port [] randomPort = randomPort /\
  (forall n rest, n <> 0 -> safe_integer n ->
     chosen_port (pretty n :: rest) randomPort = n) /\
  (forall a rest,
     Commands.parseInt_10 a = None \/ Commands.parseInt_10 a = Some 0 ->
     chosen_port (a :: rest) randomPort = randomPort).
Proof.
  split.
  { intros mgr args Hrun. unfold Commands.ClaudeMcpServerStart. unfold_monad.
    rewrite Hrun. unfold Plugin.log, modify. reflexivity. }
  split.
  { intros Hrun args Hport.
    destruct (Start_run randomPort rnd args p Hrun Hport)
      as (p' & w' & E & -> & Hf & Hp & _).
    eexists _, _, _. split; [exact E|]. simpl. split; [reflexivity|].
    split; [done|]. split; [done|]. split; [done|]. split; [done|].
    split; [rewrite Hf; apply lookup_insert_eq|]. by split. }
  split.
  { intros Hrun args Hport _.
    destruct (Start_fails randomPort rnd args p Hrun Hport)
      as (w' & E & Hf & Hnvim & Hproc & _).
    eexists _, _, _, _. split; [rewrite E; reflexivity|].
    cbn [Plugin.serverManager Plugin.world].
    split; [reflexivity|]. split; [done|]. split; [done|].
    unfold logger_write. cbn [nvim files with_nvim].
    rewrite Hnvim, Hproc.
    split; [unfold write_line; by destruct (_ <? _)|].
    split; [rewrite Hf; apply lookup_insert_eq|]. split; [done|]. reflexivity. }
  split; [reflexivity|]. split.
  - intros n rest Hn _. unfold chosen_port. rewrite first_arg_pretty. simpl.
    rewrite parseInt_10_pretty. simpl. by destruct (Z.eqb_spec n 0).
  - intros a rest Ha. unfold chosen_port, Commands.first_arg.
    destruct (String.eqb a ""); [done|]. simpl. by destruct Ha as [-> | ->].
Qed.

Lemma ClaudeMcpServerStart_port_witness :
  (exists p' manager,
     Commands.ClaudeMcpServerStart 23456 0 ["8123"]
       {| Plugin.serverManager := None; Plugin.world := sample_world [file_buffer] |}
       = (Ok tt, p') /\
     Plugin.serverManager p' = Some manager /\
     Manager.isRunning manager = true /\
     Manager.getPort manager = 8123) /\
  (exists p' manager,
     Commands.ClaudeMcpServerStart 23456 0 ["70000"]
       {| Plugin.serverManager := None; Plugin.world := sample_world [file_buffer] |}
       = (Ok tt, p') /\
     Plugin.serverManager p' = Some manager /\
     Manager.isRunning manager = false).
Proof.
  destruct (ClaudeMcpServerStart_port 23456 0
              {| Plugin.serverManager := None; Plugin.world := sample_world [file_buffer] |})
    as (_ & Hok & Hbad & _).
  split.
  - destruct (Hok eq_refl ["8123"]) as (p' & manager & data & E & Hm & Hr & Hp & _).
    { vm_compute. reflexivity. }
    exists p', manager. split; [exact E|]. split; [exact Hm|]. split; [exact Hr|].
    rewrite Hp. reflexivity.
  - destruct (Hbad eq_refl ["70000"]) as (p' & manager & data & message & E & Hm & Hr & _).
    { vm_compute. reflexivity. }
    { unfold safe_integer. vm_compute. split; reflexivity. }
    exists p', manager. split; [exact E|]. split; [exact Hm|exact Hr].
Defined.

Lemma running_manager (p : Plugin.State) mgr :
  Plugin.running p = Some mgr ->
  Plugin.serverManager p = Some mgr /\ Manager.isRunning mgr = true.
Proof.
  unfold Plugin.running. destruct (Plugin.serverManager p) as [m|]; [|done].
  destruct (Manager.isRunning m) eqn:E; [|done]. by intros [= <-].
Qed.

Lemma startSelectionTracking_run bufnr (s : Manager.State) :
  exists tracking w',
    Manager.startSelectionTracking bufnr s =
      (Ok tt, {| Manager.this := Manager.set_selectionTracking tracking (Manager.this s);
                 Manager.world := w' |}) /\
    is_Some (tracking !! bufnr) /\
    sockets w' = sockets (Manager.world s) /\
    resolve_calls w' = resolve_calls (Manager.world s) /\
    Nvim.buffers (nvim w') = Nvim.buffers (nvim (Manager.world s)) /\
    Nvim.current (nvim w') = Nvim.current (nvim (Manager.world s)) /\
    Nvim.mode (nvim w') = Nvim.mode (nvim (Manager.world s)) /\
    Nvim.visual_pos (nvim w') = Nvim.visual_pos (nvim (Manager.world s)) /\
    Nvim.cursor_pos (nvim w') = Nvim.cursor_pos (nvim (Manager.world s)).
Proof.
  unfold Manager.startSelectionTracking, Manager.log. unfold_monad.
  destruct (Manager.selectionTracking (Manager.this s) !! bufnr) as [v|] eqn:E.
  - rewrite bool_decide_eq_true_2 by eauto.
    exists (Manager.selectionTracking (Manager.this s)), (Manager.world s).
    split; [by destruct s as [[] ?]|]. split; [exists v; exact E|]. by repeat split.
  - rewrite bool_decide_eq_false_2 by (by intros [? ?]).
    eexists _, _. split; [reflexivity|]. simpl.
    split; [rewrite lookup_insert_eq; eauto|].
    unfold write_line. destruct (_ <? _); by repeat split.
Qed.

Lemma buffer_argument_current args (p : Plugin.State) :
  args = [] \/ args = [pretty (Nvim.current (nvim (Plugin.world p)))] ->
  Commands.buffer_argument args p = (Ok (Some (Nvim.current (nvim (Plugin.world p)))), p).
Proof.
  intros [-> | ->]; unfold Commands.buffer_argument.
  - reflexivity.
  - rewrite first_arg_pretty. unfold ret. by rewrite parseInt_10_pretty.
Qed.

Lemma CursorMoved_tracked (p : Plugin.State) mgr :
  Plugin.running p = Some mgr ->
  is_Some (Manager.selectionTracking mgr
             !! (Some (Nvim.current (nvim (Plugin.world p))) : Js.num)) ->
  Commands.CursorMoved p
  = Plugin.call mgr
      (Manager.sendSelectionChanged (Some (Nvim.current (nvim (Plugin.world p))))) p.
Proof.
  intros Hrun Htr. unfold Commands.CursorMoved, Manager.handleSelectionUpdate.
  unfold_monad. rewrite Hrun. unfold Plugin.call. simpl.
  by rewrite bool_decide_eq_true_2 by done.
Qed.

(** X14.  Cursor movements and selection tracking, on a running server whose
    client sockets are pairwise distinct, for a current buffer that has a
    name.  While the buffer is not tracked a CursorMoved event (and
    likewise CursorMovedI and TextYankPost) changes nothing.  After
    :ClaudeStartSelectionTracking, given no argument or the number of the
    current buffer, which itself writes to no socket, the event sends one
    selection_changed frame for the buffer's file to every open client
    socket and to no other socket. *)
Theorem cursor_moved (p : Plugin.State) mgr buffer :
  Plugin.running p = Some mgr ->
  let ed := nvim (Plugin.world p) in
  Nvim.find_buffer (Some (Nvim.current ed)) (Nvim.buffers ed) = Some buffer ->
  Nvim.buf_name buffer <> "" ->
  NoDup (Manager.clientServers mgr).*1 ->
  (Manager.selectionTracking mgr !! Some (Nvim.current ed) = None ->
   Commands.CursorMoved p = (Ok tt, p)) /\
  forall args,
    args = [] \/ args = [pretty (Nvim.current ed)] ->
    exists p1 p2 frame,
      Commands.ClaudeStartSelectionTracking args p = (Ok tt, p1) /\
      sockets (Plugin.world p1) = sockets (Plugin.world p) /\
      Commands.CursorMoved p1 = (Ok tt, p2) /\
      selection_of (Nvim.buf_name buffer) (negb (Manager.is_visual (Nvim.mode ed))) frame /\
      forall socket sock,
        sockets (Plugin.world p) !! socket = Some sock ->
        sockets (Plugin.world p2) !! socket =
          Some (if decide (socket ∈ (Manager.clientServers mgr).*1)
                then Manager.send_if_open frame sock else sock).
Proof.
  intros Hrun ed Hb Hname Hnd.
  destruct (running_manager p mgr Hrun) as [Hm Hr].
  split.
  { intros Hnone. unfold Commands.CursorMoved, Plugin.call, Manager.handleSelectionUpdate.
    unfold_monad. rewrite Hrun. simpl. fold ed.
    assert (Manager.selectionTracking mgr !! (Some (Nvim.current ed) : Js.num) = None)
      as -> by exact Hnone. simpl.
    destruct p as [sm w]. simpl in *. by subst sm. }
  intros args Hargs.
  destruct (startSelectionTracking_run (Some (Nvim.current ed))
              {| Manager.this := mgr; Manager.world := Plugin.world p |})
    as (tracking & w1 & E1 & Htr & Hs1 & _ & Hbuf & Hcur & Hmode & Hvp & Hcp).
  simpl in *.
  set (mgr1 := Manager.set_selectionTracking tracking mgr) in *.
  set (p1 := {| Plugin.serverManager := Some mgr1; Plugin.world := w1 |}).
  destruct (sendSelectionChanged_frame (Some (Nvim.current ed))
              {| Manager.this := mgr1; Manager.world := w1 |} buffer)
    as (text & start_ & end_ & s2 & E2 & _ & Hsock & Hord & _).
  { done. }
  { simpl. by rewrite Hbuf. }
  { done. }
  { done. }
  simpl in Hsock. rewrite Hmode in Hsock. fold ed in Hsock.
  exists p1, {| Plugin.serverManager := Some (Manager.this s2);
                Plugin.world := Manager.world s2 |}.
  eexists. split.
  { unfold Commands.ClaudeStartSelectionTracking, Plugin.call. unfold_monad.
    rewrite Hrun. rewrite (buffer_argument_current args p Hargs). fold ed.
    rewrite E1. reflexivity. }
  split; [done|]. split.
  { assert (Plugin.running p1 = Some mgr1) as Hrun1.
    { unfold Plugin.running, p1. cbn [Plugin.serverManager].
      replace (Manager.isRunning mgr1) with true by (symmetry; exact Hr). done. }
    rewrite (CursorMoved_tracked p1 mgr1 Hrun1).
    - unfold Plugin.call, p1. cbn [Plugin.world]. rewrite Hcur. fold ed.
      rewrite E2. reflexivity.
    - unfold p1. cbn [Plugin.world]. rewrite Hcur. exact Htr. }
  split.
  { eexists text, start_, end_. split; [reflexivity|done]. }
  intros socket sock Hs. simpl. apply Hsock. by rewrite Hs1.
Qed.

Lemma cursor_moved_witness :
  Commands.CursorMoved connected_plugin = (Ok tt, connected_plugin) /\
  exists p1 p2 frame,
    Commands.ClaudeStartSelectionTracking [] connected_plugin = (Ok tt, p1) /\
    Commands.CursorMoved p1 = (Ok tt, p2) /\
    selection_of "/a.txt" true frame.
Proof.
  destruct (cursor_moved connected_plugin (Manager.this connected_manager) file_buffer)
    as (H1 & H2).
  - vm_compute. reflexivity.
  - vm_compute. reflexivity.
  - discriminate.
  - vm_compute. apply NoDup_singleton.
  - split; [apply H1; vm_compute; reflexivity|].
    destruct (H2 [] (or_introl eq_refl)) as (p1 & p2 & frame & E1 & _ & E2 & Hf & _).
    exists p1, p2, frame. split; [exact E1|]. split; [exact E2|exact Hf].
Defined.

(** X15.  :ClaudeMention on a running server whose client sockets are pairwise
    distinct.  For a current buffer without a name its only effect is the
    warning "Buffer has no file path"; when the line of one of the marks
    '< and '> is 0 its only effect is the warning "No visual selection".
    Otherwise it returns normally and every open client socket, and no
    other, receives one at_mentioned frame for the buffer's name with the
    zero-based lines of the two marks. *)
Theorem ClaudeMention_sends vim_getpos (p : Plugin.State) mgr b :
  Plugin.running p = Some mgr ->
  let ed := nvim (Plugin.world p) in
  let first := Commands.lnum (vim_getpos ed "'<") in
  let last := Commands.lnum (vim_getpos ed "'>") in
  Nvim.valid_buffer (Nvim.current ed) ed = Some b ->
  NoDup (Manager.clientServers mgr).*1 ->
  (Nvim.buf_name b = "" ->
   Commands.ClaudeMention vim_getpos p
     = Plugin.log Nvim.WARN "Buffer has no file path" p) /\
  (Nvim.buf_name b <> "" -> first = 0 \/ last = 0 ->
   Commands.ClaudeMention vim_getpos p
     = Plugin.log Nvim.WARN "No visual selection" p) /\
  (Nvim.buf_name b <> "" -> first <> 0 -> last <> 0 ->
   exists p',
     Commands.ClaudeMention vim_getpos p = (Ok tt, p') /\
     Plugin.serverManager p' = Plugin.serverManager p /\
     resolve_calls (Plugin.world p') = resolve_calls (Plugin.world p) /\
     forall socket sock,
       sockets (Plugin.world p) !! socket = Some sock ->
       sockets (Plugin.world p') !! socket =
         Some (if decide (socket ∈ (Manager.clientServers mgr).*1)
               then Manager.send_if_open
                      (Net.AtMentioned (Nvim.buf_name b) (first - 1) (last - 1)) sock
               else sock)).
Proof.
  intros Hrun ed first last Hb Hnd.
  destruct (running_manager p mgr Hrun) as [Hm Hr].
  assert (Commands.current_buffer_name p = (Ok (Nvim.buf_name b), p)) as Hcur.
  { unfold Commands.current_buffer_name. fold ed. by rewrite Hb. }
  split; [|split].
  - intros Hname. unfold Commands.ClaudeMention.
    unfold try_catch, bind at 1, gets at 1. rewrite Hrun.
    unfold bind at 1. rewrite Hcur, Hname. reflexivity.
  - intros Hname Hzero. unfold Commands.ClaudeMention.
    unfold try_catch, bind at 1, gets at 1. rewrite Hrun.
    unfold bind at 1. rewrite Hcur.
    destruct (String.eqb_spec (Nvim.buf_name b) ""); [done|].
    unfold bind, gets. change (nvim (Plugin.world p)) with ed.
    change (Commands.lnum (vim_getpos ed "'<")) with first.
    change (Commands.lnum (vim_getpos ed "'>")) with last.
    assert ((first =? 0) || (last =? 0) = true) as ->; [|reflexivity].
    apply orb_true_iff. destruct Hzero as [-> | ->]; auto.
  - intros Hname Hf Hl. unfold Commands.ClaudeMention.
    unfold try_catch, bind at 1, gets at 1. rewrite Hrun.
    unfold bind at 1. rewrite Hcur.
    destruct (String.eqb_spec (Nvim.buf_name b) ""); [done|].
    unfold bind at 1, gets at 1. unfold bind at 1, gets at 1.
    change (nvim (Plugin.world p)) with ed.
    change (Commands.lnum (vim_getpos ed "'<")) with first.
    change (Commands.lnum (vim_getpos ed "'>")) with last.
    assert ((first =? 0) || (last =? 0) = false) as ->.
    { apply orb_false_iff. split; by apply Z.eqb_neq. }
    unfold Plugin.call, Manager.sendAtMention, Manager.log, Plugin.log. unfold_monad.
    simpl. rewrite Hr. simpl. eexists. split; [reflexivity|]. simpl.
    split; [by rewrite Hm|]. split; [done|].
    intros socket sock Hs. rewrite broadcast_lookup by done. rewrite Hs. by case_decide.
Qed.

Lemma ClaudeMention_sends_witness :
  exists p',
    Commands.ClaudeMention sample_getpos connected_plugin = (Ok tt, p') /\
    sockets (Plugin.world p') !! 0%nat =
      Some {| Net.readyState := Net.OPEN; Net.sent := [Net.AtMentioned "/a.txt" 2 4] |}.
Proof.
  destruct (ClaudeMention_sends sample_getpos connected_plugin
              (Manager.this connected_manager) file_buffer)
    as (_ & _ & H).
  - vm_compute. reflexivity.
  - vm_compute. reflexivity.
  - vm_compute. apply NoDup_singleton.
  - destruct H as (p' & E & _ & _ & Hs).
    + discriminate.
    + vm_compute. discriminate.
    + vm_compute. discriminate.
    + exists p'. split; [exact E|].
      rewrite (Hs 0%nat {| Net.readyState := Net.OPEN; Net.sent := [] |}).
      * vm_compute. reflexivity.
      * vm_compute. reflexivity.
Defined.

(** X16.  Leaving the editor.  On a running server the VimLeavePre autocmd
    returns normally: the lock file is gone, every client socket is
    closed, no client is registered, g:claude_ide_port is 0 and the server
    no longer runs.  Unlike :ClaudeMcpServerStop it keeps the manager
    object, with its handlers; no [resolve] function is called.  A second
    VimLeavePre does nothing. *)
Theorem VimLeavePre_cleans (p : Plugin.State) mgr server :
  Plugin.running p = Some mgr ->
  Manager.wss mgr = Some server ->
  exists p' mgr',
    Commands.VimLeavePre p = (Ok tt, p') /\
    Plugin.serverManager p' = Some mgr' /\
    Plugin.running p' = None /\
    files (Plugin.world p') !! WsServer.wss_lockFilePath server = None /\
    (forall socket sock,
       socket ∈ (Manager.clientServers mgr).*1 ->
       sockets (Plugin.world p') !! socket = Some sock ->
       Net.readyState sock = Net.CLOSED) /\
    Manager.getClientCount mgr' = 0%nat /\
    Nvim.ide_port (nvim (Plugin.world p')) = 0 /\
    Manager.changeHandlers mgr' = Manager.changeHandlers mgr /\
    resolve_calls (Plugin.world p') = resolve_calls (Plugin.world p) /\
    Commands.VimLeavePre p' = (Ok tt, p').
Proof.
  intros Hrun Hwss.
  destruct (stop_spec {| Manager.this := mgr; Manager.world := Plugin.world p |} server Hwss)
    as (s' & blocks & E & _ & _ & Hthis & Hsock & _ & Hres & Hfiles & Hport).
  simpl in *.
  exists {| Plugin.serverManager := Some (Manager.this s'); Plugin.world := Manager.world s' |},
         (Manager.this s').
  split.
  { unfold Commands.VimLeavePre, Plugin.call. unfold_monad. rewrite Hrun, E. reflexivity. }
  simpl. split; [done|].
  assert (Plugin.running
            {| Plugin.serverManager := Some (Manager.this s');
               Plugin.world := Manager.world s' |} = None) as Hstopped.
  { unfold Plugin.running. simpl. by rewrite Hthis. }
  split; [exact Hstopped|].
  split; [rewrite Hfiles; apply lookup_delete_eq|].
  split.
  { intros socket sock Hin Hs. rewrite Hsock in Hs.
    apply (fold_shut_closed _ _ _ _ Hs). by left. }
  split; [by rewrite Hthis|]. split; [done|]. split; [by rewrite Hthis|].
  split; [done|].
  unfold Commands.VimLeavePre. unfold_monad. by rewrite Hstopped.
Qed.

Lemma VimLeavePre_cleans_witness :
  exists p' mgr',
    Commands.VimLeavePre connected_plugin = (Ok tt, p') /\
    Plugin.serverManager p' = Some mgr' /\
    Plugin.running p' = None /\
    files (Plugin.world p') !! WsServer.wss_lockFilePath sample_wss = None.
Proof.
  destruct (VimLeavePre_cleans connected_plugin (Manager.this connected_manager) sample_wss)
    as (p' & mgr' & E & Hm & Hr & Hf & _).
  - vm_compute. reflexivity.
  - vm_compute. reflexivity.
  - exists p', mgr'. split; [exact E|]. split; [exact Hm|]. split; [exact Hr|exact Hf].
Defined.

(** ** The tools openDiff, closeAllDiffTabs and getDiagnostics *)

Lemma same_table_refl s : same_table s s.
Proof. by repeat split. Qed.

Lemma same_table_trans s1 s2 s3 :
  same_table s1 s2 -> same_table s2 s3 -> same_table s1 s3.
Proof. intros (?&?&?) (?&?&?). repeat split; congruence. Qed.

Lemma keeps_ret {A} (a : A) : keeps_table (ret a).
Proof. intros s. apply same_table_refl. Qed.

Lemma keeps_gets {A} (f : McpTools.State -> A) : keeps_table (gets f).
Proof. intros s. apply same_table_refl. Qed.

Lemma keeps_bind {A B} (m : M McpTools.State A) (k : A -> M McpTools.State B) :
  keeps_table m -> (forall a, keeps_table (k a)) -> keeps_table (bind m k).
Proof.
  intros Hm Hk s. unfold bind. specialize (Hm s).
  destruct (m s) as [[a|e] s1]; simpl in *; [|done].
  eapply same_table_trans; [exact Hm|apply Hk].
Qed.

Lemma keeps_try_catch {A} (m : M McpTools.State A) h :
  keeps_table m -> (forall e, keeps_table (h e)) -> keeps_table (try_catch m h).
Proof.
  intros Hm Hh s. unfold try_catch. specialize (Hm s).
  destruct (m s) as [[a|e] s1]; simpl in *; [done|].
  eapply same_table_trans; [exact Hm|apply Hh].
Qed.

Lemma keeps_request {A} (call : Nvim.Editor -> Res A * Nvim.Editor) :
  keeps_table (Tools.request call).
Proof.
  intros s. unfold Tools.request. by destruct (call _) as [r ed].
Qed.

Lemma keeps_nvim_command vim_command cmd :
  keeps_table (McpTools.nvim_command vim_command cmd).
Proof.
  intros s. unfold McpTools.nvim_command. by destruct (vim_command _ _) as [r ed].
Qed.

Lemma keeps_editor (f : Nvim.Editor -> Nvim.Editor) :
  keeps_table (modify (McpTools.with_world (with_nvim f))).
Proof. intros s. by repeat split. Qed.

Lemma keeps_log prefix level message :
  keeps_table (modify (McpTools.with_world (logger_write prefix level message))).
Proof. intros s. by repeat split. Qed.

Lemma registers_bind {A} key entry (m : M McpTools.State A) k :
  keeps_table m -> (forall a, registers key entry (k a)) ->
  registers key entry (bind m k).
Proof.
  intros Hm Hk s. unfold bind. destruct (Hm s) as (Hd & Hn & Hr).
  destruct (m s) as [[a|e] s1]; simpl in *; [|by repeat split].
  destruct (Hk a s1) as (Hr' & H). split; [congruence|].
  destruct (fst (k a s1)) as [p|e].
  - destruct H as (Hp & H1 & H2). split; [congruence|]. split; [done|].
    by rewrite H2, Hd.
  - destruct H as (H1 & H2). split; congruence.
Qed.

Lemma registers_new key path bufnr :
  registers key
    (fun p => {| McpTools.resolve := p; McpTools.filePath := path;
                 McpTools.bufnr := bufnr |})
    (McpTools.new_pending_diff key path bufnr).
Proof. intros s. by repeat split. Qed.

Section OpenDiff.

Variable vim_command : string -> Nvim.Editor -> Res unit * Nvim.Editor.
Variable vim_exists : Nvim.Editor -> string -> Z.
Variable nvim_create_buf : Nvim.Editor -> Res Z * Nvim.Editor.
Variable buffer_setOption :
  Z -> string -> Tools.OptionValue -> Nvim.Editor -> Res unit * Nvim.Editor.
Variable buffer_setLines : Z -> list string -> Nvim.Editor -> Res unit * Nvim.Editor.
Variable buffer_set_name : Z -> string -> Nvim.Editor -> Nvim.Editor.
Variable extname : string -> string.

Lemma openDiff_spec old_file_path new_file_path new_file_contents tab_name
    (s : McpTools.State) :
  let r := (Tools.openDiff vim_command vim_exists nvim_create_buf buffer_setOption
     buffer_setLines buffer_set_name extname
     old_file_path new_file_path new_file_contents tab_name s) in
  resolve_calls (McpTools.world (snd r)) = resolve_calls (McpTools.world s) /\
  match fst r with
  | Ok p =>
      p = next_promise (McpTools.world s) /\
      next_promise (McpTools.world (snd r)) = S p /\
      exists bufnr ed,
        nvim_create_buf (nvim (McpTools.world s)) = (Ok bufnr, ed) /\
        McpTools.diffPromises (snd r) =
          <[McpTools.changeId_of (Nvim.pid ed) (Some bufnr) :=
              {| McpTools.resolve := p; McpTools.filePath := new_file_path;
                 McpTools.bufnr := bufnr |}]> (McpTools.diffPromises s)
  | Throw _ =>
      McpTools.diffPromises (snd r) = McpTools.diffPromises s /\
      next_promise (McpTools.world (snd r)) = next_promise (McpTools.world s)
  end.
Proof.
  cbv zeta.
  destruct ((Tools.openDiff vim_command vim_exists nvim_create_buf buffer_setOption
     buffer_setLines buffer_set_name extname
     old_file_path new_file_path new_file_contents tab_name s))
    as [r s'] eqn:E.
  simpl. unfold Tools.openDiff in E.
  unfold bind at 1, Tools.request at 1 in E.
  destruct (nvim_create_buf (nvim (McpTools.world s))) as [[bufnr|e] ed] eqn:Ec.
  2: { injection E as <- <-. simpl. by repeat split. }
  unfold bind at 1, gets at 1 in E.
  set (s1 := McpTools.with_world (with_nvim (fun _ => ed)) s) in E.
  change (Nvim.pid (nvim (McpTools.world s1))) with (Nvim.pid ed) in E.
  match type of E with
  | ?m s1 = _ =>
      assert (registers (McpTools.changeId_of (Nvim.pid ed) (Some bufnr))
                (fun p => {| McpTools.resolve := p; McpTools.filePath := new_file_path;
                             McpTools.bufnr := bufnr |}) m) as Hreg
  end.
  { apply registers_bind; [apply keeps_gets|]. intros activate.
    apply registers_bind.
    { destruct activate; [apply keeps_nvim_command|apply keeps_ret]. }
    intros _. apply registers_bind; [apply keeps_gets|]. intros buffer.
    apply registers_bind; [apply keeps_request|]. intros _.
    apply registers_bind; [apply keeps_request|]. intros _.
    apply registers_bind; [apply keeps_request|]. intros _.
    apply registers_bind; [apply keeps_gets|]. intros buffers.
    apply registers_bind; [apply keeps_editor|]. intros _.
    apply registers_bind.
    { destruct (String.eqb _ ""); [apply keeps_ret|apply keeps_request]. }
    intros _. apply registers_bind; [apply keeps_nvim_command|]. intros _.
    apply registers_bind; [apply keeps_gets|]. intros show.
    apply registers_bind.
    { destruct show; [apply keeps_nvim_command|apply keeps_ret]. }
    intros _. apply registers_new. }
  specialize (Hreg s1). rewrite E in Hreg. simpl in Hreg.
  destruct Hreg as (Hr & H). split; [exact Hr|].
  destruct r as [p|e]; [|exact H].
  destruct H as (Hp & Hn & Hd). split; [exact Hp|]. split; [exact Hn|].
  exists bufnr, ed. split; [reflexivity|exact Hd].
Qed.

(** X17.  openDiff registers or fails.  Whatever the editor answers to its
    requests, openDiff calls no [resolve] function.  If it returns, the
    promise it awaits is a new one and the table holds, under the key built
    from the editor's process id and the number of the buffer just
    created, the record of that promise with the path of the new file and
    that number; the handlers read the same number back from the key, and
    every record under another key is as before.  If a request fails,
    openDiff throws with the table unchanged. *)
Theorem openDiff_registers old_file_path new_file_path new_file_contents tab_name
    (s : McpTools.State) :
  let r := (Tools.openDiff vim_command vim_exists nvim_create_buf buffer_setOption
     buffer_setLines buffer_set_name extname
     old_file_path new_file_path new_file_contents tab_name s) in
  resolve_calls (McpTools.world (snd r)) = resolve_calls (McpTools.world s) /\
  match fst r with
  | Ok p =>
      p = next_promise (McpTools.world s) /\
      exists bufnr ed,
        nvim_create_buf (nvim (McpTools.world s)) = (Ok bufnr, ed) /\
        let key := McpTools.changeId_of (Nvim.pid ed) (Some bufnr) in
        McpTools.diffPromises (snd r) !! key =
          Some {| McpTools.resolve := p; McpTools.filePath := new_file_path;
                  McpTools.bufnr := bufnr |} /\
        buffer_of_key key = Some bufnr /\
        forall other, other <> key ->
          McpTools.diffPromises (snd r) !! other = McpTools.diffPromises s !! other
  | Throw _ => McpTools.diffPromises (snd r) = McpTools.diffPromises s
  end.
Proof.
  cbv zeta.
  pose proof (openDiff_spec old_file_path new_file_path new_file_contents tab_name s)
    as (Hr & H).
  split; [exact Hr|].
  destruct (fst _) as [p|e]; [|by destruct H].
  destruct H as (Hp & _ & bufnr & ed & Ec & Hd).
  split; [exact Hp|]. exists bufnr, ed. split; [exact Ec|].
  split; [rewrite Hd; apply lookup_insert_eq|].
  split; [apply buffer_of_key_build|].
  intros other Hne. rewrite Hd. by apply lookup_insert_ne.
Qed.

(** X18.  openDiff, then accept or drop.  Let openDiff return the promise [p],
    not settled before, for the buffer the editor created, and let the
    editor then hold that buffer with the lines the proposed contents were
    split into.  Then acceptChanges for the key of the diff returns [true]
    and settles [p] with FILE_SAVED and exactly the proposed contents, and
    dropChanges would instead return [true] and settle [p] with
    DIFF_REJECTED; either removes the record. *)
Theorem openDiff_round_trip (logger : option string)
    old_file_path new_file_path new_file_contents tab_name
    (s : McpTools.State) p s' bufnr ed b :
  (Tools.openDiff vim_command vim_exists nvim_create_buf buffer_setOption
     buffer_setLines buffer_set_name extname
     old_file_path new_file_path new_file_contents tab_name s) = (Ok p, s') ->
  nvim_create_buf (nvim (McpTools.world s)) = (Ok bufnr, ed) ->
  Promise.settled p (resolve_calls (McpTools.world s)) = None ->
  Nvim.find_buffer (Some bufnr) (Nvim.buffers (nvim (McpTools.world s'))) = Some b ->
  Nvim.buf_lines b = Js.split (ascii_of_nat 10) new_file_contents ->
  let key := McpTools.changeId_of (Nvim.pid ed) (Some bufnr) in
  exists sa sd,
    McpTools.acceptChanges logger key s' = (Ok true, sa) /\
    Promise.settled p (resolve_calls (McpTools.world sa))
      = Some (McpTools.FILE_SAVED new_file_contents) /\
    McpTools.diffPromises sa !! key = None /\
    McpTools.dropChanges logger key s' = (Ok true, sd) /\
    Promise.settled p (resolve_calls (McpTools.world sd)) = Some McpTools.DIFF_REJECTED /\
    McpTools.diffPromises sd !! key = None.
Proof.
  intros E Ec Hpending Hb Hlines key.
  pose proof (openDiff_spec old_file_path new_file_path new_file_contents tab_name s)
    as (Hr & H).
  cbv zeta in Hr, H. rewrite E in Hr, H. simpl in Hr, H.
  destruct H as (Hp & _ & bufnr' & ed' & Ec' & Hd).
  rewrite Ec in Ec'. injection Ec' as <- <-. fold key in Hd.
  set (e := {| McpTools.resolve := p; McpTools.filePath := new_file_path;
               McpTools.bufnr := bufnr |}) in *.
  assert (McpTools.diffPromises s' !! key = Some e) as He
    by (rewrite Hd; apply lookup_insert_eq).
  assert (Nvim.find_buffer (buffer_of_key key)
            (Nvim.buffers (nvim (McpTools.world s'))) = Some b) as Hb'
    by (unfold key; by rewrite buffer_of_key_build).
  eexists _, _.
  split; [exact (acceptChanges_found logger key e b s' He Hb')|].
  split.
  { unfold accepted. simpl. rewrite Hr, Hlines.
    change McpTools.LF with (String (ascii_of_nat 10) "").
    unfold Js.split. rewrite join_split_go, append_nil.
    by apply settled_first_call. }
  split; [unfold accepted; simpl; apply lookup_delete_eq|].
  split; [exact (dropChanges_present logger key e s' He)|].
  destruct (clear_modified_facts key s') as (Hcd & Hcr & _).
  split.
  { unfold dropped. simpl. rewrite Hcr, Hr. by apply settled_first_call. }
  unfold dropped. simpl. apply lookup_delete_eq.
Qed.

End OpenDiff.

Lemma openDiff_round_trip_witness :
  exists sa,
    McpTools.acceptChanges (Some "MCP") "4242/7" (snd sample_openDiff) = (Ok true, sa) /\
    Promise.settled 1 (resolve_calls (McpTools.world sa))
      = Some (McpTools.FILE_SAVED ("new" +:+ McpTools.LF +:+ "text")).
Proof.
  destruct (openDiff_round_trip sample_command sample_exists sample_create_buf
              sample_setOption sample_setLines sample_set_name sample_extname
              (Some "MCP") "/a.txt" "/a.txt" ("new" +:+ McpTools.LF +:+ "text") "tab1"
              idle_tools 1%nat (snd sample_openDiff) 7
              (snd (sample_create_buf (nvim (McpTools.world idle_tools))))
              (sample_buffer 7 "tab1" ["new"; "text"] true))
    as (sa & sd & Ea & Hs & _).
  - vm_compute. reflexivity.
  - reflexivity.
  - reflexivity.
  - vm_compute. reflexivity.
  - vm_compute. reflexivity.
  - exists sa. split; [exact Ea|exact Hs].
Defined.

Section CloseAll.

Variable logger : option string.
Variable vim_command : string -> Nvim.Editor -> Res unit * Nvim.Editor.
Variable entries : gmap string McpTools.DiffEntry -> list (string * McpTools.DiffEntry).

Lemma close_each_spec l : forall closedCount (s : McpTools.State),
  exists n s',
    Tools.close_each logger vim_command l closedCount s = (Ok n, s') /\
    closedCount <= n <= closedCount + Z.of_nat (List.length l) /\
    same_table s s' /\
    ((forall cmd ed, fst (vim_command cmd ed) = Ok tt) ->
     n = closedCount + Z.of_nat (List.length l)) /\
    ((forall cmd ed, fst (vim_command cmd ed) <> Ok tt) -> n = closedCount).
Proof.
  induction l as [|[k e] l IH]; intros c s.
  - exists c, s. split; [done|]. simpl. split; [lia|]. split; [apply same_table_refl|].
    split; intros _; lia.
  - simpl. unfold bind at 1, try_catch, bind at 1, McpTools.nvim_command.
    destruct (vim_command _ _) as [[[]|msg] ed] eqn:Ec; simpl.
    + match goal with
      | |- context [Tools.close_each _ _ l (c + 1) ?st] =>
          destruct (IH (c + 1) st) as (n & s' & E & Hn & Hsame & Hall & Hnone)
      end.
      exists n, s'. split; [exact E|]. split; [lia|].
      split; [eapply same_table_trans; [|exact Hsame]; by repeat split|].
      split.
      * intros H. rewrite (Hall H). lia.
      * intros H.
        specialize (H ("bdelete! " +:+ pretty (McpTools.bufnr e)) (nvim (McpTools.world s))).
        by rewrite Ec in H.
    + match goal with
      | |- context [Tools.close_each _ _ l c ?st] =>
          destruct (IH c st) as (n & s' & E & Hn & Hsame & Hall & Hnone)
      end.
      exists n, s'. split; [exact E|]. split; [lia|].
      split; [eapply same_table_trans; [|exact Hsame]; by repeat split|].
      split.
      * intros H.
        specialize (H ("bdelete! " +:+ pretty (McpTools.bufnr e)) (nvim (McpTools.world s))).
        by rewrite Ec in H.
      * intros H. by rewrite (Hnone H).
Qed.

(** X19.  closeAllDiffTabs.  Whatever order the records come in, the tool never
    throws, calls no [resolve] function and leaves every record in the
    table, so every open diff stays pending.  Its answer is
    CLOSED_n_DIFF_TABS with n between 0 and the number of records: n is
    that number when the editor accepts every command and 0 when it
    rejects every command. *)
Theorem closeAllDiffTabs_counts (s : McpTools.State) :
  (forall m, entries m ≡ₚ map_to_list m) ->
  exists n s',
    Tools.closeAllDiffTabs logger vim_command entries s
      = (Ok [Promise.TextItem ("CLOSED_" +:+ pretty n +:+ "_DIFF_TABS")], s') /\
    0 <= n <= Z.of_nat (size (McpTools.diffPromises s)) /\
    McpTools.diffPromises s' = McpTools.diffPromises s /\
    resolve_calls (McpTools.world s') = resolve_calls (McpTools.world s) /\
    ((forall cmd ed, fst (vim_command cmd ed) = Ok tt) ->
     n = Z.of_nat (size (McpTools.diffPromises s))) /\
    ((forall cmd ed, fst (vim_command cmd ed) <> Ok tt) -> n = 0).
Proof.
  intros Hperm.
  assert (List.length (entries (McpTools.diffPromises s))
          = size (McpTools.diffPromises s)) as Hlen.
  { rewrite (Hperm _). apply length_map_to_list. }
  destruct (close_each_spec (entries (McpTools.diffPromises s)) 0 s)
    as (n & s' & E & Hn & (Hd & _ & Hr) & Hall & Hnone).
  rewrite Hlen in Hn, Hall. exists n, s'. split.
  { unfold Tools.closeAllDiffTabs. unfold bind at 1, gets at 1.
    unfold bind at 1. rewrite E. reflexivity. }
  split; [lia|]. split; [done|]. split; [done|]. split.
  - intros H. rewrite (Hall H). lia.
  - exact Hnone.
Qed.

End CloseAll.

Lemma closeAllDiffTabs_counts_witness :
  exists s',
    Tools.closeAllDiffTabs (Some "MCP") inert_command key_order
      (sample_tools [file_buffer; diff_buffer])
      = (Ok [Promise.TextItem "CLOSED_1_DIFF_TABS"], s') /\
    McpTools.diffPromises s' = sample_table.
Proof.
  destruct (closeAllDiffTabs_counts (Some "MCP") inert_command key_order
              (sample_tools [file_buffer; diff_buffer]))
    as (n & s' & E & _ & Hd & _ & Hall & _).
  - intros m. reflexivity.
  - exists s'. rewrite (Hall (fun _ _ => eq_refl)) in E. split; [exact E|exact Hd].
Defined.

Lemma startsWith_app prefix s : Tools.startsWith prefix (prefix +:+ s) = true.
Proof.
  induction prefix as [|a prefix IH]; [done|].
  rewrite append_cons. simpl. by rewrite Ascii.eqb_refl, IH.
Qed.

Lemma drop_app prefix s : Js.drop (String.length prefix) (prefix +:+ s) = s.
Proof. induction prefix as [|a prefix IH]; [done|]. by rewrite append_cons. Qed.

Lemma substring_from_app prefix s :
  Js.substring_from (prefix +:+ s) (Z.of_nat (String.length prefix)) = s.
Proof.
  unfold Js.substring_from, Js.substring, Js.clamp.
  rewrite string_length_app.
  set (a := Z.of_nat (String.length prefix)).
  set (len := Z.of_nat (String.length prefix + String.length s)).
  assert (len = a + Z.of_nat (String.length s)) as Hlen by (unfold len, a; lia).
  assert (Z.max 0 (Z.min a len) = a) as -> by lia.
  assert (Z.max 0 (Z.min len len) = len) as -> by lia.
  assert (Z.min a len = a) as -> by lia.
  assert (Z.max a len = len) as -> by lia.
  replace (len - a) with (Z.of_nat (String.length s)) by lia.
  unfold a. rewrite !Nat2Z.id, drop_app. apply take_all.
Qed.

Lemma startsWith_slash path :
  Tools.startsWith "/" path = true -> exists rest, path = String "/" rest.
Proof.
  destruct path as [|c path]; [done|]. cbn [Tools.startsWith].
  destruct (Ascii.eqb_spec "/"%char c) as [<-|]; [eauto|done].
Qed.

Section Diagnostics.

Variable vim_bufnr : Nvim.Editor -> string -> Z.
Variable vim_diagnostic_get :
  option Z -> Nvim.Editor -> Res (list Tools.Diagnostic) * Nvim.Editor.
Variable vim_bufname : Nvim.Editor -> Z -> string.
Variable stringify : list Tools.Formatted -> string.

(** X20.  getDiagnostics never throws and never touches the pending diffs: it
    always answers with one text item holding a serialised list.  The list
    is empty when the request for the diagnostics fails, and, without any
    request for diagnostics or change of state, when a URI or path is
    given that the editor knows no buffer for. *)
Theorem getDiagnostics_never_throws (uri : option string) (s : McpTools.State) :
  exists formatted s',
    Tools.getDiagnostics vim_bufnr vim_diagnostic_get vim_bufname stringify uri s
      = (Ok [Promise.TextItem (stringify formatted)], s') /\
    McpTools.diffPromises s' = McpTools.diffPromises s /\
    resolve_calls (McpTools.world s') = resolve_calls (McpTools.world s) /\
    ((forall bufnr ed ds, fst (vim_diagnostic_get bufnr ed) <> Ok ds) ->
     formatted = []) /\
    (forall u, uri = Some u -> u <> "" ->
       vim_bufnr (nvim (McpTools.world s))
         (if Tools.startsWith "file://" u then Js.substring_from u 7 else u) = -1 ->
       formatted = [] /\ s' = s).
Proof.
  unfold Tools.getDiagnostics, try_catch.
  assert (forall fileName,
    exists formatted s',
      (diagnostics <- Tools.request (vim_diagnostic_get fileName.1) ;;
       ed <- gets (fun s => nvim (McpTools.world s)) ;;
       ret [Promise.TextItem
              (stringify (List.map (Tools.format_diagnostic vim_bufname fileName.2 ed)
                            diagnostics))]) s
      = (match fst (vim_diagnostic_get fileName.1 (nvim (McpTools.world s))) with
         | Ok _ => Ok [Promise.TextItem (stringify formatted)]
         | Throw e => Throw e
         end, s') /\
      same_table s s' /\
      ((forall ds, fst (vim_diagnostic_get fileName.1 (nvim (McpTools.world s))) <> Ok ds) ->
       formatted = [])) as Hcall.
  { intros [bufnr fileName]. unfold bind, Tools.request, gets, ret. simpl.
    destruct (vim_diagnostic_get bufnr _) as [[ds|e] ed]; simpl.
    - eexists _, _. split; [reflexivity|]. split; [by repeat split|].
      intros H. by destruct (H ds).
    - exists [], (McpTools.with_world (with_nvim (fun _ => ed)) s).
      split; [reflexivity|]. split; [by repeat split|]. done. }
  destruct uri as [u|].
  - destruct (String.eqb_spec u "") as [->|Hu].
    + destruct (Hcall (None, None)) as (formatted & s' & E & (Hd & _ & Hr) & Hnil).
      simpl in E. rewrite E.
      destruct (fst (vim_diagnostic_get None _)) eqn:Ef.
      * exists formatted, s'. split; [done|]. split; [done|]. split; [done|].
        split; [|by intros ? [= <-]].
        intros H. apply Hnil. intros ds. apply H.
      * exists [], s'. split; [done|]. split; [done|]. split; [done|].
        split; [done|by intros ? [= <-]].
    + set (filePath := if Tools.startsWith "file://" u then Js.substring_from u 7 else u).
      unfold bind at 1, gets at 1.
      destruct (Z.eqb_spec (vim_bufnr (nvim (McpTools.world s)) filePath) (-1)) as [Hb|Hb].
      * exists [], s. unfold ret. split; [done|]. split; [done|]. split; [done|].
        split; [done|]. intros u' [= <-] _ _. done.
      * destruct (Hcall (Some (vim_bufnr (nvim (McpTools.world s)) filePath), Some filePath))
          as (formatted & s' & E & (Hd & _ & Hr) & Hnil).
        simpl in E. rewrite E.
        destruct (fst (vim_diagnostic_get (Some _) _)) eqn:Ef.
        -- exists formatted, s'. split; [done|]. split; [done|]. split; [done|].
           split.
           ++ intros H. apply Hnil. intros ds. apply H.
           ++ intros u' [= <-] _ Hm. done.
        -- exists [], s'. split; [done|]. split; [done|]. split; [done|].
           split; [done|]. intros u' [= <-] _ Hm. done.
  - destruct (Hcall (None, None)) as (formatted & s' & E & (Hd & _ & Hr) & Hnil).
    simpl in E. rewrite E.
    destruct (fst (vim_diagnostic_get None _)) eqn:Ef.
    + exists formatted, s'. split; [done|]. split; [done|]. split; [done|].
      split; [|done].
      intros H. apply Hnil. intros ds. apply H.
    + exists [], s'. split; [done|]. split; [done|]. split; [done|]. split; done.
Qed.

(** X21.  getDiagnostics for one file.  For an absolute path of a buffer the
    editor knows, given either as the path or as its "file://" URI, every
    diagnostic returned carries the "file://" URI of the path, the message,
    the severity and the start position as the editor gave them.  The end
    position is the one given when both its line and its character are
    present and not 0; an end line or end character that is absent or 0 is
    replaced by the one of the start, and an absent or empty source by
    "neovim". *)
Theorem getDiagnostics_uri path (s : McpTools.State) bufnr ds ed' :
  Tools.startsWith "/" path = true ->
  vim_bufnr (nvim (McpTools.world s)) path = bufnr ->
  bufnr <> -1 ->
  vim_diagnostic_get (Some bufnr) (nvim (McpTools.world s)) = (Ok ds, ed') ->
  forall u, u = path \/ u = "file://" +:+ path ->
  exists formatted,
    Tools.getDiagnostics vim_bufnr vim_diagnostic_get vim_bufname stringify (Some u) s
      = (Ok [Promise.TextItem (stringify formatted)],
         McpTools.with_world (with_nvim (fun _ => ed')) s) /\
    Forall2
      (fun d f =>
         Tools.uri f = "file://" +:+ path /\
         Tools.message f = Tools.diag_message d /\
         Tools.severity f = Tools.diag_severity d /\
         Tools.range_start f = (Tools.diag_lnum d, Tools.diag_col d) /\
         (Tools.diag_end_lnum d = None \/ Tools.diag_end_lnum d = Some 0 ->
          fst (Tools.range_end f) = Tools.diag_lnum d) /\
         (Tools.diag_end_col d = None \/ Tools.diag_end_col d = Some 0 ->
          snd (Tools.range_end f) = Tools.diag_col d) /\
         (forall l c, l <> 0 -> c <> 0 ->
            Tools.diag_end_lnum d = Some l -> Tools.diag_end_col d = Some c ->
            Tools.range_end f = (l, c)) /\
         (Tools.diag_source d = None \/ Tools.diag_source d = Some "" ->
          Tools.source f = "neovim"))
      ds formatted.
Proof.
  intros Hslash Hb Hne Hget u Hu.
  assert (path <> "") as Hpath by (intros ->; done).
  assert (u <> "") as Hu'.
  { destruct Hu as [-> | ->]; [done|]. by rewrite append_cons. }
  assert ((if Tools.startsWith "file://" u then Js.substring_from u 7 else u) = path) as Hfile.
  { destruct Hu as [-> | ->].
    - by destruct (startsWith_slash path Hslash) as [rest ->].
    - rewrite startsWith_app. exact (substring_from_app "file://" path). }
  exists (List.map (Tools.format_diagnostic vim_bufname (Some path) ed') ds).
  split.
  { unfold Tools.getDiagnostics, try_catch.
    destruct (String.eqb_spec u ""); [done|].
    rewrite Hfile. unfold bind at 1, gets at 1. rewrite Hb.
    destruct (Z.eqb_spec bufnr (-1)); [done|].
    unfold bind, Tools.request, gets, ret. rewrite Hget. reflexivity. }
  apply Forall2_fmap_r, Forall_Forall2_diag, Forall_forall. intros d _.
  unfold Tools.format_diagnostic.
  cbn [Tools.uri Tools.message Tools.severity Tools.range_start Tools.range_end
       Tools.source].
  destruct (String.eqb_spec path ""); [done|]. cbn [negb].
  destruct (String.eqb_spec path ""); [done|]. rewrite Hslash.
  split; [done|]. split; [done|]. split; [done|]. split; [done|].
  split; [by intros [-> | ->]|]. split; [by intros [-> | ->]|].
  split.
  { intros l c Hl Hc -> ->. simpl.
    destruct (Z.eqb_spec l 0); [done|]. by destruct (Z.eqb_spec c 0). }
  by intros [-> | ->].
Qed.

End Diagnostics.

Lemma getDiagnostics_never_throws_witness :
  exists formatted s',
    Tools.getDiagnostics exact_bufnr sample_diagnostic_get sample_bufname sample_stringify
      (Some "file:///missing.txt") (sample_tools [file_buffer])
      = (Ok [Promise.TextItem (sample_stringify formatted)], s') /\
    formatted = [] /\ s' = sample_tools [file_buffer].
Proof.
  destruct (getDiagnostics_never_throws exact_bufnr sample_diagnostic_get sample_bufname
              sample_stringify (Some "file:///missing.txt") (sample_tools [file_buffer]))
    as (formatted & s' & E & _ & _ & _ & H).
  exists formatted, s'. split; [exact E|].
  apply (H "file:///missing.txt"); [reflexivity|discriminate|vm_compute; reflexivity].
Defined.

Lemma getDiagnostics_uri_witness :
  exists formatted,
    Tools.getDiagnostics exact_bufnr sample_diagnostic_get sample_bufname sample_stringify
      (Some "file:///a.txt") (sample_tools [file_buffer])
      = (Ok [Promise.TextItem (sample_stringify formatted)],
         McpTools.with_world
           (with_nvim (fun _ => nvim (McpTools.world (sample_tools [file_buffer]))))
           (sample_tools [file_buffer])) /\
    List.length formatted = 1%nat.
Proof.
  destruct (getDiagnostics_uri exact_bufnr sample_diagnostic_get sample_bufname
              sample_stringify "/a.txt" (sample_tools [file_buffer]) 1 [sample_diagnostic]
              (nvim (McpTools.world (sample_tools [file_buffer]))))
    with (u := "file:///a.txt") as (formatted & E & H).
  - reflexivity.
  - reflexivity.
  - discriminate.
  - reflexivity.
  - right. reflexivity.
  - exists formatted. split; [exact E|]. symmetry. exact (Forall2_length _ _ _ H).
Defined.

(** ** Logging, close_tab and the lock file *)

Lemma upper_char_idem c : Logger.upper_char (Logger.upper_char c) = Logger.upper_char c.
Proof. destruct c as [[] [] [] [] [] [] [] []]; reflexivity. Qed.

Lemma toUpperCase_idem s : Logger.toUpperCase (Logger.toUpperCase s) = Logger.toUpperCase s.
Proof. induction s as [|c s IH]; [done|]. simpl. by rewrite upper_char_idem, IH. Qed.

Lemma toUpperCase_empty s : Logger.toUpperCase s = "" <-> s = "".
Proof. by destruct s. Qed.

Lemma logs_not_skips threshold level : logs threshold level -> ~ skips threshold level.
Proof.
  intros Hl Hs.
  pose proof (Hl "" "" (sample_editor [])) as H1.
  rewrite (Hs "" "" (sample_editor [])) in H1. discriminate.
Qed.

Lemma logs_or_skips threshold level :
  (Nvim.level_num level <= Nvim.level_num threshold -> logs threshold level) /\
  (Nvim.level_num threshold < Nvim.level_num level -> skips threshold level).
Proof.
  split; intros H prefix message ed; unfold write_line.
  - destruct (Z.ltb_spec (Nvim.level_num threshold) (Nvim.level_num level)); [lia|done].
  - destruct (Z.ltb_spec (Nvim.level_num threshold) (Nvim.level_num level)); [done|lia].
Qed.

(** X22.  The log level.  The level read from CLAUDE_IDE_LOG_LEVEL does not
    depend on the case of the letters.  Whatever the variable holds, error
    messages are written, and a logger that writes the messages of one
    level writes those of every more severe level.  Debug messages are
    written exactly when the variable spells "debug" in some case.  When
    the variable is unset or names none of error, warn, warning and debug,
    info messages are written and debug messages are not. *)
Theorem log_filter (env : option string) :
  let threshold := Logger.parseLogLevel env in
  Logger.parseLogLevel (Logger.toUpperCase <$> env) = threshold /\
  logs threshold Nvim.ERROR /\
  (forall level level',
     Nvim.level_num level' <= Nvim.level_num level ->
     logs threshold level -> logs threshold level') /\
  (logs threshold Nvim.DEBUG <->
   exists l, env = Some l /\ Logger.toUpperCase l = "DEBUG") /\
  ((forall l, env = Some l ->
      Logger.toUpperCase l <> "ERROR" /\ Logger.toUpperCase l <> "WARN" /\
      Logger.toUpperCase l <> "WARNING" /\ Logger.toUpperCase l <> "DEBUG") ->
   logs threshold Nvim.INFO /\ skips threshold Nvim.DEBUG).
Proof.
  cbv zeta. split.
  { destruct env as [l|]; [|done]. cbn [fmap option_fmap option_map].
    unfold Logger.parseLogLevel. rewrite toUpperCase_idem.
    destruct (String.eqb_spec l "") as [->|Hl]; [done|].
    destruct (String.eqb_spec (Logger.toUpperCase l) "") as [E|_]; [|done].
    destruct Hl. by apply toUpperCase_empty. }
  split.
  { apply logs_or_skips. destruct (Logger.parseLogLevel env); simpl; lia. }
  split.
  { intros level level' Hle Hlogs. apply logs_or_skips.
    destruct (Z.le_gt_cases (Nvim.level_num level) (Nvim.level_num (Logger.parseLogLevel env)))
      as [H|H]; [lia|].
    destruct (logs_not_skips _ _ Hlogs). apply logs_or_skips. lia. }
  split.
  { split.
    - intros Hlogs.
      assert (Logger.parseLogLevel env = Nvim.DEBUG) as Hd.
      { destruct (Logger.parseLogLevel env) eqn:E; [| | |done];
          destruct (logs_not_skips _ _ Hlogs); apply logs_or_skips; simpl; lia. }
      destruct env as [l|]; [|done]. exists l. split; [done|].
      unfold Logger.parseLogLevel in Hd.
      destruct (String.eqb l ""); [done|].
      destruct (String.eqb (Logger.toUpperCase l) "ERROR"); [done|].
      destruct (_ || _); [done|].
      destruct (String.eqb (Logger.toUpperCase l) "INFO"); [done|].
      destruct (String.eqb_spec (Logger.toUpperCase l) "DEBUG"); done.
    - intros (l & -> & Hl). apply logs_or_skips. unfold Logger.parseLogLevel.
      destruct (String.eqb_spec l "") as [->|_]; [done|]. rewrite Hl. simpl. lia. }
  intros Hunknown.
  assert (Logger.parseLogLevel env = Nvim.INFO) as ->.
  { destruct env as [l|]; [|done]. unfold Logger.parseLogLevel.
    destruct (Hunknown l eq_refl) as (H1 & H2 & H3 & H4).
    destruct (String.eqb l ""); [done|].
    destruct (String.eqb_spec (Logger.toUpperCase l) "ERROR"); [done|].
    destruct (String.eqb_spec (Logger.toUpperCase l) "WARN"); [done|].
    destruct (String.eqb_spec (Logger.toUpperCase l) "WARNING"); [done|]. simpl.
    destruct (String.eqb (Logger.toUpperCase l) "INFO"); [done|].
    by destruct (String.eqb_spec (Logger.toUpperCase l) "DEBUG"). }
  split; apply logs_or_skips; simpl; lia.
Qed.

Lemma log_filter_witness :
  logs (Logger.parseLogLevel (Some "verbose")) Nvim.INFO /\
  skips (Logger.parseLogLevel (Some "verbose")) Nvim.DEBUG.
Proof.
  destruct (log_filter (Some "verbose")) as (_ & _ & _ & _ & H).
  apply H. intros l [= <-]. vm_compute. repeat split; discriminate.
Defined.

(** X23.  close_tab for a tab the editor knows.  The buffer is deleted with
    "bdelete!" when its key is pending in the client's table and with
    "bdelete" otherwise.  The tool answers TAB_CLOSED when the editor
    accepts the command and throws the editor's error when it does not.
    In both cases it calls no [resolve] function and leaves the table as it
    was: closing the tab of a diff does not settle the diff. *)
Theorem close_tab_found vim_bufnr vim_command tab_name (s : McpTools.State) :
  let ed := nvim (McpTools.world s) in
  let n := vim_bufnr ed tab_name in
  let cmd :=
    (if pending (McpTools.changeId_of (Nvim.pid ed) (Some n)) (McpTools.diffPromises s)
     then "bdelete! " else "bdelete ") +:+ pretty n in
  n <> -1 ->
  exists s',
    McpTools.close_tab vim_bufnr vim_command tab_name s =
      (match fst (vim_command cmd ed) with
       | Ok _ => Ok McpTools.TAB_CLOSED
       | Throw message => Throw message
       end, s') /\
    nvim (McpTools.world s') = snd (vim_command cmd ed) /\
    McpTools.diffPromises s' = McpTools.diffPromises s /\
    resolve_calls (McpTools.world s') = resolve_calls (McpTools.world s).
Proof.
  intros ed n cmd Hn.
  unfold McpTools.close_tab, McpTools.nvim_command. unfold_monad.
  fold ed. fold n. destruct (Z.eqb_spec n (-1)); [done|]. simpl.
  unfold cmd, pending.
  destruct (bool_decide _); simpl.
  all: change (nvim (McpTools.world s)) with ed.
  all: destruct (vim_command _ ed) as [[[]|e] ed']; simpl.
  all: eexists; by repeat split.
Qed.

Lemma close_tab_found_witness :
  exists s',
    McpTools.close_tab exact_bufnr inert_command "tab1"
      (sample_tools [file_buffer; diff_buffer]) = (Ok McpTools.TAB_CLOSED, s') /\
    McpTools.diffPromises s' = sample_table.
Proof.
  destruct (close_tab_found exact_bufnr inert_command "tab1"
              (sample_tools [file_buffer; diff_buffer]))
    as (s' & E & _ & Hd & _).
  - vm_compute. discriminate.
  - exists s'. split; [exact E|exact Hd].
Defined.

(** X24.  The 'close' listener of the server never throws.  After it the lock
    file of the server does not exist, every other file and every
    directory is as before, and running it again changes nothing; without
    a lock file it changes nothing at all. *)
Theorem lock_cleanup (server : WsServer.Wss) (w : World) :
  exists w',
    WsServer.on_close server w = (Ok tt, w') /\
    files w' !! WsServer.wss_lockFilePath server = None /\
    (forall other, other <> WsServer.wss_lockFilePath server ->
       files w' !! other = files w !! other) /\
    dirs w' = dirs w /\
    (files w !! WsServer.wss_lockFilePath server = None -> w' = w) /\
    WsServer.on_close server w' = (Ok tt, w').
Proof.
  eexists. split; [apply on_close_spec|]. simpl.
  split; [apply lookup_delete_eq|].
  split; [intros other Hne; by apply lookup_delete_ne|].
  split; [done|]. split.
  { intros Hnone. unfold unlink_events. rewrite Hnone, app_nil_r.
    rewrite delete_id by done. by destruct w. }
  rewrite on_close_spec. simpl. unfold unlink_events. simpl.
  rewrite lookup_delete_eq, app_nil_r. f_equal. f_equal.
  apply delete_id, lookup_delete_eq.
Qed.

Lemma lock_cleanup_witness :
  exists w',
    WsServer.on_close sample_wss (sample_world [file_buffer]) = (Ok tt, w') /\
    w' = sample_world [file_buffer].
Proof.
  destruct (lock_cleanup sample_wss (sample_world [file_buffer]))
    as (w' & E & _ & _ & _ & H & _).
  exists w'. split; [exact E|]. apply H. vm_compute. reflexivity.
Defined.

(** ** A diff from the tool call to its acceptance *)

Lemma pending_count_zero k hs :
  pending_count k hs = 0%nat -> forall t, t ∈ hs -> t !! k = None.
Proof.
  induction hs as [|h hs IH]; intros H t Hin; [by apply elem_of_nil in Hin|].
  rewrite pending_count_cons in H.
  destruct (pending k h) eqn:Ep; [lia|].
  apply elem_of_cons in Hin as [->|Hin].
  - by apply pending_lookup_None.
  - apply IH; [lia|done].
Qed.

Lemma pending_count_pos k hs t e :
  t ∈ hs -> t !! k = Some e -> (0 < pending_count k hs)%nat.
Proof.
  induction hs as [|h hs IH]; intros Hin Ht; [by apply elem_of_nil in Hin|].
  rewrite pending_count_cons.
  apply elem_of_cons in Hin as [<-|Hin].
  - rewrite (pending_lookup_Some _ _ _ Ht). lia.
  - specialize (IH Hin Ht). lia.
Qed.

Lemma elem_of_insert_inv {A} (l : list A) i x t :
  t ∈ <[i := x]> l -> t = x \/ t ∈ l.
Proof.
  intros Hin. apply list_elem_of_lookup in Hin as [j Hj].
  destruct (decide (i = j)) as [->|Hne].
  - destruct (decide (j < length l)%nat) as [Hlt|Hge].
    + rewrite list_lookup_insert_eq in Hj by done. left. congruence.
    + rewrite list_insert_ge in Hj by lia. right. by eapply list_elem_of_lookup_2.
  - rewrite list_lookup_insert_ne in Hj by done. right. by eapply list_elem_of_lookup_2.
Qed.

Section EndToEnd.

Variable vim_command : string -> Nvim.Editor -> Res unit * Nvim.Editor.
Variable vim_exists : Nvim.Editor -> string -> Z.
Variable nvim_create_buf : Nvim.Editor -> Res Z * Nvim.Editor.
Variable buffer_setOption :
  Z -> string -> Tools.OptionValue -> Nvim.Editor -> Res unit * Nvim.Editor.
Variable buffer_setLines : Z -> list string -> Nvim.Editor -> Res unit * Nvim.Editor.
Variable buffer_set_name : Z -> string -> Nvim.Editor -> Nvim.Editor.
Variable extname : string -> string.

(** X25.  From openDiff to :ClaudeAccept.  On a running server, let a client
    call openDiff and let the call register the promise [promise], not
    settled before, for the buffer the editor created, under a key that is
    pending in no client's table.  Let the editor afterwards have the same
    process id, show that buffer as the current one and hold in it the
    lines the proposed contents were split into.  Then :ClaudeAccept
    returns normally, the promise is settled with FILE_SAVED and exactly
    the proposed contents, and the buffer's modified flag is cleared. *)
Theorem diff_saved_by_ClaudeAccept (p : Plugin.State) mgr i table
    old_file_path new_file_path new_file_contents tab_name promise p1 bufnr ed0 b :
  Plugin.running p = Some mgr ->
  Manager.changeHandlers mgr !! i = Some table ->
  Plugin.call mgr
    (tool_call i
       (Tools.openDiff vim_command vim_exists nvim_create_buf buffer_setOption
          buffer_setLines buffer_set_name extname
          old_file_path new_file_path new_file_contents tab_name)) p
    = (Ok promise, p1) ->
  nvim_create_buf (nvim (Plugin.world p)) = (Ok bufnr, ed0) ->
  Promise.settled promise (resolve_calls (Plugin.world p)) = None ->
  pending_count (McpTools.changeId_of (Nvim.pid ed0) (Some bufnr))
    (Manager.changeHandlers mgr) = 0%nat ->
  let ed1 := nvim (Plugin.world p1) in
  Nvim.pid ed1 = Nvim.pid ed0 ->
  Nvim.current ed1 = bufnr ->
  Nvim.find_buffer (Some bufnr) (Nvim.buffers ed1) = Some b ->
  Nvim.buf_lines b = Js.split (ascii_of_nat 10) new_file_contents ->
  exists p2,
    Plugin.ClaudeAccept p1 = (Ok tt, p2) /\
    Promise.settled promise (resolve_calls (Plugin.world p2))
      = Some (McpTools.FILE_SAVED new_file_contents) /\
    Nvim.find_buffer (Some bufnr) (Nvim.buffers (nvim (Plugin.world p2)))
      = Some (Nvim.set_modified false b).
Proof.
  intros Hrun Hi Hopen Hc Hpending Hzero ed1 Hpid Hcur Hb Hlines.
  destruct (running_manager p mgr Hrun) as [Hm Hr].
  set (key := McpTools.changeId_of (Nvim.pid ed0) (Some bufnr)) in *.
  set (s0 := {| McpTools.diffPromises := table; McpTools.world := Plugin.world p |}).
  pose proof (openDiff_spec vim_command vim_exists nvim_create_buf buffer_setOption
                buffer_setLines buffer_set_name extname
                old_file_path new_file_path new_file_contents tab_name s0) as Hspec.
  cbv zeta in Hspec.
  unfold Plugin.call, tool_call in Hopen. cbn [Manager.this Manager.world] in Hopen.
  rewrite Hi in Hopen. fold s0 in Hopen.
  destruct (Tools.openDiff _ _ _ _ _ _ _ _ _ _ _ s0) as [r s'] eqn:E.
  injection Hopen as -> <-. cbn [fst snd] in Hspec.
  destruct Hspec as (Hres & _ & _ & bufnr' & ed' & Hc' & Hd).
  cbn [McpTools.world s0] in Hc'. rewrite Hc in Hc'. injection Hc' as <- <-.
  fold key in Hd. cbn [McpTools.diffPromises McpTools.world s0] in Hd, Hres.
  set (e := {| McpTools.resolve := promise; McpTools.filePath := new_file_path;
               McpTools.bufnr := bufnr |}) in *.
  set (hs1 := <[i := McpTools.diffPromises s']> (Manager.changeHandlers mgr)).
  set (mgr1 := Manager.set_changeHandlers hs1 mgr).
  cbn [Plugin.world] in ed1. 
  assert (McpTools.diffPromises s' ∈ hs1) as Hin1.
  { apply list_elem_of_lookup. exists i. unfold hs1.
    apply list_lookup_insert_eq. by eapply lookup_lt_Some. }
  assert (McpTools.diffPromises s' !! key = Some e) as He
    by (rewrite Hd; apply lookup_insert_eq).
  assert (Nvim.find_buffer (buffer_of_key key) (Nvim.buffers ed1) = Some b) as Hb'
    by (unfold key; by rewrite buffer_of_key_build).
  destruct (first_handler_accept (Some Manager.logger) key b hs1 (McpTools.world s')
              (pending_count_pos key hs1 _ e Hin1 He) Hb')
    as (hs2 & w2 & t & e' & Ef & Hin & Ht & Hcalls & _ & Hbuf & _).
  assert (e' = e) as ->.
  { apply elem_of_insert_inv in Hin as [->|Hin]; [congruence|].
    rewrite (pending_count_zero key _ Hzero t Hin) in Ht. done. }
  exists {| Plugin.serverManager := Some (Manager.set_changeHandlers hs2 mgr1);
            Plugin.world := w2 |}.
  split.
  { unfold Plugin.ClaudeAccept, Plugin.changeId_of_current, Plugin.call,
      Manager.acceptChanges, Manager.for_handlers. unfold_monad.
    assert (Plugin.running
              {| Plugin.serverManager := Some mgr1; Plugin.world := McpTools.world s' |}
            = Some mgr1) as ->.
    { unfold Plugin.running. cbn [Plugin.serverManager].
      replace (Manager.isRunning mgr1) with true by (symmetry; exact Hr). done. }
    cbn [Plugin.world Manager.this Manager.world Manager.changeHandlers mgr1
         Manager.set_changeHandlers].
    fold ed1. rewrite Hpid, Hcur. fold key. rewrite Ef. reflexivity. }
  cbn [Plugin.world]. split.
  { rewrite Hcalls, Hlines.
    change McpTools.LF with (String (ascii_of_nat 10) "").
    unfold Js.split. rewrite join_split_go, append_nil.
    apply settled_first_call. by rewrite Hres. }
  rewrite Hbuf. exact (find_update_modified_self b _ (Some bufnr) Hb).
Qed.

End EndToEnd.

Lemma diff_saved_by_ClaudeAccept_witness :
  exists p2,
    Plugin.ClaudeAccept (snd diff_opened) = (Ok tt, p2) /\
    Promise.settled 1 (resolve_calls (Plugin.world p2))
      = Some (McpTools.FILE_SAVED ("new" +:+ McpTools.LF +:+ "text")).
Proof.
  destruct (diff_saved_by_ClaudeAccept sample_command sample_exists sample_create_buf
              sample_setOption sample_setLines sample_set_name sample_extname
              connected_plugin (Manager.this connected_manager) 0%nat ∅
              "/a.txt" "/a.txt" ("new" +:+ McpTools.LF +:+ "text") "tab1"
              1%nat (snd diff_opened) 7
              (snd (sample_create_buf (nvim (Plugin.world connected_plugin))))
              (sample_buffer 7 "tab1" ["new"; "text"] true))
    as (p2 & E & Hs & _).
  - vm_compute. reflexivity.
  - vm_compute. reflexivity.
  - vm_compute. reflexivity.
  - reflexivity.
  - vm_compute. reflexivity.
  - vm_compute. reflexivity.
  - vm_compute. reflexivity.
  - vm_compute. reflexivity.
  - vm_compute. reflexivity.
  - vm_compute. reflexivity.
  - exists p2. split; [exact E|exact Hs].
Defined.
